(** * projeto_clima: the weather lookup pipeline of [assets/js/scripts.js]

    A shallow embedding of the data-retrieval and normalisation pipeline
    (coordinate resolver, weather and forecast fetchers, WMO code
    translator, timestamp formatter and the submit handler that sequences
    them), followed by the properties of the specification that were
    checked against it.  The script exists in two revisions: the one of
    [assets/js/scripts.js], and a later one that adds [get5DayForecast] and
    the forecast block of the handler; the functions they share are the
    same in both.

    Conventions of the embedding:
    - a JavaScript string is the list of its UTF-16 code units;
    - a JavaScript number is an exact rational (the value of the JSON
      literal); IEEE rounding is not modelled;
    - [await] is sequential composition in a state-and-exception monad
      whose state records the requests sent, the clock and the page;
    - the parts of the ECMAScript runtime that depend on the host (clock,
      time zone, [Date.parse], locale formatting) are fields of a
      [Runtime] record. *)

From Stdlib Require Import ZArith NArith QArith Qround Qabs List String Ascii Bool Lia.
From Stdlib Require Import DecimalString DecimalZ.
From stdpp Require Import gmap list.

Set Default Proof Using "Type".

(* ===================================================================== *)
(** ** JavaScript strings *)
(* ===================================================================== *)

Abbreviation jsstring := (list N).

Module JsString.

Local Open Scope N_scope.

(** Source literals are written in UTF-8; [utf16_of_utf8] turns the bytes
    of a literal into the code units the engine holds. *)
Fixpoint utf16_of_utf8 (bs : list N) : jsstring :=
  match bs with
  | [] => []
  | b0 :: r0 =>
    if b0 <? 0x80 then b0 :: utf16_of_utf8 r0
    else
      match r0 with
      | [] => [0xFFFD]
      | b1 :: r1 =>
        if b0 <? 0xE0 then
          ((b0 - 0xC0) * 64 + (b1 - 0x80)) :: utf16_of_utf8 r1
        else
          match r1 with
          | [] => [0xFFFD]
          | b2 :: r2 =>
            if b0 <? 0xF0 then
              ((b0 - 0xE0) * 4096 + (b1 - 0x80) * 64 + (b2 - 0x80))
                :: utf16_of_utf8 r2
            else
              match r2 with
              | [] => [0xFFFD]
              | b3 :: r3 =>
                let cp := (b0 - 0xF0) * 262144 + (b1 - 0x80) * 4096
                          + (b2 - 0x80) * 64 + (b3 - 0x80) in
                let v := cp - 0x10000 in
                (0xD800 + v / 1024) :: (0xDC00 + v mod 1024)
                  :: utf16_of_utf8 r3
              end
          end
      end
  end.

Definition js (s : string) : jsstring :=
  utf16_of_utf8 (List.map N_of_ascii (list_ascii_of_string s)).

(** ECMAScript WhiteSpace and LineTerminator code points, the set that
    [String.prototype.trim] strips. *)
Definition isWhiteSpace (c : N) : bool :=
  (c =? 0x09) || (c =? 0x0A) || (c =? 0x0B) || (c =? 0x0C) || (c =? 0x0D)
  || (c =? 0x20) || (c =? 0xA0) || (c =? 0x1680)
  || ((0x2000 <=? c) && (c <=? 0x200A))
  || (c =? 0x2028) || (c =? 0x2029) || (c =? 0x202F) || (c =? 0x205F)
  || (c =? 0x3000) || (c =? 0xFEFF).

Fixpoint trimStart (s : jsstring) : jsstring :=
  match s with
  | [] => []
  | c :: r => if isWhiteSpace c then trimStart r else s
  end.

Definition trimEnd (s : jsstring) : jsstring := rev (trimStart (rev s)).

Definition trim (s : jsstring) : jsstring := trimEnd (trimStart s).

(** [toLowerCase] on Basic Latin and Latin-1.  The full Unicode mapping
    differs only on code units above U+00FF; of those, the only ones whose
    lower case contains a Basic Latin letter are U+0130 (an [i] followed by
    U+0307) and U+212A ([k]), and neither can complete the word the
    program searches for, so the test made on the result is the same. *)
Definition toLowerUnit (c : N) : N :=
  if (0x41 <=? c) && (c <=? 0x5A) then c + 32
  else if (0xC0 <=? c) && (c <=? 0xDE) && negb (c =? 0xD7) then c + 32
  else c.

Definition toLowerCase (s : jsstring) : jsstring := List.map toLowerUnit s.

Fixpoint startsWith (s p : jsstring) : bool :=
  match p, s with
  | [], _ => true
  | _ :: _, [] => false
  | a :: p', b :: s' => (a =? b) && startsWith s' p'
  end.

(** [s.includes(needle)] *)
Fixpoint includes (s needle : jsstring) : bool :=
  startsWith s needle
  || match s with
     | [] => false
     | _ :: r => includes r needle
     end.

(** [s.split(sep)] for a separator of one code unit, which is every
    separator the program uses (['T'], ['-'], [':']). *)
Fixpoint split (sep : N) (s : jsstring) : list jsstring :=
  match s with
  | [] => [[]]
  | c :: r =>
    if c =? sep then [] :: split sep r
    else
      match split sep r with
      | p :: ps => (c :: p) :: ps
      | [] => [[c]]
      end
  end.

Definition isEmpty (s : jsstring) : bool :=
  match s with [] => true | _ :: _ => false end.

(** [a || b] on strings: the empty string is falsy. *)
Definition orElse (a b : jsstring) : jsstring :=
  if isEmpty a then b else a.

Definition eqb (a b : jsstring) : bool := bool_decide (a = b).

(** Decimal digits of an integer, as [Number::toString] prints integers
    (up to 10^21, where the engine turns to exponent notation). *)
Definition ofZ (z : Z) : jsstring :=
  List.map N_of_ascii
    (list_ascii_of_string (NilEmpty.string_of_int (Z.to_int z))).

(** [String(n).padStart(w, '0')] for a non-negative [n]. *)
Definition pad0 (w : nat) (z : Z) : jsstring :=
  let d := ofZ z in
  replicate (w - length d)%nat 0x30 ++ d.

End JsString.

Import JsString.
Arguments js s%_string.

(* ===================================================================== *)
(** ** Values, errors and results *)
(* ===================================================================== *)

(** The values the program handles: what [JSON.parse] produces, and
    [undefined]. *)
#[local] Set Warnings "-register-all".
Inductive JSValue : Type :=
| JUndefined
| JNull
| JBool (b : bool)
| JNum (q : Q)
| JStr (s : jsstring)
| JArr (items : list JSValue)
| JObj (fields : list (jsstring * JSValue)).

Inductive ErrorName : Type :=
| Error | TypeError | URIError | SyntaxError | RangeError | OtherError.

(** A thrown value, as far as the program looks at it: [exn_message] is
    [err && err.message]; [None] stands for a thrown value that is falsy or
    has no message.  Every value thrown by the program or by the runtime is
    an Error object whose message is a string. *)
Record Exn : Type := mkExn { exn_name : ErrorName; exn_message : option jsstring }.

Definition newError (message : jsstring) : Exn := mkExn Error (Some message).

Inductive Result (A : Type) : Type :=
| Ok (a : A)
| Throw (e : Exn).
Arguments Ok {A} a.
Arguments Throw {A} e.

Module JsValue.

(** ToBoolean *)
Definition truthy (v : JSValue) : bool :=
  match v with
  | JUndefined | JNull => false
  | JBool b => b
  | JNum q => negb (Qeq_bool q 0)
  | JStr s => negb (isEmpty s)
  | JArr _ | JObj _ => true
  end.

(** Own property of a parsed object; with a repeated key [JSON.parse]
    keeps the last value. *)
Fixpoint ownProperty (fields : list (jsstring * JSValue)) (key : jsstring)
  : option JSValue :=
  match fields with
  | [] => None
  | (k, v) :: rest =>
    match ownProperty rest key with
    | Some v' => Some v'
    | None => if eqb k key then Some v else None
    end
  end.

Definition nullishRead (what key : jsstring) : Exn :=
  mkExn TypeError
    (Some (js "Cannot read properties of " ++ what ++ js " (reading '"
           ++ key ++ js "')")).

(** [v.key].  Reading a property of [undefined] or [null] throws; on any
    other value a missing property is [undefined].  Inherited members are
    left out: the names the program reads ([results], [latitude],
    [longitude], [name], [country], [current_weather], [daily], [time],
    [temperature], [weathercode]) are none of them, and [length] is given
    for arrays and strings. *)
Definition get (v : JSValue) (key : jsstring) : Result JSValue :=
  match v with
  | JUndefined => Throw (nullishRead (js "undefined") key)
  | JNull => Throw (nullishRead (js "null") key)
  | JObj fields => Ok (default JUndefined (ownProperty fields key))
  | JArr items =>
    if eqb key (js "length")
    then Ok (JNum (inject_Z (Z.of_nat (length items)))) else Ok JUndefined
  | JStr s =>
    if eqb key (js "length")
    then Ok (JNum (inject_Z (Z.of_nat (length s)))) else Ok JUndefined
  | JBool _ | JNum _ => Ok JUndefined
  end.

(** [v[i]] for a literal index [i]. *)
Definition getIndex (v : JSValue) (i : nat) : Result JSValue :=
  match v with
  | JUndefined => Throw (nullishRead (js "undefined") (ofZ (Z.of_nat i)))
  | JNull => Throw (nullishRead (js "null") (ofZ (Z.of_nat i)))
  | JArr items => Ok (default JUndefined (items !! i))
  | JStr s => Ok (from_option (fun c => JStr [c]) JUndefined (s !! i))
  | JObj fields =>
    Ok (default JUndefined (ownProperty fields (ofZ (Z.of_nat i))))
  | JBool _ | JNum _ => Ok JUndefined
  end.

(** [undefined] and [null], the values whose properties cannot be read. *)
Definition nullish (v : JSValue) : bool :=
match v with JUndefined | JNull => true | _ => false end.

(** The value of [v.key] where the read does not throw. *)
Definition prop (v : JSValue) (key : jsstring) : JSValue :=
match get v key with
| Ok x => x
| Throw _ => JUndefined
end.

(** [a === b] when [b] is a number literal. *)
Definition strictEqNum (v : JSValue) (n : Z) : bool :=
  match v with
  | JNum q => Qeq_bool q (inject_Z n)
  | _ => false
  end.

(** [[n1, n2, ...].includes(v)] for an array of number literals. *)
Definition numsInclude (ns : list Z) (v : JSValue) : bool :=
  existsb (strictEqNum v) ns.

Fixpoint joinWith (sep : jsstring) (parts : list jsstring) : jsstring :=
  match parts with
  | [] => []
  | [p] => p
  | p :: rest => p ++ sep ++ joinWith sep rest
  end.

Section Conversions.

(** [Number::toString] on a number that is not an integer is left to
    the host. *)
Variable fracToString : Q -> jsstring.
(** StringToNumber; [None] is NaN. *)
Variable stringToNumber : jsstring -> option Q.

Definition numberToString (q : Q) : jsstring :=
  let r := Qred q in
  if (Qden r =? 1)%positive then ofZ (Qnum r) else fracToString q.

(** ToString, as a template literal or a property key applies it.  An
    object prints as [[object Object]]: a parsed object that carries its
    own [toString] or [valueOf] member is not modelled. *)
Fixpoint toString (v : JSValue) : jsstring :=
  match v with
  | JUndefined => js "undefined"
  | JNull => js "null"
  | JBool true => js "true"
  | JBool false => js "false"
  | JNum q => numberToString q
  | JStr s => s
  | JArr items =>
    joinWith (js ",")
      (List.map (fun x => match x with
                          | JUndefined | JNull => []
                          | _ => toString x
                          end) items)
  | JObj _ => js "[object Object]"
  end.

(** ToNumber; [None] is NaN. *)
Definition toNumber (v : JSValue) : option Q :=
  match v with
  | JUndefined => None
  | JNull => Some 0%Q
  | JBool true => Some 1%Q
  | JBool false => Some 0%Q
  | JNum q => Some q
  | JStr s => stringToNumber s
  | JArr _ => stringToNumber (toString v)
  | JObj _ => None
  end.

(** [Math.round]: the nearest integer, a tie going up. *)
Definition Math_round (x : option Q) : option Z :=
  (fun q => Qfloor (q + (1 # 2))) <$> x.

(** [`${n}`] for the result of [Math.round]: its decimal digits while it
    is at most 2^53 in magnitude.  Beyond that Number::toString writes the
    shortest digits that tell the double from its neighbours, filled up
    with zeros or followed by an exponent; that is left to the host, like
    the printing of a number that is not an integer. *)
Definition roundedToString (x : option Z) : jsstring :=
  match x with
  | None => js "NaN"
  | Some z =>
    if (Z.abs z <=? 2 ^ 53)%Z then ofZ z else fracToString (inject_Z z)
  end.

End Conversions.

End JsValue.

Import JsValue.

(* ===================================================================== *)
(** ** Dates: the time-value arithmetic of ECMAScript (ECMA-262, 21.4.1) *)
(* ===================================================================== *)

Module JsDate.

Local Open Scope Z_scope.

Definition msPerDay : Z := 86400000.

Definition Day (t : Z) : Z := t / msPerDay.
Definition TimeWithinDay (t : Z) : Z := t mod msPerDay.

(** Proleptic Gregorian date [(year, month 1..12, day 1..31)] of a day
    number counted from 1970-01-01. *)
Definition civil_from_days (z : Z) : Z * Z * Z :=
  let z := z + 719468 in
  let era := z / 146097 in
  let doe := z - era * 146097 in
  let yoe := (doe - doe / 1460 + doe / 36524 - doe / 146096) / 365 in
  let y := yoe + era * 400 in
  let doy := doe - (365 * yoe + yoe / 4 - yoe / 100) in
  let mp := (5 * doy + 2) / 153 in
  let d := doy - (153 * mp + 2) / 5 + 1 in
  let m := if mp <? 10 then mp + 3 else mp - 9 in
  (if m <=? 2 then y + 1 else y, m, d).

Definition days_from_civil (y m d : Z) : Z :=
  let y := if m <=? 2 then y - 1 else y in
  let era := y / 400 in
  let yoe := y - era * 400 in
  let doy := (153 * (if 2 <? m then m - 3 else m + 9) + 2) / 5 + d - 1 in
  let doe := yoe * 365 + yoe / 4 - yoe / 100 + doy in
  era * 146097 + doe - 719468.

Definition YearFromTime (t : Z) : Z := (civil_from_days (Day t)).1.1.
(** Months count from 0, as in ECMAScript. *)
Definition MonthFromTime (t : Z) : Z := (civil_from_days (Day t)).1.2 - 1.
Definition DateFromTime (t : Z) : Z := (civil_from_days (Day t)).2.

Definition MakeDay (year month date : Z) : Z :=
  days_from_civil (year + month / 12) (month mod 12 + 1) 1 + date - 1.

Definition MakeDate (day time : Z) : Z := day * msPerDay + time.

Section Zone.

(** [LocalTZA t isUTC]: the offset of local time from UTC, in
    milliseconds, at the instant [t] ([isUTC = true]) or at the local
    time [t] ([isUTC = false]). *)
Variable LocalTZA : Z -> bool -> Z.

Definition LocalTime (t : Z) : Z := t + LocalTZA t true.
Definition UTC (t : Z) : Z := t - LocalTZA t false.

(** [d.getDate()] *)
Definition getDate (t : Z) : Z := DateFromTime (LocalTime t).

(** [d.setDate(date)]: the new time value of [d]. *)
Definition setDate (t date : Z) : Z :=
  let lt := LocalTime t in
  UTC (MakeDate (MakeDay (YearFromTime lt) (MonthFromTime lt) date)
                (TimeWithinDay lt)).

(** The local calendar date of an instant, [YYYY-MM-DD]. *)
Definition localDate (t : Z) : Z * Z * Z := civil_from_days (Day (LocalTime t)).

End Zone.

Definition isoYear (y : Z) : jsstring :=
  if (0 <=? y) && (y <=? 9999) then pad0 4 y
  else (if y <? 0 then js "-" else js "+") ++ pad0 6 (Z.abs y).

Definition isoDate (ymd : Z * Z * Z) : jsstring :=
  isoYear ymd.1.1 ++ js "-" ++ pad0 2 ymd.1.2 ++ js "-" ++ pad0 2 ymd.2.

(** [d.toISOString()]: always in UTC.  (It throws on an invalid date;
    the dates it is applied to here are clock readings.) *)
Definition toISOString (t : Z) : jsstring :=
  let s := TimeWithinDay t in
  isoDate (civil_from_days (Day t)) ++ js "T"
    ++ pad0 2 (s / 3600000) ++ js ":" ++ pad0 2 (s / 60000 mod 60) ++ js ":"
    ++ pad0 2 (s / 1000 mod 60) ++ js "." ++ pad0 3 (s mod 1000) ++ js "Z".

(** [s.slice(0, n)] *)
Definition slice0 (n : nat) (s : jsstring) : jsstring := take n s.

End JsDate.

Import JsDate.

(* ===================================================================== *)
(** ** The world around the program: network, clock and page *)
(* ===================================================================== *)

(** A request: either a URL written out, or a base address with the
    parameters handed to [URLSearchParams] (their serialisation is the
    browser's). *)
Inductive Request : Type :=
| Get (url : jsstring)
| GetParams (base : jsstring) (params : list (jsstring * JSValue)).

(** What the program reads of a response: its status and the outcome of
    [res.json()]. *)
Record Response : Type := mkResponse { status : Z; json : Result JSValue }.

(** [res.ok]: the status is in the range 200-299. *)
Definition ok (res : Response) : bool :=
  ((200 <=? status res) && (status res <=? 299))%Z.

Inductive FetchOutcome : Type :=
| Rejected (e : Exn)
| Resolved (res : Response).

(** The network answers a request knowing the requests sent before it, and
    tells how long (ms) the answer took. *)
Definition Network : Type := list Request -> Request -> Z * FetchOutcome.

(** What depends on the host. *)
Record Runtime : Type := mkRuntime {
  rt_LocalTZA : Z -> bool -> Z;
  rt_Date_parse : jsstring -> option Z;
  (** [toLocaleString('pt-BR')] of a valid date *)
  rt_toLocaleString : Z -> jsstring;
  rt_fracToString : Q -> jsstring;
  rt_stringToNumber : jsstring -> option Q
}.

(** The elements of the page the handler reads or writes. *)
Inductive Elem : Type :=
| searchFormEl | loadingEl | errorEl | weatherInfoEl | pageTitleEl
| cityNameEl | temperatureEl | descriptionEl | datetimeEl | weatherIconEl.

#[global] Instance Elem_eq_dec : EqDecision Elem.
Proof. solve_decision. Defined.

Inductive Display : Type :=
| display_initial | display_none | display_block | display_flex.

(** One [li.forecast-item]: weekday, date, icon class, description,
    maximum and minimum. *)
Record ForecastRow : Type := mkRow {
  row_weekday : jsstring; row_date : jsstring; row_icon : jsstring;
  row_desc : jsstring; row_max : jsstring; row_min : jsstring
}.

(** The children of [#forecast5]: the title and the list, when appended. *)
Record ForecastPanel : Type := mkPanel {
  panel_title : option jsstring;
  panel_list : option (list ForecastRow)
}.

Record Page : Type := mkPage {
  display : Elem -> Display;
  textContent : Elem -> jsstring;
  className : Elem -> jsstring;
  cityInput_value : jsstring;
  searchBtn_disabled : bool;
  container_noBg : bool;
  (** [None]: there is no [#forecast5] in the document. *)
  forecast5 : option ForecastPanel
}.

Record World : Type := mkWorld { sent : list Request; clock : Z; page : Page }.

(** Computations that may await the network, throw and touch the page. *)
Definition IO (A : Type) : Type := World -> Result A * World.

Module IO.

Definition ret {A} (a : A) : IO A := fun w => (Ok a, w).

Definition throw {A} (e : Exn) : IO A := fun w => (Throw e, w).

Definition lift {A} (r : Result A) : IO A := fun w => (r, w).

Definition bind {A B} (m : IO A) (k : A -> IO B) : IO B :=
  fun w =>
    match m w with
    | (Ok a, w') => k a w'
    | (Throw e, w') => (Throw e, w')
    end.

(** [try { body } catch (e) { handler }] *)
Definition tryCatch {A} (body : IO A) (handler : Exn -> IO A) : IO A :=
  fun w =>
    match body w with
    | (Ok a, w') => (Ok a, w')
    | (Throw e, w') => handler e w'
    end.

(** [try { body } finally { fin }] *)
Definition finally {A} (body : IO A) (fin : IO unit) : IO A :=
  fun w =>
    match body w with
    | (r, w') =>
      match fin w' with
      | (Ok _, w'') => (r, w'')
      | (Throw e, w'') => (Throw e, w'')
      end
    end.

Definition modifyPage (f : Page -> Page) : IO unit :=
  fun w => (Ok tt, mkWorld (sent w) (clock w) (f (page w))).

Definition readPage {A} (f : Page -> A) : IO A :=
  fun w => (Ok (f (page w)), w).

(** [new Date()]: the clock reading. *)
Definition now : IO Z := fun w => (Ok (clock w), w).

(** [await fetch(req)] *)
Definition fetch (net : Network) (req : Request) : IO Response :=
  fun w =>
    let '(elapsed, outcome) := net (sent w) req in
    let w' := mkWorld (sent w ++ [req]) (clock w + elapsed)%Z (page w) in
    match outcome with
    | Rejected e => (Throw e, w')
    | Resolved res => (Ok res, w')
    end.

(** A loop body run over a list, stopping at the first exception. *)
Fixpoint mapResult {A B} (f : A -> Result B) (l : list A) : Result (list B) :=
  match l with
  | [] => Ok []
  | a :: r =>
    match f a with
    | Throw e => Throw e
    | Ok b =>
      match mapResult f r with
      | Throw e => Throw e
      | Ok bs => Ok (b :: bs)
      end
    end
  end.

End IO.

Import IO.

Notation "x <- c1 ;; c2" := (bind c1 (fun x => c2))
  (at level 100, c1 at next level, right associativity).
Notation "c1 ;; c2" := (bind c1 (fun _ => c2))
  (at level 100, right associativity).

Module Dom.

Definition setDisplay (e : Elem) (d : Display) : IO unit :=
  modifyPage (fun p =>
    mkPage (fun e' => if decide (e' = e) then d else display p e')
           (textContent p) (className p) (cityInput_value p)
           (searchBtn_disabled p) (container_noBg p) (forecast5 p)).

Definition setTextContent (e : Elem) (s : jsstring) : IO unit :=
  modifyPage (fun p =>
    mkPage (display p)
           (fun e' => if decide (e' = e) then s else textContent p e')
           (className p) (cityInput_value p)
           (searchBtn_disabled p) (container_noBg p) (forecast5 p)).

Definition setClassName (e : Elem) (s : jsstring) : IO unit :=
  modifyPage (fun p =>
    mkPage (display p) (textContent p)
           (fun e' => if decide (e' = e) then s else className p e')
           (cityInput_value p)
           (searchBtn_disabled p) (container_noBg p) (forecast5 p)).

Definition setCityInput (s : jsstring) : IO unit :=
  modifyPage (fun p =>
    mkPage (display p) (textContent p) (className p) s
           (searchBtn_disabled p) (container_noBg p) (forecast5 p)).

Definition setDisabled (b : bool) : IO unit :=
  modifyPage (fun p =>
    mkPage (display p) (textContent p) (className p) (cityInput_value p)
           b (container_noBg p) (forecast5 p)).

Definition setNoBg (b : bool) : IO unit :=
  modifyPage (fun p =>
    mkPage (display p) (textContent p) (className p) (cityInput_value p)
           (searchBtn_disabled p) b (forecast5 p)).

Definition setForecast5 (f : option ForecastPanel) : IO unit :=
  modifyPage (fun p =>
    mkPage (display p) (textContent p) (className p) (cityInput_value p)
           (searchBtn_disabled p) (container_noBg p) f).

End Dom.

Import Dom.

(* ===================================================================== *)
(** ** Global functions of the runtime *)
(* ===================================================================== *)

Module JsGlobal.

Local Open Scope N_scope.

(** The characters [encodeURIComponent] leaves alone:
    letters, digits and [- _ . ! ~ * ' ( )]. *)
Definition uriUnreserved (c : N) : bool :=
  ((0x41 <=? c) && (c <=? 0x5A)) || ((0x61 <=? c) && (c <=? 0x7A))
  || ((0x30 <=? c) && (c <=? 0x39))
  || bool_decide (c ∈ [0x2D; 0x5F; 0x2E; 0x21; 0x7E; 0x2A; 0x27; 0x28; 0x29]).

Definition isLeadSurrogate (c : N) : bool := (0xD800 <=? c) && (c <=? 0xDBFF).
Definition isTrailSurrogate (c : N) : bool := (0xDC00 <=? c) && (c <=? 0xDFFF).

Definition hexDigit (n : N) : N :=
  if n <? 10 then 0x30 + n else 0x41 + (n - 10).

Definition percent (b : N) : jsstring :=
  [0x25; hexDigit (b / 16); hexDigit (b mod 16)].

Definition utf8_of_codepoint (cp : N) : list N :=
  if cp <? 0x80 then [cp]
  else if cp <? 0x800 then [0xC0 + cp / 64; 0x80 + cp mod 64]
  else if cp <? 0x10000 then
    [0xE0 + cp / 4096; 0x80 + (cp / 64) mod 64; 0x80 + cp mod 64]
  else
    [0xF0 + cp / 262144; 0x80 + (cp / 4096) mod 64;
     0x80 + (cp / 64) mod 64; 0x80 + cp mod 64].

Definition percentEncode (cp : N) : jsstring :=
  concat (List.map percent (utf8_of_codepoint cp)).

Definition uriMalformed : Exn := mkExn URIError (Some (js "URI malformed")).

Definition prepend (p : jsstring) (r : Result jsstring) : Result jsstring :=
  match r with
  | Ok s => Ok (p ++ s)
  | Throw e => Throw e
  end.

(** [s.isWellFormed()]: no surrogate without its pair. *)
Fixpoint isWellFormed (s : jsstring) : bool :=
match s with
| [] => true
| c :: r =>
  if isLeadSurrogate c then
    match r with
    | d :: r' => isTrailSurrogate d && isWellFormed r'
    | [] => false
    end
  else if isTrailSurrogate c then false
  else isWellFormed r
end.

(** [encodeURIComponent(s)] (ECMA-262, Encode): a surrogate without its
    pair makes it throw a URIError. *)
Fixpoint encodeURIComponent (s : jsstring) : Result jsstring :=
  match s with
  | [] => Ok []
  | c :: r =>
    if uriUnreserved c then prepend [c] (encodeURIComponent r)
    else if isLeadSurrogate c then
      match r with
      | d :: r' =>
        if isTrailSurrogate d
        then prepend
               (percentEncode (0x10000 + (c - 0xD800) * 1024 + (d - 0xDC00)))
               (encodeURIComponent r')
        else Throw uriMalformed
      | [] => Throw uriMalformed
      end
    else if isTrailSurrogate c then Throw uriMalformed
    else prepend (percentEncode c) (encodeURIComponent r)
  end.

(** [d.toLocaleString('pt-BR')] for a Date object; [None] is the invalid
    date, which prints as ["Invalid Date"] and does not throw. *)
Definition toLocaleString (rt : Runtime) (d : option Z) : jsstring :=
  from_option (rt_toLocaleString rt) (js "Invalid Date") d.

(** [x.split(sep)] on any value: only a string has the method. *)
Definition callSplit (x : JSValue) (sep : N) : Result (list jsstring) :=
  match x with
  | JStr s => Ok (split sep s)
  | JUndefined => Throw (nullishRead (js "undefined") (js "split"))
  | JNull => Throw (nullishRead (js "null") (js "split"))
  | _ => Throw (mkExn TypeError (Some (js "isoString.split is not a function")))
  end.

End JsGlobal.

Import JsGlobal.

(* ===================================================================== *)
(** ** The program *)
(* ===================================================================== *)

Definition API_BASE_URL : jsstring :=
  js "https://geocoding-api.open-meteo.com/v1/search".
Definition WEATHER_API_URL : jsstring :=
  js "https://api.open-meteo.com/v1/forecast".

(** The object [getCityCoordinates] returns. *)
Record Location : Type := mkLocation {
  lat : JSValue; lon : JSValue; name : JSValue; country : JSValue
}.

(** The two revisions of the submit handler: the one of
    [assets/js/scripts.js], and the later one that also shows the 5-day
    forecast. *)
Inductive Revision : Type := CurrentOnly | WithForecast.

(** The local [map] of [getWeatherDescription]; a numeric key of an object
    literal is the property named by its decimal digits. *)
Definition getWeatherDescription_map : gmap jsstring jsstring :=
  list_to_map [
    (ofZ 0, js "Céu limpo");
    (ofZ 1, js "Predominantemente limpo");
    (ofZ 2, js "Parcialmente nublado");
    (ofZ 3, js "Nublado");
    (ofZ 45, js "Neblina");
    (ofZ 48, js "Neblina com geada");
    (ofZ 51, js "Garoa leve");
    (ofZ 53, js "Garoa moderada");
    (ofZ 55, js "Garoa intensa");
    (ofZ 61, js "Chuva leve");
    (ofZ 63, js "Chuva moderada");
    (ofZ 65, js "Chuva forte");
    (ofZ 71, js "Neve leve");
    (ofZ 73, js "Neve moderada");
    (ofZ 75, js "Neve forte");
    (ofZ 77, js "Granizo");
    (ofZ 80, js "Pancadas de chuva leves");
    (ofZ 81, js "Pancadas de chuva moderadas");
    (ofZ 82, js "Pancadas de chuva fortes");
    (ofZ 85, js "Pancadas de neve leves");
    (ofZ 86, js "Pancadas de neve fortes");
    (ofZ 95, js "Tempestade");
    (ofZ 96, js "Tempestade com granizo leve");
    (ofZ 99, js "Tempestade com granizo forte")
  ].

(** The request of [getCityCoordinates], given the encoded name. *)
Definition geocodingRequest (encoded : jsstring) : Request :=
Get (API_BASE_URL ++ js "?name=" ++ encoded
     ++ js "&count=1&language=pt&format=json").

(** The request of [getWeatherData]. *)
Definition weatherRequest (lat lon : JSValue) : Request :=
GetParams WEATHER_API_URL
  [(js "latitude", lat); (js "longitude", lon);
   (js "current_weather", JStr (js "true"));
   (js "timezone", JStr (js "auto"))].

(** The request of [get5DayForecast], given the two dates. *)
Definition forecastRequest (lat lon : JSValue) (startDate endDate : jsstring)
  : Request :=
GetParams WEATHER_API_URL
  [(js "latitude", lat); (js "longitude", lon);
   (js "daily", JStr (js "temperature_2m_max,temperature_2m_min,weathercode"));
   (js "timezone", JStr (js "auto"));
   (js "start_date", JStr startDate);
   (js "end_date", JStr endDate)].

(** The body of the [catch (err)] block of the submit handler: the message
    put in [#error]. *)
Definition catchMessage (err : Exn) : jsstring :=
  let message := js "Cidade não encontrada. Tente novamente." in
  match exn_message err with
  | Some m =>
    if negb (isEmpty m) && negb (includes (toLowerCase m) (js "cidade"))
    then orElse m (js "Erro ao buscar dados do clima. Tente novamente.")
    else message
  | None => message
  end.

Section Program.

Variable rt : Runtime.
Variable net : Network.
(** The body of the loop that builds one row of the forecast list from
    [daily] and the index; it is page construction, and may throw. *)
Variable renderDay : JSValue -> nat -> Result ForecastRow.

Definition getCityCoordinates (cityName : jsstring) : IO Location :=
  if isEmpty cityName || isEmpty (trim cityName) then
    throw (newError (js "Nome da cidade é obrigatório"))
  else
    encoded <- lift (encodeURIComponent cityName) ;;
    let url := API_BASE_URL ++ js "?name=" ++ encoded
               ++ js "&count=1&language=pt&format=json" in
    res <- fetch net (Get url) ;;
    if negb (ok res) then
      throw (newError (js "Erro ao buscar coordenadas da cidade"))
    else
      data <- lift (json res) ;;
      results <- lift (get data (js "results")) ;;
      len <- lift (if truthy results then get results (js "length")
                   else Ok JUndefined) ;;
      if negb (truthy results) || strictEqNum len 0 then
        throw (newError (js "Cidade não encontrada"))
      else
        r <- lift (getIndex results 0) ;;
        latitude <- lift (get r (js "latitude")) ;;
        longitude <- lift (get r (js "longitude")) ;;
        rname <- lift (get r (js "name")) ;;
        rcountry <- lift (get r (js "country")) ;;
        ret (mkLocation latitude longitude rname rcountry).

Definition getWeatherData (lat lon : JSValue) : IO JSValue :=
  let params := [(js "latitude", lat); (js "longitude", lon);
                 (js "current_weather", JStr (js "true"));
                 (js "timezone", JStr (js "auto"))] in
  res <- fetch net (GetParams WEATHER_API_URL params) ;;
  if negb (ok res) then throw (newError (js "Erro ao buscar dados do clima"))
  else
    data <- lift (json res) ;;
    current_weather <- lift (get data (js "current_weather")) ;;
    ret (if truthy current_weather then current_weather else JNull).

Definition get5DayForecast (lat lon : JSValue) : IO JSValue :=
  today <- now ;;
  let startDate := slice0 10 (toISOString today) in
  let end_ := setDate (rt_LocalTZA rt) today
                      (getDate (rt_LocalTZA rt) today + 4)%Z in
  let endDate := slice0 10 (toISOString end_) in
  let params := [(js "latitude", lat); (js "longitude", lon);
                 (js "daily",
                  JStr (js "temperature_2m_max,temperature_2m_min,weathercode"));
                 (js "timezone", JStr (js "auto"));
                 (js "start_date", JStr startDate);
                 (js "end_date", JStr endDate)] in
  res <- fetch net (GetParams WEATHER_API_URL params) ;;
  if negb (ok res) then throw (newError (js "Erro ao buscar previsão de 5 dias"))
  else
    data <- lift (json res) ;;
    daily <- lift (get data (js "daily")) ;;
    ret (if truthy daily then daily else JNull).

(** [map[code] || '...']: the key is the code turned into a string, and
    [map] has its own members only (a member inherited from
    [Object.prototype] would need a key that is its name, which no number
    prints as, nor [null], [undefined], a boolean or a string of digits;
    a code that is such a name, as the string ["toString"], is outside
    this definition). *)
Definition getWeatherDescription (code : JSValue) : jsstring :=
  match getWeatherDescription_map !! toString (rt_fracToString rt) code with
  | Some description => orElse description (js "Condição desconhecida")
  | None => js "Condição desconhecida"
  end.

Definition getWeatherIcon (code : JSValue) : jsstring :=
  if strictEqNum code 0 then js "wi-day-sunny"
  else if strictEqNum code 1 then js "wi-day-sunny"
  else if strictEqNum code 2 then js "wi-day-cloudy"
  else if strictEqNum code 3 then js "wi-cloud"
  else if strictEqNum code 45 || strictEqNum code 48 then js "wi-fog"
  else if numsInclude [51; 53; 55; 61; 63; 65; 80; 81; 82]%Z code then js "wi-rain"
  else if numsInclude [71; 73; 75; 85; 86]%Z code then js "wi-snow"
  else if strictEqNum code 77 then js "wi-hail"
  else if numsInclude [95; 96; 99]%Z code then js "wi-thunderstorm"
  else js "wi-na".

(** [`${x}`] for an array element that may be missing. *)
Definition interpolate (x : option jsstring) : jsstring :=
  default (js "undefined") x.

(** In the last branch [isoString] is a string, as [split] was called on
    it; [new Date(string)] parses it and [toLocaleString] prints the
    result. *)
Definition formatDateTimeLocal (isoString : JSValue) : IO jsstring :=
  if negb (truthy isoString) then
    t <- now ;; ret (toLocaleString rt (Some t))
  else
    parts <- lift (callSplit isoString 0x54) ;;
    if (2 <=? length parts)%nat then
      let date := split 0x2D (default [] (parts !! 0%nat)) in
      let time := split 0x3A (default [] (parts !! 1%nat)) in
      let day := date !! 2%nat in
      let month := date !! 1%nat in
      let year := date !! 0%nat in
      let hour := time !! 0%nat in
      let minute := orElse (default [] (time !! 1%nat)) (js "00") in
      ret (interpolate day ++ js "/" ++ interpolate month ++ js "/"
           ++ interpolate year ++ js " " ++ interpolate hour ++ js ":"
           ++ minute)
    else
      tryCatch
        (ret (toLocaleString rt (rt_Date_parse rt (toString (rt_fracToString rt) isoString))))
        (fun e => ret (toString (rt_fracToString rt) isoString)).

Definition showSearchForm : IO unit :=
  setDisplay searchFormEl display_flex ;;
  setDisplay weatherInfoEl display_none ;;
  setDisplay errorEl display_none ;;
  setCityInput [] ;;
  setDisplay pageTitleEl display_block ;;
  setNoBg false.

Definition hideSearchForm : IO unit :=
  setDisplay searchFormEl display_none.

(** The current observation put on the page (city, temperature,
    description, date and time, icon), in the order of the handler. *)
Definition showCurrent (rev : Revision) (cityData : Location) (weather : JSValue)
  : IO unit :=
  weathercode <- lift (get weather (js "weathercode")) ;;
  let desc := getWeatherDescription weathercode in
  setTextContent cityNameEl
    (toString (rt_fracToString rt) (name cityData) ++ js ", "
     ++ toString (rt_fracToString rt) (country cityData)) ;;
  temperature <- lift (get weather (js "temperature")) ;;
  setTextContent temperatureEl
    (roundedToString (rt_fracToString rt)
       (Math_round (toNumber (rt_fracToString rt) (rt_stringToNumber rt) temperature))
     ++ js "°C") ;;
  setTextContent descriptionEl desc ;;
  time <- lift (get weather (js "time")) ;;
  formatted <- formatDateTimeLocal time ;;
  setTextContent datetimeEl
    (match rev with
     | CurrentOnly => js "Atualizado em: " ++ formatted
     | WithForecast => formatted
     end) ;;
  let iconClass := getWeatherIcon weathercode in
  setClassName weatherIconEl (js "wi weather-icon " ++ iconClass).

(** The inner [try] block of the later revision: fetch the forecast,
    create or empty [#forecast5], and fill it. *)
Definition showForecast (cityData : Location) : IO unit :=
  daily <- get5DayForecast (lat cityData) (lon cityData) ;;
  setForecast5 (Some (mkPanel None None)) ;;
  if negb (truthy daily) then ret tt
  else
    time <- lift (get daily (js "time")) ;;
    match time with
    | JArr days =>
      if (0 <? length days)%nat then
        setForecast5 (Some (mkPanel (Some (js "Próximos dias")) None)) ;;
        rows <- lift (mapResult (renderDay daily) (seq 0 (length days))) ;;
        setForecast5 (Some (mkPanel (Some (js "Próximos dias")) (Some rows)))
      else ret tt
    | _ => ret tt
    end.

(** The statements that reset the page before the [try]. *)
Definition clearStates : IO unit :=
  setDisplay errorEl display_none ;;
  setDisplay weatherInfoEl display_none ;;
  setDisplay loadingEl display_block ;;
  setDisabled true.

(** The [try] block of the handler. *)
Definition tryBlock (rev : Revision) (cityName : jsstring) : IO unit :=
  cityData <- getCityCoordinates cityName ;;
  weather <- getWeatherData (lat cityData) (lon cityData) ;;
  if negb (truthy weather) then
    throw (newError (js "Dados de clima indisponíveis"))
  else
    showCurrent rev cityData weather ;;
    match rev with
    | WithForecast => tryCatch (showForecast cityData) (fun e => ret tt)
    | CurrentOnly => ret tt
    end ;;
    setDisplay loadingEl display_none ;;
    setDisplay weatherInfoEl display_block ;;
    setDisplay pageTitleEl display_none ;;
    setNoBg true ;;
    hideSearchForm.

(** The [catch (err)] block. *)
Definition catchBlock (err : Exn) : IO unit :=
  setDisplay loadingEl display_none ;;
  setTextContent errorEl (catchMessage err) ;;
  setDisplay errorEl display_block.

(** The listener of the form's [submit] event. *)
Definition onSubmit (rev : Revision) : IO unit :=
  input <- readPage cityInput_value ;;
  let cityName := trim input in
  if isEmpty cityName then ret tt
  else
    clearStates ;;
    finally (tryCatch (tryBlock rev cityName) catchBlock) (setDisabled false).

End Program.

(* ===================================================================== *)
(** ** Reference definitions taken from the specification *)
(* ===================================================================== *)

Module Reference.

(** The icon groups of section 4.4. *)
Inductive IconGroup : Type :=
| ClearSky | PartlyCloudy | Overcast | Fog | Rain | Snow | Hail | Thunderstorm.

Definition iconToken (g : IconGroup) : jsstring :=
  match g with
  | ClearSky => js "wi-day-sunny"
  | PartlyCloudy => js "wi-day-cloudy"
  | Overcast => js "wi-cloud"
  | Fog => js "wi-fog"
  | Rain => js "wi-rain"
  | Snow => js "wi-snow"
  | Hail => js "wi-hail"
  | Thunderstorm => js "wi-thunderstorm"
  end.

(** The weather-code table of section 6, with the wording of the
    repository: code, description, icon group. *)
Definition wmoTable : list (Z * (jsstring * IconGroup)) := [
  (0, (js "Céu limpo", ClearSky));
  (1, (js "Predominantemente limpo", ClearSky));
  (2, (js "Parcialmente nublado", PartlyCloudy));
  (3, (js "Nublado", Overcast));
  (45, (js "Neblina", Fog));
  (48, (js "Neblina com geada", Fog));
  (51, (js "Garoa leve", Rain));
  (53, (js "Garoa moderada", Rain));
  (55, (js "Garoa intensa", Rain));
  (61, (js "Chuva leve", Rain));
  (63, (js "Chuva moderada", Rain));
  (65, (js "Chuva forte", Rain));
  (71, (js "Neve leve", Snow));
  (73, (js "Neve moderada", Snow));
  (75, (js "Neve forte", Snow));
  (77, (js "Granizo", Hail));
  (80, (js "Pancadas de chuva leves", Rain));
  (81, (js "Pancadas de chuva moderadas", Rain));
  (82, (js "Pancadas de chuva fortes", Rain));
  (85, (js "Pancadas de neve leves", Snow));
  (86, (js "Pancadas de neve fortes", Snow));
  (95, (js "Tempestade", Thunderstorm));
  (96, (js "Tempestade com granizo leve", Thunderstorm));
  (99, (js "Tempestade com granizo forte", Thunderstorm))
]%Z.

Fixpoint assoc {A} (code : Z) (table : list (Z * A)) : option A :=
  match table with
  | [] => None
  | (k, a) :: rest => if decide (k = code) then Some a else assoc code rest
  end.

Definition wmoDescription (code : Z) : jsstring :=
  match assoc code wmoTable with
  | Some (description, _) => description
  | None => js "Condição desconhecida"
  end.

Definition wmoIcon (code : Z) : jsstring :=
  match assoc code wmoTable with
  | Some (_, group) => iconToken group
  | None => js "wi-na"
  end.

(** The timestamp formatter as section 4.5 words it: an input that is
    empty gives the current local date and time; one that splits on the
    separator into exactly a date part and a time part is rebuilt from
    the reversed date part and the first two time components, the minute
    defaulting to ["00"]; any other input is parsed and formatted for the
    locale, and returned unchanged when the parse fails. *)
Definition formatTimestamp (rt : Runtime) (now : Z) (input : jsstring)
  : jsstring :=
  if isEmpty input then rt_toLocaleString rt now
  else
    match split 0x54 input with
    | [datePart; timePart] =>
      let time := split 0x3A timePart in
      joinWith (js "/") (rev (split 0x2D datePart)) ++ js " "
      ++ default [] (time !! 0%nat) ++ js ":"
      ++ orElse (default [] (time !! 1%nat)) (js "00")
    | _ =>
      match rt_Date_parse rt input with
      | Some t => rt_toLocaleString rt t
      | None => input
      end
    end.

End Reference.

(* ===================================================================== *)
(** ** A host, a page and scripted networks, for worked examples *)
(* ===================================================================== *)

Module Example.

Local Open Scope Z_scope.

Definition allDigits (s : jsstring) : bool :=
  forallb (fun c => (0x30 <=? c)%N && (c <=? 0x39)%N) s.

Definition digitsValue (s : jsstring) : Z :=
  fold_left (fun acc c => acc * 10 + (Z.of_N c - 0x30)) s 0.

(** The one form this host's [Date.parse] accepts: the date-only form
    [YYYY-MM-DD], read as midnight UTC. *)
Definition parseDateOnly (s : jsstring) : option Z :=
  match split 0x2D s with
  | [y; m; d] =>
    if allDigits y && allDigits m && allDigits d
       && (length y =? 4)%nat && (length m =? 2)%nat && (length d =? 2)%nat
       && (1 <=? digitsValue m) && (digitsValue m <=? 12)
       && (1 <=? digitsValue d) && (digitsValue d <=? 31)
    then Some (MakeDate (days_from_civil (digitsValue y) (digitsValue m)
                                         (digitsValue d)) 0)
    else None
  | _ => None
  end.

(** [dd/mm/yyyy, HH:MM:SS] in a zone at a fixed offset. *)
Definition ptBR (offset : Z) (t : Z) : jsstring :=
  let lt := t + offset in
  let '(y, m, d) := civil_from_days (Day lt) in
  let s := TimeWithinDay lt in
  pad0 2 d ++ js "/" ++ pad0 2 m ++ js "/" ++ pad0 4 y ++ js ", "
  ++ pad0 2 (s / 3600000) ++ js ":" ++ pad0 2 (s / 60000 mod 60) ++ js ":"
  ++ pad0 2 (s / 1000 mod 60).

(** A non-integer printed with one decimal digit (enough for the
    readings of the examples). *)
Definition oneDecimal (q : Q) : jsstring :=
  let tenths := Qfloor (Qabs q * 10 + (1 # 2)) in
  (if Qlt_le_dec q 0 then js "-" else []) ++ ofZ (tenths / 10) ++ js "."
  ++ ofZ (tenths mod 10).

Definition parseInteger (s : jsstring) : option Q :=
  match s with
  | [] => Some 0%Q
  | 0x2D%N :: r =>
    if allDigits r && negb (isEmpty r)
    then Some (inject_Z (- digitsValue r)) else None
  | _ => if allDigits s then Some (inject_Z (digitsValue s)) else None
  end.

(** A host in a zone three hours behind UTC all year (America/Sao_Paulo). *)
Definition saoPauloOffset : Z := -10800000.

Definition saoPaulo : Runtime :=
  mkRuntime (fun _ _ => saoPauloOffset) parseDateOnly (ptBR saoPauloOffset)
            oneDecimal parseInteger.

(** A host in a zone that leaves daylight time on 2025-11-02 at 06:00 UTC
    (America/New_York): four hours behind UTC before, five after. *)
Definition newYorkTZA (t : Z) (isUTC : bool) : Z :=
  let change := 1762063200000 in
  if isUTC then (if t <? change then -14400000 else -18000000)
  else (if t <? change - 14400000 then -14400000 else -18000000).

Definition newYork : Runtime :=
  mkRuntime newYorkTZA parseDateOnly (ptBR (-18000000)) oneDecimal parseInteger.

(** The page as loaded, with [input] typed in the search box. *)
Definition freshPage (input : jsstring) : Page :=
  mkPage (fun _ => display_initial) (fun _ => []) (fun _ => []) input
         false false None.

Definition failedToFetch : Exn := mkExn TypeError (Some (js "Failed to fetch")).

(** A network that gives its answers in order, one per request, each
    after 150 ms, and rejects once they are used up. *)
Definition scripted (answers : list FetchOutcome) : Network :=
  fun before _ => (150, default (Rejected failedToFetch) (answers !! length before)).

Definition respond (st : Z) (body : JSValue) : FetchOutcome :=
  Resolved (mkResponse st (Ok body)).

Definition num (n d : Z) : JSValue := JNum (n # Z.to_pos d).

Definition geocoding (la lo : JSValue) (nm co : string) : JSValue :=
  JObj [(js "results",
         JArr [JObj [(js "latitude", la); (js "longitude", lo);
                     (js "name", JStr (js nm)); (js "country", JStr (js co))]])].

Definition currentWeather (temp : JSValue) (code : Z) (time : string) : JSValue :=
  JObj [(js "current_weather",
         JObj [(js "temperature", temp); (js "weathercode", JNum (inject_Z code));
               (js "time", JStr (js time))])].

Definition weekdayLabels : list jsstring :=
  [js "Domingo"; js "Segunda Feira"; js "Terça Feira"; js "Quarta Feira";
   js "Quinta Feira"; js "Sexta Feira"; js "Sábado"].

Definition typeError (m : string) : Exn := mkExn TypeError (Some (js m)).

(** The loop body of the forecast list, for well-formed [daily] data. *)
Definition renderDay (rt : Runtime) (daily : JSValue) (i : nat) : Result ForecastRow :=
  match get daily (js "time"), get daily (js "temperature_2m_min"),
        get daily (js "temperature_2m_max"), get daily (js "weathercode") with
  | Ok (JArr times), Ok (JArr mins), Ok (JArr maxs), Ok (JArr codes) =>
    match times !! i with
    | Some (JStr isoDate) =>
      match split 0x2D isoDate with
      | [yy; mm; dd] =>
        let code := default JUndefined (codes !! i) in
        let rounded v :=
          roundedToString (rt_fracToString rt)
            (Math_round (toNumber (rt_fracToString rt) (rt_stringToNumber rt)
                                  (default JUndefined v)))
          ++ js "°C" in
        let wd := (days_from_civil (digitsValue yy) (digitsValue mm)
                                   (digitsValue dd) + 4) mod 7 in
        Ok (mkRow (default [] (weekdayLabels !! Z.to_nat wd))
                  (dd ++ js "/" ++ mm ++ js "/" ++ yy)
                  (js "wi forecast-icon " ++ getWeatherIcon code)
                  (getWeatherDescription rt code)
                  (rounded (maxs !! i)) (rounded (mins !! i)))
      | _ => Throw (typeError "weekday is undefined")
      end
    | _ => Throw (typeError "isoDate.split is not a function")
    end
  | _, _, _, _ => Throw (typeError "Cannot read properties of undefined")
  end.

(** The clock of the examples: 2025-11-11T01:00:00Z, which in Sao Paulo
    is 22:00 on 10 November. *)
Definition evening : Z := 1762822800000.

(** The page as loaded with a city typed in, nothing sent yet. *)
Definition start (input : string) : World :=
  mkWorld [] evening (freshPage (js input)).

Definition lisboa : JSValue :=
  geocoding (num 3872 100) (num (-914) 100) "Lisboa" "Portugal".

(** The geocoding service answers 500. *)
Definition geocodingDown : Network := scripted [respond 500 (JObj [])].

(** The geocoding service answers; the weather service answers 500. *)
Definition weatherDown : Network :=
  scripted [respond 200 lisboa; respond 500 (JObj [])].

(** 2025-10-31T23:30:00Z, which in New York is 19:30 on 31 October, two
    days before the clocks go back. *)
Definition halloween : Z := 1761953400000.

Definition lisboaForecast : JSValue :=
  JObj [(js "daily",
         JObj [(js "time", JArr [JStr (js "2025-11-11"); JStr (js "2025-11-12")]);
               (js "temperature_2m_max", JArr [num 201 10; num 187 10]);
               (js "temperature_2m_min", JArr [num 123 10; num 118 10]);
               (js "weathercode", JArr [JNum (inject_Z 61); JNum (inject_Z 3)])])].

Definition saoPauloCity : JSValue :=
  geocoding (num (-2355) 100) (num (-4663) 100) "São Paulo" "Brazil".

(** Two queries in a row: everything answers for Lisboa; for São Paulo the
    geocoding and the current weather answer and the forecast request is
    rejected. *)
Definition twoQueries : Network :=
  scripted [respond 200 lisboa;
            respond 200 (currentWeather (num 186 10) 2 "2025-11-10T14:30");
            respond 200 lisboaForecast;
            respond 200 saoPauloCity;
            respond 200 (currentWeather (num 254 10) 63 "2025-11-10T15:00");
            Rejected failedToFetch].

(** The first query, for Lisboa. *)
Definition afterLisboa : World :=
  (onSubmit saoPaulo twoQueries (renderDay saoPaulo) WithForecast
            (start "Lisboa")).2.

(** Back to the form, ["São Paulo"] typed in, and the second query. *)
Definition afterSaoPaulo : World :=
  ((showSearchForm ;;
    setCityInput (js "São Paulo") ;;
    onSubmit saoPaulo twoQueries (renderDay saoPaulo) WithForecast)
     afterLisboa).2.

End Example.

(* ===================================================================== *)
(** ** The rows of the forecast list *)
(* ===================================================================== *)

(** [Result] as a monad, for code that throws and touches nothing. *)
#[global] Instance Result_ret : MRet Result := fun _ a => Ok a.

#[global] Instance Result_bind : MBind Result :=
  fun _ _ k r => match r with Ok a => k a | Throw e => Throw e end.

Module DateObject.

Local Open Scope Z_scope.

(** ToIntegerOrInfinity of a finite number: the fraction is dropped. *)
Definition ToIntegerOrInfinity (q : Q) : Z :=
  if Qnum q <? 0 then - Qfloor (- q) else Qfloor q.

(** MakeFullYear: a year from 0 to 99 counts from 1900. *)
Definition MakeFullYear (year : Q) : Z :=
  let truncated := ToIntegerOrInfinity year in
  if (0 <=? truncated) && (truncated <=? 99) then 1900 + truncated
  else truncated.

(** TimeClip; [None] is NaN, the time value of the invalid date. *)
Definition TimeClip (t : Z) : option Z :=
  if Z.abs t <=? 8640000000000000 then Some t else None.

(** WeekDay: 0 is Sunday. *)
Definition WeekDay (t : Z) : Z := (Day t + 4) mod 7.

Section Zone.

Variable LocalTZA : Z -> bool -> Z.

(** [new Date(year, month, date)], midnight local time.  An argument
    that is NaN gives the invalid date.  (A year so far off that
    [MakeDay] gives up is one [TimeClip] refuses.) *)
Definition newDate (year month date : option Q) : option Z :=
  match year, month, date with
  | Some y, Some m, Some dt =>
    TimeClip
      (UTC LocalTZA
         (MakeDate (MakeDay (MakeFullYear y) (ToIntegerOrInfinity m)
                            (ToIntegerOrInfinity dt)) 0))
  | _, _, _ => None
  end.

(** [d.getDay()]; [None] is NaN. *)
Definition getDay (tv : option Z) : option Z :=
  (fun t => WeekDay (LocalTime LocalTZA t)) <$> tv.

End Zone.

End DateObject.

Import DateObject.

Module ForecastItem.

Local Open Scope N_scope.

(** The class [[A-Za-zÀ-ÖØ-öø-ÿ0-9]] of the pattern. *)
Definition isWordUnit (c : N) : bool :=
  ((0x41 <=? c) && (c <=? 0x5A)) || ((0x61 <=? c) && (c <=? 0x7A))
  || ((0xC0 <=? c) && (c <=? 0xD6)) || ((0xD8 <=? c) && (c <=? 0xF6))
  || ((0xF8 <=? c) && (c <=? 0xFF)) || ((0x30 <=? c) && (c <=? 0x39)).

(** [s.split(/[^A-Za-zÀ-ÖØ-öø-ÿ0-9]+/)]: cut at every run of characters
    out of the class; [inRun] tells that the character before was one. *)
Fixpoint splitNonWord (inRun : bool) (s : jsstring) : list jsstring :=
  match s with
  | [] => [[]]
  | c :: r =>
    if isWordUnit c then
      match splitNonWord false r with
      | p :: ps => (c :: p) :: ps
      | [] => [[c]]
      end
    else if inRun then splitNonWord true r
    else [] :: splitNonWord true r
  end.

(** [c.toLocaleUpperCase('pt-BR')] for a character of the class, which is
    all the pattern lets through: [ß] becomes [SS], [ÿ] leaves Latin-1. *)
Definition toLocaleUpperCase (c : N) : jsstring :=
  if (0x61 <=? c) && (c <=? 0x7A) then [c - 0x20]
  else if (0xE0 <=? c) && (c <=? 0xFE) && negb (c =? 0xF7) then [c - 0x20]
  else if c =? 0xDF then [0x53; 0x53]
  else if c =? 0xFF then [0x178]
  else [c].

(** [p ? (p.charAt(0).toLocaleUpperCase('pt-BR') + p.slice(1)) : ''] *)
Definition capitalize (p : jsstring) : jsstring :=
  match p with
  | [] => []
  | c :: r => toLocaleUpperCase c ++ r
  end.

Definition weekdays : list jsstring :=
  [js "domingo"; js "segunda-feira"; js "terça-feira"; js "quarta-feira";
   js "quinta-feira"; js "sexta-feira"; js "sábado"].

(** [isoDate.split('-')] on any value: only a string has the method. *)
Definition isoDateSplit (isoDate : JSValue) : Result (list jsstring) :=
  match isoDate with
  | JStr s => Ok (split 0x2D s)
  | JUndefined => Throw (nullishRead (js "undefined") (js "split"))
  | JNull => Throw (nullishRead (js "null") (js "split"))
  | _ => Throw (mkExn TypeError (Some (js "isoDate.split is not a function")))
  end.

Section Item.

Variable rt : Runtime.

(** [Number(x)] for an array element that may be missing; [None] is NaN. *)
Definition Number (x : option jsstring) : option Q :=
  x ≫= rt_stringToNumber rt.

(** [weekdays[new Date(Number(yy), Number(mm) - 1, Number(dd)).getDay()]];
    [None] is [undefined], what an index that is NaN reads. *)
Definition weekdayOf (yy mm dd : option jsstring) : option jsstring :=
  idx ← getDay (rt_LocalTZA rt)
         (newDate (rt_LocalTZA rt) (Number yy)
                  ((fun m => m - 1)%Q <$> Number mm) (Number dd));
  weekdays !! Z.to_nat idx.

(** [Math.round(values[i])] *)
Definition roundAt (values : JSValue) (i : nat) : Result (option Z) :=
  v ← getIndex values i;
  Ok (Math_round (toNumber (rt_fracToString rt) (rt_stringToNumber rt) v)).

(** The body of the loop over [daily.time]: the texts and the icon class
    of one [li.forecast-item], in the order the statements run. *)
Definition forecastItem (daily : JSValue) (i : nat) : Result ForecastRow :=
  time ← get daily (js "time");
  isoDate ← getIndex time i;
  parts ← isoDateSplit isoDate;
  let yy := parts !! 0%nat in
  let mm := parts !! 1%nat in
  let dd := parts !! 2%nat in
  let formattedDate :=
    interpolate dd ++ js "/" ++ interpolate mm ++ js "/" ++ interpolate yy in
  weekday ← match weekdayOf yy mm dd with
            | Some s => Ok s
            | None => Throw (nullishRead (js "undefined") (js "split"))
            end;
  let weekdayPascal :=
    joinWith (js " ") (List.map capitalize (splitNonWord false weekday)) in
  temperature_2m_min ← get daily (js "temperature_2m_min");
  tmin ← roundAt temperature_2m_min i;
  temperature_2m_max ← get daily (js "temperature_2m_max");
  tmax ← roundAt temperature_2m_max i;
  weathercode ← get daily (js "weathercode");
  code ← match weathercode with
         | JArr _ => getIndex weathercode i
         | _ => Ok JNull
         end;
  let iconClass :=
    match code with
    | JNull => js "wi-na"
    | _ => getWeatherIcon code
    end in
  Ok (mkRow weekdayPascal formattedDate (js "wi forecast-icon " ++ iconClass)
            (getWeatherDescription rt code)
            (roundedToString (rt_fracToString rt) tmax ++ js "°C")
            (roundedToString (rt_fracToString rt) tmin ++ js "°C")).

End Item.

End ForecastItem.

Import ForecastItem.

(* ===================================================================== *)
(** ** What a computation leaves alone *)
(* ===================================================================== *)

(** [keeps view m]: running [m] never changes [view] of the world,
    whether it returns or throws. *)
Definition keeps {A X : Type} (view : World -> X) (m : IO A) : Prop :=
  forall w, view (m w).2 = view w.

(** The [display] of every element. *)
Definition displays (w : World) : Elem -> Display := display (page w).

(** The children of [#forecast5]. *)
Definition panelOf (w : World) : option ForecastPanel := forecast5 (page w).

(** What is typed in the search box. *)
Definition typed (w : World) : jsstring := cityInput_value (page w).


(* ===================================================================== *)
(** ** The stages of the [try] block *)
(* ===================================================================== *)

(** The forecast block of the later revision, with its [catch] that only
    logs. *)
Definition forecastStep (rt : Runtime) (net : Network)
    (renderDay : JSValue -> nat -> Result ForecastRow)
    (rev : Revision) (cityData : Location) : IO unit :=
  match rev with
  | WithForecast => tryCatch (showForecast rt net renderDay cityData)
                             (fun e => ret tt)
  | CurrentOnly => ret tt
  end.

(** The statements that end the [try] block. *)
Definition showPanel : IO unit :=
  setDisplay loadingEl display_none ;;
  setDisplay weatherInfoEl display_block ;;
  setDisplay pageTitleEl display_none ;;
  setNoBg true ;;
  hideSearchForm.

(** The ways through the [try] block, by the stage that ends it. *)
Inductive TryRun (rt : Runtime) (net : Network)
    (renderDay : JSValue -> nat -> Result ForecastRow)
    (rev : Revision) (cityName : jsstring) (w : World)
  : Result unit * World -> Prop :=
| resolver_failed (e : Exn) (w1 : World) :
    getCityCoordinates net cityName w = (Throw e, w1) ->
    TryRun rt net renderDay rev cityName w (Throw e, w1)
| fetcher_failed (cityData : Location) (e : Exn) (w1 w2 : World) :
    getCityCoordinates net cityName w = (Ok cityData, w1) ->
    getWeatherData net (lat cityData) (lon cityData) w1 = (Throw e, w2) ->
    TryRun rt net renderDay rev cityName w (Throw e, w2)
| weather_absent (cityData : Location) (weather : JSValue) (w1 w2 : World) :
    getCityCoordinates net cityName w = (Ok cityData, w1) ->
    getWeatherData net (lat cityData) (lon cityData) w1 = (Ok weather, w2) ->
    truthy weather = false ->
    TryRun rt net renderDay rev cityName w
           (Throw (newError (js "Dados de clima indisponíveis")), w2)
| display_failed (cityData : Location) (weather : JSValue) (e : Exn)
    (w1 w2 w3 : World) :
    getCityCoordinates net cityName w = (Ok cityData, w1) ->
    getWeatherData net (lat cityData) (lon cityData) w1 = (Ok weather, w2) ->
    truthy weather = true ->
    showCurrent rt rev cityData weather w2 = (Throw e, w3) ->
    TryRun rt net renderDay rev cityName w (Throw e, w3)
| shown (cityData : Location) (weather : JSValue) (w1 w2 w3 : World) :
    getCityCoordinates net cityName w = (Ok cityData, w1) ->
    getWeatherData net (lat cityData) (lon cityData) w1 = (Ok weather, w2) ->
    truthy weather = true ->
    showCurrent rt rev cityData weather w2 = (Ok tt, w3) ->
    TryRun rt net renderDay rev cityName w
           (Ok tt, (showPanel (forecastStep rt net renderDay rev cityData w3).2).2).


(* ===================================================================== *)
(** ** The original revision *)
(* ===================================================================== *)

(** The first revision of the script kept with the later ones: the
    resolver does not look at the name before it sends it, the weather
    fetcher asks for the [current] variables and returns [data.current]
    as it comes, and the handler shows the city and the temperature. *)
Module Original.

Section Program.

Variable rt : Runtime.
Variable net : Network.

Definition getCityCoordinates (cityName : jsstring) : IO Location :=
  tryCatch
    (encoded <- lift (encodeURIComponent cityName) ;;
     response <- fetch net
                   (Get (API_BASE_URL ++ js "?name=" ++ encoded
                         ++ js "&count=1&language=pt&format=json")) ;;
     if negb (ok response) then
       throw (newError (js "Erro ao buscar coordenadas da cidade"))
     else
       data <- lift (json response) ;;
       results <- lift (get data (js "results")) ;;
       len <- lift (if truthy results then get results (js "length")
                    else Ok JUndefined) ;;
       if negb (truthy results) || strictEqNum len 0 then
         throw (newError (js "Cidade não encontrada"))
       else
         let first := results0 <- lift (get data (js "results")) ;;
                      lift (getIndex results0 0) in
         r1 <- first ;;
         latitude <- lift (get r1 (js "latitude")) ;;
         r2 <- first ;;
         longitude <- lift (get r2 (js "longitude")) ;;
         r3 <- first ;;
         rname <- lift (get r3 (js "name")) ;;
         r4 <- first ;;
         rcountry <- lift (get r4 (js "country")) ;;
         ret (mkLocation latitude longitude rname rcountry))
    (fun error => throw error).

Definition getWeatherData (lat lon : JSValue) : IO JSValue :=
  tryCatch
    (let params :=
       [(js "latitude", lat); (js "longitude", lon);
        (js "current",
         JStr (js "temperature_2m,relative_humidity_2m,apparent_temperature,precipitation,wind_speed_10m,weather_code"));
        (js "timezone", JStr (js "auto"))] in
     response <- fetch net (GetParams WEATHER_API_URL params) ;;
     if negb (ok response) then
       throw (newError (js "Erro ao buscar dados do clima"))
     else
       data <- lift (json response) ;;
       lift (get data (js "current")))
    (fun error => throw error).

Definition showSearchForm : IO unit :=
  setDisplay searchFormEl display_flex ;;
  setDisplay weatherInfoEl display_none ;;
  setDisplay errorEl display_none ;;
  setCityInput [] ;;
  setDisplay pageTitleEl display_block.

(** The [try] block of the handler. *)
Definition tryBlock (cityName : jsstring) : IO unit :=
  cityData <- getCityCoordinates cityName ;;
  weatherData <- getWeatherData (lat cityData) (lon cityData) ;;
  setTextContent cityNameEl
    (toString (rt_fracToString rt) (name cityData) ++ js ", "
     ++ toString (rt_fracToString rt) (country cityData)) ;;
  temperature_2m <- lift (get weatherData (js "temperature_2m")) ;;
  setTextContent temperatureEl
    (roundedToString (rt_fracToString rt)
       (Math_round (toNumber (rt_fracToString rt) (rt_stringToNumber rt)
                             temperature_2m))
     ++ js "°C") ;;
  setDisplay loadingEl display_none ;;
  setDisplay weatherInfoEl display_block ;;
  setDisplay pageTitleEl display_none ;;
  hideSearchForm.

(** The listener of the form's [submit] event; the statements before the
    [try] and the [catch] and [finally] blocks are those of the later
    revisions. *)
Definition onSubmit : IO unit :=
  input <- readPage cityInput_value ;;
  let cityName := trim input in
  if isEmpty cityName then ret tt
  else
    clearStates ;;
    finally (tryCatch (tryBlock cityName) catchBlock) (setDisabled false).

End Program.

End Original.

(* ===================================================================== *)
(** ** More sample data *)
(* ===================================================================== *)

Module Sample.

Definition lisboaCity : Location :=
  mkLocation (Example.num 3872 100) (Example.num (-914) 100)
             (JStr (js "Lisboa")) (JStr (js "Portugal")).

(** The daily data of the forecast for Lisboa. *)
Definition daily : JSValue := prop Example.lisboaForecast (js "daily").

(** The same two days without the minima. *)
Definition dailyWithoutMin : JSValue :=
  JObj [(js "time", JArr [JStr (js "2025-11-11"); JStr (js "2025-11-12")]);
        (js "temperature_2m_max", JArr [Example.num 201 10; Example.num 187 10]);
        (js "weathercode", JArr [JNum (inject_Z 61); JNum (inject_Z 3)])].

(** The same two days without the codes. *)
Definition dailyWithoutCodes : JSValue :=
  JObj [(js "time", JArr [JStr (js "2025-11-11"); JStr (js "2025-11-12")]);
        (js "temperature_2m_max", JArr [Example.num 201 10; Example.num 187 10]);
        (js "temperature_2m_min", JArr [Example.num 123 10; Example.num 118 10])].

(** Two days with temperatures in halves and quarters of a degree. *)
Definition dailyExact : JSValue :=
  JObj [(js "time", JArr [JStr (js "2025-11-11"); JStr (js "2025-11-12")]);
        (js "temperature_2m_max", JArr [JNum (41 # 2); JNum (75 # 4)]);
        (js "temperature_2m_min", JArr [JNum (49 # 4); JNum 12]);
        (js "weathercode", JArr [JNum (inject_Z 61); JNum (inject_Z 3)])].

(** The forecast service alone. *)
Definition forecastOnly : Network :=
  Example.scripted [Example.respond 200 Example.lisboaForecast].

(** Everything answers for Lisboa; the forecast comes without minima. *)
Definition forecastWithoutMin : Network :=
  Example.scripted
    [Example.respond 200 Example.lisboa;
     Example.respond 200
       (Example.currentWeather (Example.num 186 10) 2 "2025-11-10T14:30");
     Example.respond 200 (JObj [(js "daily", dailyWithoutMin)])].

(** The record of the current weather in Lisboa. *)
Definition lisboaWeather : JSValue :=
  JObj [(js "temperature", Example.num 185 10);
        (js "weathercode", JNum (inject_Z 2));
        (js "time", JStr (js "2025-11-10T14:30"))].

End Sample.

(** The Number values (IEEE doubles) below 2^53 in magnitude, as exact
    rationals: a numerator below 2^53 over a power of two up to 2^1074.
    For them the value read from a JSON literal, [Math.round] and the
    digits printed are exact. *)
Definition isSafeNumber (q : Q) : bool :=
  let r := Qred q in
  let d := Z.pos (Qden r) in
  ((Z.abs (Qnum r) <? 2 ^ 53) && (d =? 2 ^ Z.log2 d)
   && (Z.log2 d <=? 1074))%Z.


(** What an encoded URI component is made of: the characters
    [encodeURIComponent] leaves alone and the percent sign. *)
Definition uriSafe (c : N) : Prop := uriUnreserved c = true \/ c = 0x25%N.

(** Case analysis on every scrutinee of the goal, innermost first. *)
Ltac case_all :=
  cbv beta iota;
  repeat match goal with
         | |- context [match ?x with _ => _ end] =>
             lazymatch x with
             | context [match _ with _ => _ end] => fail
             | _ => destruct x; cbv beta iota
             end
         end.

(* ===================================================================== *)
(** ** Facts about the string functions *)
(* ===================================================================== *)

Section StringFacts.

Lemma trimStart_nil (s : jsstring) :
  trimStart s = [] <-> forallb isWhiteSpace s = true.
Proof.
  induction s as [|c r IH]; simpl; [tauto|].
  destruct (isWhiteSpace c); simpl; [exact IH|].
  split; discriminate.
Qed.

Lemma trimStart_head (s : jsstring) :
  trimStart s = [] \/
  exists c r, trimStart s = c :: r /\ isWhiteSpace c = false.
Proof.
  induction s as [|c r IH]; simpl; [now left|].
  destruct (isWhiteSpace c) eqn:E; [exact IH|].
  right. now exists c, r.
Qed.

Lemma forallb_rev {A} (f : A -> bool) (l : list A) :
  forallb f (rev l) = forallb f l.
Proof.
  apply eq_true_iff_eq. rewrite !forallb_forall.
  split; intros H x Hx; apply H; [apply in_rev in Hx|apply in_rev]; auto.
Qed.

(** [trim] leaves nothing exactly when every code unit is white space. *)
Lemma trim_nil (s : jsstring) :
  trim s = [] <-> forallb isWhiteSpace s = true.
Proof.
  unfold trim, trimEnd. rewrite <- trimStart_nil. split.
  - intros H. apply (f_equal (@rev N)) in H. rewrite rev_involutive in H.
    simpl in H. apply trimStart_nil in H. rewrite forallb_rev in H.
    destruct (trimStart_head s) as [E|(c & r & E & Hc)]; [exact E|].
    rewrite E in H. simpl in H. rewrite Hc in H. discriminate.
  - intros ->. reflexivity.
Qed.

Lemma isEmpty_true (s : jsstring) : isEmpty s = true <-> s = [].
Proof. destruct s; simpl; split; congruence. Qed.

Lemma isEmpty_false (s : jsstring) : isEmpty s = false <-> s <> [].
Proof. destruct s; simpl; split; congruence. Qed.

Lemma startsWith_prefix (s p : jsstring) :
  startsWith s p = true <-> exists rest, s = p ++ rest.
Proof.
  revert s. induction p as [|a p IH]; intros s; simpl.
  - split; [intros _; now exists s|intros _; now destruct s].
  - destruct s as [|b s].
    + split; [discriminate|intros (rest & H); discriminate].
    + simpl. rewrite andb_true_iff, N.eqb_eq, IH. split.
      * intros (-> & rest & ->). now exists rest.
      * intros (rest & H). injection H as -> ->. split; [reflexivity|now exists rest].
Qed.

(** [includes] is the substring test. *)
Lemma includes_substring (s needle : jsstring) :
  includes s needle = true <->
  exists before after, s = before ++ needle ++ after.
Proof.
  induction s as [|c r IH].
  - cbn [includes]. rewrite orb_false_r, startsWith_prefix. split.
    + intros (rest & H). now exists [], rest.
    + intros (before & after & H). symmetry in H.
      apply app_eq_nil in H as (-> & H). apply app_eq_nil in H as (-> & ->).
      now exists [].
  - cbn [includes]. rewrite orb_true_iff, startsWith_prefix, IH. split.
    + intros [(rest & H)|(before & after & H)].
      * now exists [], rest.
      * exists (c :: before), after. now rewrite H.
    + intros (before & after & H). destruct before as [|b before].
      * left. now exists after.
      * right. injection H as -> ->. now exists before, after.
Qed.

Lemma split_cons_sep (sep : N) (r : jsstring) :
  split sep (sep :: r) = [] :: split sep r.
Proof. simpl. now rewrite N.eqb_refl. Qed.

Lemma split_not_nil (sep : N) (s : jsstring) : split sep s <> [].
Proof.
  induction s as [|c r IH]; simpl; [discriminate|].
  destruct (N.eqb c sep); [discriminate|].
  destruct (split sep r); [contradiction|discriminate].
Qed.

(** A string without the separator is its own single part. *)
Lemma split_without (sep : N) (s : jsstring) :
  ~ In sep s -> split sep s = [s].
Proof.
  induction s as [|c r IH]; simpl; intros H; [reflexivity|].
  destruct (N.eqb_spec c sep) as [->|_]; [exfalso; auto|].
  rewrite IH by tauto. reflexivity.
Qed.

(** The first part ends at the first separator. *)
Lemma split_app (sep : N) (first rest : jsstring) :
  ~ In sep first ->
  split sep (first ++ sep :: rest) = first :: split sep rest.
Proof.
  induction first as [|c r IH]; simpl; intros H.
  - now rewrite N.eqb_refl.
  - destruct (N.eqb_spec c sep) as [->|_]; [exfalso; auto|].
    rewrite IH by tauto. reflexivity.
Qed.

(** Joining the parts with the separator gives the string back. *)
Lemma split_join (sep : N) (s : jsstring) :
  joinWith [sep] (split sep s) = s.
Proof.
  induction s as [|c r IH]; [reflexivity|].
  cbn [split]. pose proof (split_not_nil sep r) as Hn.
  destruct (split sep r) as [|p ps]; [contradiction|].
  destruct (N.eqb_spec c sep) as [->|_].
  - change (joinWith [sep] ([] :: p :: ps))
      with (sep :: joinWith [sep] (p :: ps)).
    now rewrite IH.
  - destruct ps as [|p' ps].
    + simpl in *. now rewrite IH.
    + change (joinWith [sep] ((c :: p) :: p' :: ps))
        with (c :: (p ++ [sep] ++ joinWith [sep] (p' :: ps))).
      change (joinWith [sep] (p :: p' :: ps))
        with (p ++ [sep] ++ joinWith [sep] (p' :: ps)) in IH.
      now rewrite IH.
Qed.

Lemma N_of_ascii_inj (a b : ascii) : N_of_ascii a = N_of_ascii b -> a = b.
Proof.
  intros H. rewrite <- (ascii_N_embedding a), <- (ascii_N_embedding b).
  now rewrite H.
Qed.

(** Distinct integers print differently. *)
Lemma ofZ_inj (a b : Z) : ofZ a = ofZ b -> a = b.
Proof.
  unfold ofZ. intros H.
  assert (Hl : list_ascii_of_string (NilEmpty.string_of_int (Z.to_int a))
               = list_ascii_of_string (NilEmpty.string_of_int (Z.to_int b))).
  { revert H. generalize (list_ascii_of_string (NilEmpty.string_of_int (Z.to_int a))).
    generalize (list_ascii_of_string (NilEmpty.string_of_int (Z.to_int b))).
    intros l2 l1. revert l2.
    induction l1 as [|x l1 IH]; intros [|y l2] H; simpl in H;
      try discriminate; [reflexivity|].
    injection H as Hx Hl. apply N_of_ascii_inj in Hx. subst.
    f_equal. now apply IH. }
  apply (f_equal string_of_list_ascii) in Hl.
  rewrite !string_of_list_ascii_of_string in Hl.
  apply (f_equal NilEmpty.int_of_string) in Hl.
  rewrite !NilEmpty.isi in Hl. injection Hl as Hl.
  apply (f_equal Z.of_int) in Hl. now rewrite !DecimalZ.of_to in Hl.
Qed.

End StringFacts.

(* ===================================================================== *)
(** ** The code translator *)
(* ===================================================================== *)

Section CodeTranslator.

Import Reference.

Lemma Qred_inject_Z (z : Z) : Qred (inject_Z z) = inject_Z z.
Proof.
  unfold Qred, inject_Z.
  pose proof (Z.ggcd_gcd z 1) as Hg.
  pose proof (Z.ggcd_correct_divisors z 1) as Hd.
  destruct (Z.ggcd z 1) as (g & aa & bb). simpl in *.
  rewrite Z.gcd_1_r in Hg. subst g. destruct Hd as [Ha Hb].
  rewrite Z.mul_1_l in Ha, Hb. now subst.
Qed.

(** An integer prints as its decimal digits, whatever the host. *)
Lemma toString_integer (frac : Q -> jsstring) (z : Z) :
  toString frac (JNum (inject_Z z)) = ofZ z.
Proof.
  cbn [toString]. unfold numberToString. now rewrite Qred_inject_Z.
Qed.

Lemma strictEqNum_integer (z n : Z) :
  strictEqNum (JNum (inject_Z z)) n = (z =? n)%Z.
Proof.
  cbn [strictEqNum]. unfold Qeq_bool, inject_Z. simpl.
  now rewrite !Z.mul_1_r.
Qed.

(** Looking a code up by its digits in an object whose keys are numeric
    literals is looking it up by its value. *)
Lemma lookup_by_digits {A} (table : list (Z * A)) (code : Z) :
  (list_to_map (List.map (fun e => (ofZ e.1, e.2)) table) : gmap jsstring A)
    !! ofZ code = assoc code table.
Proof.
  induction table as [|[k a] rest IH]; [reflexivity|].
  cbn [List.map list_to_map foldr assoc fst snd].
  rewrite lookup_insert. destruct (decide (k = code)) as [->|Hne].
  - now rewrite decide_True.
  - rewrite decide_False; [exact IH|]. intros H. now apply ofZ_inj in H.
Qed.

Lemma getWeatherDescription_map_table :
  getWeatherDescription_map =
  list_to_map (List.map (fun e => (ofZ e.1, e.2))
                        (List.map (fun e => (e.1, e.2.1)) wmoTable)).
Proof.
  unfold getWeatherDescription_map. apply f_equal. vm_compute. reflexivity.
Qed.

Lemma assoc_map {A B} (f : A -> B) (table : list (Z * A)) (code : Z) :
  assoc code (List.map (fun e => (e.1, f e.2)) table) = f <$> assoc code table.
Proof.
  induction table as [|[k a] rest IH]; [reflexivity|].
  cbn [List.map assoc fst snd]. now destruct (decide (k = code)).
Qed.

End CodeTranslator.

Section CodeTranslatorTable.

Import Reference.

Lemma wmoTable_description_nonempty (code : Z) d g :
  assoc code wmoTable = Some (d, g) -> isEmpty d = false.
Proof.
  unfold wmoTable. cbn [assoc]. intros E.
  repeat (case_decide; [injection E as <- <-; reflexivity|]).
  discriminate.
Qed.

Lemma getWeatherDescription_integer (rt : Runtime) (code : Z) :
  getWeatherDescription rt (JNum (inject_Z code)) = wmoDescription code.
Proof.
  unfold getWeatherDescription, wmoDescription.
  rewrite toString_integer, getWeatherDescription_map_table, lookup_by_digits.
  rewrite (assoc_map fst).
  destruct (assoc code wmoTable) as [[d g]|] eqn:E; [|reflexivity].
  cbn [fmap option_fmap option_map fst]. unfold orElse.
  now rewrite (wmoTable_description_nonempty code d g E).
Qed.

Lemma getWeatherIcon_integer (code : Z) :
  getWeatherIcon (JNum (inject_Z code)) = wmoIcon code.
Proof.
  unfold getWeatherIcon, numsInclude. cbn [existsb].
  rewrite !strictEqNum_integer.
  unfold wmoIcon, wmoTable. cbn [assoc].
  repeat (case_decide; [subst code; reflexivity|]).
  rewrite !(proj2 (Z.eqb_neq code _)) by congruence.
  reflexivity.
Qed.

(** A code outside the table has no entry. *)
Lemma assoc_None {A} (table : list (Z * A)) (code : Z) :
  assoc code table = None <-> ~ In code (List.map fst table).
Proof.
  induction table as [|[k a] rest IH]; simpl; [tauto|].
  case_decide; [split; [discriminate|tauto]|]. rewrite IH. tauto.
Qed.

End CodeTranslatorTable.

(** C2.  [getWeatherDescription] and [getWeatherIcon] are total on integer
    codes and reproduce the weather-code table: the table has the 24 known
    WMO codes; a code of the table gets its description and the icon token
    of its group; every other integer, negative or large, gets the fallback
    description and the fallback icon token (the [None] case of
    [wmoDescription] and [wmoIcon]). *)
Theorem weather_code_table (rt : Runtime) (code : Z) :
  List.map fst Reference.wmoTable
  = [0; 1; 2; 3; 45; 48; 51; 53; 55; 61; 63; 65; 71; 73; 75; 77; 80; 81; 82;
     85; 86; 95; 96; 99]%Z
  /\ getWeatherDescription rt (JNum (inject_Z code))
     = Reference.wmoDescription code
  /\ getWeatherIcon (JNum (inject_Z code)) = Reference.wmoIcon code
  /\ Reference.wmoDescription (-1) = js "Condição desconhecida"
  /\ Reference.wmoIcon 100 = js "wi-na".
Proof.
  split; [reflexivity|]. split; [apply getWeatherDescription_integer|].
  split; [apply getWeatherIcon_integer|]. split; reflexivity.
Qed.

(** Outside the 24 codes both functions give their fallback. *)
Lemma unknown_code_fallback (rt : Runtime) (code : Z) :
  ~ In code (List.map fst Reference.wmoTable) ->
  getWeatherDescription rt (JNum (inject_Z code)) = js "Condição desconhecida"
  /\ getWeatherIcon (JNum (inject_Z code)) = js "wi-na".
Proof.
  intros H. apply assoc_None in H.
  rewrite getWeatherDescription_integer, getWeatherIcon_integer.
  unfold Reference.wmoDescription, Reference.wmoIcon. now rewrite H.
Qed.

(* ===================================================================== *)
(** ** The submit handler: what the user is told on a failure *)
(* ===================================================================== *)

Section Handler.

Variable rt : Runtime.
Variable net : Network.
Variable renderDay : JSValue -> nat -> Result ForecastRow.

Lemma clearStates_ok (w : World) : (clearStates w).1 = Ok tt.
Proof. reflexivity. Qed.

(** With a name typed in, the handler resets the page and runs the
    [try]/[catch]/[finally] statement. *)
Lemma onSubmit_unfold (rev : Revision) (w : World) :
  trim (cityInput_value (page w)) <> [] ->
  onSubmit rt net renderDay rev w
  = finally (tryCatch (tryBlock rt net renderDay rev
                                (trim (cityInput_value (page w))))
                      catchBlock)
            (setDisabled false) (clearStates w).2.
Proof.
  intros Hin. apply isEmpty_false in Hin.
  unfold onSubmit, bind at 1, readPage. cbn [page]. rewrite Hin.
  reflexivity.
Qed.

(** When the [try] block throws, the handler ends normally with the
    message of the [catch] block in [#error], shown, the loading
    indicator hidden and the button enabled again. *)
Lemma onSubmit_throw (rev : Revision) (w w' : World) (err : Exn) :
  trim (cityInput_value (page w)) <> [] ->
  tryBlock rt net renderDay rev (trim (cityInput_value (page w)))
           (clearStates w).2 = (Throw err, w') ->
  let final := onSubmit rt net renderDay rev w in
  final.1 = Ok tt
  /\ textContent (page final.2) errorEl = catchMessage err
  /\ display (page final.2) errorEl = display_block
  /\ display (page final.2) loadingEl = display_none
  /\ searchBtn_disabled (page final.2) = false
  /\ sent final.2 = sent w'.
Proof.
  intros Hin Htry. cbv zeta. rewrite (onSubmit_unfold rev w Hin).
  unfold finally, tryCatch. rewrite Htry. repeat split.
Qed.

End Handler.

(** The test of the [catch] block.  When a query fails with a message,
    what the handler shows in [#error] depends only on whether the
    message, in lower case, contains ["cidade"]: if it does not, the
    message itself is shown; if it does, the fixed text ["Cidade não
    encontrada. Tente novamente."] is shown.  The text of the geocoding
    upstream error and the text of the not-found error both contain the
    word; the text of the weather upstream error does not. *)
Theorem user_message_routing
    (rt : Runtime) (net : Network)
    (renderDay : JSValue -> nat -> Result ForecastRow)
    (rev : Revision) (w w' : World) (err : Exn) (m : jsstring) :
  trim (cityInput_value (page w)) <> [] ->
  tryBlock rt net renderDay rev (trim (cityInput_value (page w)))
           (clearStates w).2 = (Throw err, w') ->
  exn_message err = Some m ->
  m <> [] ->
  let final := onSubmit rt net renderDay rev w in
  display (page final.2) errorEl = display_block
  /\ textContent (page final.2) errorEl
     = (if includes (toLowerCase m) (js "cidade")
        then js "Cidade não encontrada. Tente novamente."
        else m)
  /\ includes (toLowerCase (js "Erro ao buscar coordenadas da cidade"))
              (js "cidade") = true
  /\ includes (toLowerCase (js "Cidade não encontrada")) (js "cidade") = true
  /\ includes (toLowerCase (js "Erro ao buscar dados do clima"))
              (js "cidade") = false.
Proof.
  intros Hin Htry Hm Hne final.
  destruct (onSubmit_throw rt net renderDay rev w w' err Hin Htry)
    as (_ & Htext & Hdisp & _).
  fold final in Htext, Hdisp. split; [exact Hdisp|].
  split; [|repeat split; vm_compute; reflexivity].
  rewrite Htext. unfold catchMessage. rewrite Hm.
  apply isEmpty_false in Hne. unfold orElse. rewrite Hne. cbn [negb andb].
  now destruct (includes (toLowerCase m) (js "cidade")).
Qed.

(** The weather service answers 500 to the current-weather request: the
    handler shows the text of that failure. *)
Lemma user_message_routing_witness :
  textContent
    (page (onSubmit Example.saoPaulo Example.weatherDown
                    (Example.renderDay Example.saoPaulo) WithForecast
                    (Example.start "Lisboa")).2) errorEl
  = js "Erro ao buscar dados do clima".
Proof.
  assert (H1 : trim (cityInput_value (page (Example.start "Lisboa"))) <> [])
    by (vm_compute; discriminate).
  assert (H2 : tryBlock Example.saoPaulo Example.weatherDown
                 (Example.renderDay Example.saoPaulo) WithForecast
                 (trim (cityInput_value (page (Example.start "Lisboa"))))
                 (clearStates (Example.start "Lisboa")).2
               = (Throw (newError (js "Erro ao buscar dados do clima")),
                  (tryBlock Example.saoPaulo Example.weatherDown
                     (Example.renderDay Example.saoPaulo) WithForecast
                     (trim (cityInput_value (page (Example.start "Lisboa"))))
                     (clearStates (Example.start "Lisboa")).2).2))
    by (vm_compute; reflexivity).
  assert (H3 : exn_message (newError (js "Erro ao buscar dados do clima"))
               = Some (js "Erro ao buscar dados do clima")) by reflexivity.
  assert (H4 : js "Erro ao buscar dados do clima" <> [])
    by (vm_compute; discriminate).
  destruct (user_message_routing _ _ _ _ _ _ _ _ H1 H2 H3 H4) as (_ & H & _).
  rewrite H. vm_compute. reflexivity.
Defined.

(** C1 on the code.  The geocoding service answers 500: the resolver
    throws ["Erro ao buscar coordenadas da cidade"], which is not the
    not-found error, and the handler shows the not-found text instead of
    the text of the failure.  The same failure of the weather service is
    shown as its own text, as the comments of the [catch] block say of
    every other error. *)
Theorem geocoding_upstream_error_shown_as_not_found :
  (getCityCoordinates Example.geocodingDown (js "Lisboa") (Example.start "Lisboa")).1
    = Throw (newError (js "Erro ao buscar coordenadas da cidade"))
  /\ textContent
       (page (onSubmit Example.saoPaulo Example.geocodingDown
                       (Example.renderDay Example.saoPaulo) WithForecast
                       (Example.start "Lisboa")).2) errorEl
     = js "Cidade não encontrada. Tente novamente."
  /\ js "Cidade não encontrada. Tente novamente."
     <> js "Erro ao buscar coordenadas da cidade"
  /\ textContent
       (page (onSubmit Example.saoPaulo Example.weatherDown
                       (Example.renderDay Example.saoPaulo) WithForecast
                       (Example.start "Lisboa")).2) errorEl
     = js "Erro ao buscar dados do clima".
Proof.
  vm_compute. repeat split; discriminate.
Qed.

(** A failure without a message, or with an empty one, is shown as the
    not-found text: the fallback text of the [catch] block is never used. *)
Lemma catchMessage_without_message (kind : ErrorName) :
  catchMessage (mkExn kind None) = js "Cidade não encontrada. Tente novamente."
  /\ catchMessage (mkExn kind (Some []))
     = js "Cidade não encontrada. Tente novamente.".
Proof. split; reflexivity. Qed.

Lemma catchMessage_never_fallback (err : Exn) :
  catchMessage err <> js "Erro ao buscar dados do clima. Tente novamente."
  \/ exn_message err = Some (js "Erro ao buscar dados do clima. Tente novamente.").
Proof.
  unfold catchMessage. destruct (exn_message err) as [m|]; [|left; discriminate].
  destruct (isEmpty m) eqn:E; cbn [negb andb]; [left; discriminate|].
  destruct (includes (toLowerCase m) (js "cidade")); cbn [negb];
    [left; discriminate|].
  unfold orElse. rewrite E.
  destruct (decide (m = js "Erro ao buscar dados do clima. Tente novamente."))
    as [->|Hne]; [now right|now left].
Qed.

(* ===================================================================== *)
(** ** The coordinate resolver and the weather fetcher *)
(* ===================================================================== *)

Section Fetchers.

Variable net : Network.

(** The guard of [getCityCoordinates] rejects exactly the names made of
    white space only (the empty name among them). *)
Lemma blank_name (cityName : jsstring) :
  isEmpty cityName || isEmpty (trim cityName)
  = forallb isWhiteSpace cityName.
Proof.
  apply eq_true_iff_eq. rewrite orb_true_iff, !isEmpty_true, trim_nil.
  split; [|tauto]. intros [->|H]; [reflexivity|exact H].
Qed.

(** The world after one awaited request. *)
Lemma fetch_resolved (w : World) (req : Request) (elapsed : Z) (res : Response) :
  net (sent w) req = (elapsed, Resolved res) ->
  fetch net req w
  = (Ok res, mkWorld (sent w ++ [req]) (clock w + elapsed)%Z (page w)).
Proof. intros H. unfold fetch. now rewrite H. Qed.

Lemma fetch_rejected (w : World) (req : Request) (elapsed : Z) (e : Exn) :
  net (sent w) req = (elapsed, Rejected e) ->
  fetch net req w
  = (Throw e, mkWorld (sent w ++ [req]) (clock w + elapsed)%Z (page w)).
Proof. intros H. unfold fetch. now rewrite H. Qed.

Lemma fetch_sent (w : World) (req : Request) :
  sent (fetch net req w).2 = sent w ++ [req].
Proof.
  unfold fetch. destruct (net (sent w) req) as [elapsed [e|res]]; reflexivity.
Qed.

Lemma ok_iff (res : Response) :
  ok res = true <-> (200 <= status res <= 299)%Z.
Proof. unfold ok. rewrite andb_true_iff, !Z.leb_le. tauto. Qed.

(** With a name that passes the guard and can be encoded, the resolver
    sends its request and goes on with the response. *)
Lemma getCityCoordinates_request (cityName encoded : jsstring) (w : World) :
  forallb isWhiteSpace cityName = false ->
  encodeURIComponent cityName = Ok encoded ->
  getCityCoordinates net cityName w
  = (res <- fetch net (geocodingRequest encoded) ;;
     if negb (ok res) then
       throw (newError (js "Erro ao buscar coordenadas da cidade"))
     else
       data <- lift (json res) ;;
       results <- lift (get data (js "results")) ;;
       len <- lift (if truthy results then get results (js "length")
                    else Ok JUndefined) ;;
       if negb (truthy results) || strictEqNum len 0 then
         throw (newError (js "Cidade não encontrada"))
       else
         r <- lift (getIndex results 0) ;;
         latitude <- lift (get r (js "latitude")) ;;
         longitude <- lift (get r (js "longitude")) ;;
         rname <- lift (get r (js "name")) ;;
         rcountry <- lift (get r (js "country")) ;;
         ret (mkLocation latitude longitude rname rcountry)) w.
Proof.
  intros Hblank Henc. unfold getCityCoordinates.
  rewrite blank_name, Hblank. unfold bind at 1, lift at 1. rewrite Henc.
  reflexivity.
Qed.

End Fetchers.

Section Resolver.

Variable net : Network.

Lemma unreserved_not_surrogate (c : N) :
  uriUnreserved c = true ->
  isLeadSurrogate c = false /\ isTrailSurrogate c = false.
Proof.
  unfold uriUnreserved, isLeadSurrogate, isTrailSurrogate.
  rewrite !orb_true_iff, !andb_true_iff, !N.leb_le, bool_decide_eq_true.
  rewrite !andb_false_iff, !N.leb_gt.
  intros [[[H|H]|H]|H]; [lia|lia|lia|].
  apply list_elem_of_In in H. simpl in H.
  repeat (destruct H as [<-|H]; [split; left; reflexivity|]). contradiction.
Qed.

Lemma prepend_ok (p : jsstring) (r : Result jsstring) :
  (exists enc, prepend p r = Ok enc) <-> (exists enc, r = Ok enc).
Proof.
  destruct r as [s|e]; simpl; split; intros [enc H]; try discriminate; eauto.
Qed.

(** [encodeURIComponent] returns exactly on the well-formed strings. *)
Lemma encodeURIComponent_wellFormed (s : jsstring) :
  isWellFormed s = true <-> exists encoded, encodeURIComponent s = Ok encoded.
Proof.
  remember (length s) as n eqn:Hn. revert s Hn.
  induction n as [n IH] using lt_wf_ind. intros s Hn.
  destruct s as [|c r]; [simpl; split; eauto|].
  cbn [isWellFormed encodeURIComponent].
  destruct (uriUnreserved c) eqn:Hu.
  - destruct (unreserved_not_surrogate c Hu) as [-> ->].
    rewrite prepend_ok. apply (IH (length r)); simpl in *; [lia|reflexivity].
  - destruct (isLeadSurrogate c).
    + destruct r as [|d r']; [split; [discriminate|intros [? ?]; discriminate]|].
      destruct (isTrailSurrogate d); cbn [andb].
      * rewrite prepend_ok. apply (IH (length r')); simpl in *; [lia|reflexivity].
      * split; [discriminate|intros [? ?]; discriminate].
    + destruct (isTrailSurrogate c).
      * split; [discriminate|intros [? ?]; discriminate].
      * rewrite prepend_ok. apply (IH (length r)); simpl in *; [lia|reflexivity].
Qed.

(** After the request the resolver only reads the response. *)
Lemma getCityCoordinates_sent (cityName encoded : jsstring) (w : World) :
  forallb isWhiteSpace cityName = false ->
  encodeURIComponent cityName = Ok encoded ->
  sent (getCityCoordinates net cityName w).2
  = sent w ++ [geocodingRequest encoded].
Proof.
  intros Hblank Henc. rewrite (getCityCoordinates_request net _ _ _ Hblank Henc).
  rewrite <- (fetch_sent net w). unfold bind at 1.
  destruct (fetch net (geocodingRequest encoded) w) as [[res|e] w']; [|reflexivity].
  cbn [snd]. unfold bind, lift, throw, ret.
  repeat match goal with
         | |- context [match ?x with _ => _ end] => destruct x
         end; reflexivity.
Qed.

End Resolver.

(** C5, as amended.  A name that is empty or made of white space only
    makes [getCityCoordinates] fail with ["Nome da cidade é obrigatório"]
    and nothing is sent; any other name that is well formed (no surrogate
    without its pair) makes it send exactly one request, the geocoding
    request for the encoded name. *)
Theorem getCityCoordinates_guard
    (net : Network) (cityName : jsstring) (w : World) :
  (forallb isWhiteSpace cityName = true ->
   getCityCoordinates net cityName w
   = (Throw (newError (js "Nome da cidade é obrigatório")), w))
  /\ (forallb isWhiteSpace cityName = false ->
      isWellFormed cityName = true ->
      exists encoded,
        encodeURIComponent cityName = Ok encoded
        /\ sent (getCityCoordinates net cityName w).2
           = sent w ++ [geocodingRequest encoded]).
Proof.
  split.
  - intros H. unfold getCityCoordinates. now rewrite blank_name, H.
  - intros Hblank Hwf.
    apply encodeURIComponent_wellFormed in Hwf as [encoded Henc].
    exists encoded. split; [exact Henc|].
    now apply getCityCoordinates_sent.
Qed.

(** Three spaces are refused without a request; ["São Paulo"] is looked
    up with one. *)
Lemma getCityCoordinates_guard_witness :
  getCityCoordinates Example.geocodingDown (js "   ") (Example.start "")
  = (Throw (newError (js "Nome da cidade é obrigatório")), Example.start "")
  /\ exists encoded,
       encodeURIComponent (js "São Paulo") = Ok encoded
       /\ sent (getCityCoordinates Example.geocodingDown (js "São Paulo")
                                   (Example.start "")).2
          = sent (Example.start "") ++ [geocodingRequest encoded].
Proof.
  split.
  - apply (proj1 (getCityCoordinates_guard Example.geocodingDown (js "   ")
                                           (Example.start ""))).
    vm_compute. reflexivity.
  - apply (proj2 (getCityCoordinates_guard Example.geocodingDown (js "São Paulo")
                                           (Example.start ""))).
    + vm_compute. reflexivity.
    + vm_compute. reflexivity.
Defined.

(** C5, as stated, fails: a name that is one unpaired surrogate is not
    white space, yet no request is sent; [encodeURIComponent] throws. *)
Lemma unpaired_surrogate_sends_nothing :
  forallb isWhiteSpace [0xD800%N] = false
  /\ getCityCoordinates Example.geocodingDown [0xD800%N] (Example.start "")
     = (Throw (mkExn URIError (Some (js "URI malformed"))), Example.start "")
  /\ sent (getCityCoordinates Example.geocodingDown [0xD800%N]
                              (Example.start "")).2 = [].
Proof. vm_compute. repeat split. Qed.

Section Responses.

Variable net : Network.

Lemma not_ok (res : Response) :
  ~ (200 <= status res <= 299)%Z -> ok res = false.
Proof.
  intros H. destruct (ok res) eqn:E; [|reflexivity].
  apply ok_iff in E. contradiction.
Qed.

(** With a successful response whose body parses, the weather fetcher
    returns the [current_weather] member when it is truthy and [null]
    otherwise. *)
Lemma getWeatherData_body (lat lon : JSValue) (w : World) (elapsed st : Z)
    (fields : list (jsstring * JSValue)) :
  net (sent w) (weatherRequest lat lon)
  = (elapsed, Resolved (mkResponse st (Ok (JObj fields)))) ->
  (200 <= st <= 299)%Z ->
  (getWeatherData net lat lon w).1
  = Ok (let v := default JUndefined (ownProperty fields (js "current_weather")) in
        if truthy v then v else JNull).
Proof.
  intros Hnet Hst. unfold getWeatherData. unfold bind at 1.
  fold (weatherRequest lat lon). rewrite (fetch_resolved net _ _ _ _ Hnet).
  assert (Hok : ok (mkResponse st (Ok (JObj fields))) = true) by now apply ok_iff.
  rewrite Hok. reflexivity.
Qed.

End Responses.

(** C6.  A geocoding response with a 2xx status whose body has no
    [results] key, or an empty [results] array, makes [getCityCoordinates]
    fail with ["Cidade não encontrada"]. *)
Theorem getCityCoordinates_not_found
    (net : Network) (cityName encoded : jsstring) (w : World)
    (elapsed st : Z) (fields : list (jsstring * JSValue)) :
  forallb isWhiteSpace cityName = false ->
  encodeURIComponent cityName = Ok encoded ->
  net (sent w) (geocodingRequest encoded)
  = (elapsed, Resolved (mkResponse st (Ok (JObj fields)))) ->
  (200 <= st <= 299)%Z ->
  ownProperty fields (js "results") = None
  \/ ownProperty fields (js "results") = Some (JArr []) ->
  (getCityCoordinates net cityName w).1
  = Throw (newError (js "Cidade não encontrada")).
Proof.
  intros Hblank Henc Hnet Hst Hres.
  rewrite (getCityCoordinates_request net _ _ _ Hblank Henc).
  unfold bind at 1. rewrite (fetch_resolved net _ _ _ _ Hnet).
  assert (Hok : ok (mkResponse st (Ok (JObj fields))) = true) by now apply ok_iff.
  rewrite Hok. cbn [negb json]. unfold bind at 1, lift at 1.
  unfold bind at 1, lift at 1, get at 1.
  destruct Hres as [-> | ->]; reflexivity.
Qed.

(** The body [{"results": []}] of the test suite, and the body [{}]. *)
Lemma getCityCoordinates_not_found_witness :
  (getCityCoordinates
     (Example.scripted [Example.respond 200 (JObj [(js "results", JArr [])])])
     (js "CidadeInexistenteXyz") (Example.start "")).1
  = Throw (newError (js "Cidade não encontrada"))
  /\ (getCityCoordinates (Example.scripted [Example.respond 200 (JObj [])])
        (js "CidadeInexistenteXyz") (Example.start "")).1
     = Throw (newError (js "Cidade não encontrada")).
Proof.
  split.
  - apply (getCityCoordinates_not_found _ _ (js "CidadeInexistenteXyz") _ 150 200
             [(js "results", JArr [])]);
      [vm_compute; reflexivity | vm_compute; reflexivity | vm_compute; reflexivity
      | lia | right; vm_compute; reflexivity].
  - apply (getCityCoordinates_not_found _ _ (js "CidadeInexistenteXyz") _ 150 200 []);
      [vm_compute; reflexivity | vm_compute; reflexivity | vm_compute; reflexivity
      | lia | left; reflexivity].
Defined.

(** C7.  A response whose status is outside 200-299 makes
    [getCityCoordinates] fail with ["Erro ao buscar coordenadas da cidade"]
    and [getWeatherData] fail with ["Erro ao buscar dados do clima"],
    whatever the status and whatever the body. *)
Theorem upstream_error_fixed_text
    (net : Network) (w : World) (elapsed st : Z) (body : Result JSValue) :
  ~ (200 <= st <= 299)%Z ->
  (forall cityName encoded,
     forallb isWhiteSpace cityName = false ->
     encodeURIComponent cityName = Ok encoded ->
     net (sent w) (geocodingRequest encoded)
     = (elapsed, Resolved (mkResponse st body)) ->
     (getCityCoordinates net cityName w).1
     = Throw (newError (js "Erro ao buscar coordenadas da cidade")))
  /\ (forall lat lon,
        net (sent w) (weatherRequest lat lon)
        = (elapsed, Resolved (mkResponse st body)) ->
        (getWeatherData net lat lon w).1
        = Throw (newError (js "Erro ao buscar dados do clima"))).
Proof.
  intros Hst.
  assert (Hok : ok (mkResponse st body) = false) by now apply not_ok.
  split.
  - intros cityName encoded Hblank Henc Hnet.
    rewrite (getCityCoordinates_request net _ _ _ Hblank Henc).
    unfold bind at 1. rewrite (fetch_resolved net _ _ _ _ Hnet).
    now rewrite Hok.
  - intros lat lon Hnet. unfold getWeatherData. unfold bind at 1.
    fold (weatherRequest lat lon). rewrite (fetch_resolved net _ _ _ _ Hnet).
    now rewrite Hok.
Qed.

(** The 429 and the 500 of the test suite. *)
Lemma upstream_error_fixed_text_witness :
  (getCityCoordinates
     (Example.scripted
        [Example.respond 429 (JObj [(js "message", JStr (js "Too Many Requests"))])])
     (js "B") (Example.start "")).1
  = Throw (newError (js "Erro ao buscar coordenadas da cidade"))
  /\ (getWeatherData (Example.scripted [Example.respond 500 (JObj [])])
        (JNum 1) (JNum 1) (Example.start "")).1
     = Throw (newError (js "Erro ao buscar dados do clima")).
Proof.
  split.
  - refine (proj1 (upstream_error_fixed_text _ (Example.start "") 150 429
                     (Ok (JObj [(js "message", JStr (js "Too Many Requests"))])) _)
                  (js "B") (js "B") _ _ _);
      [lia | vm_compute; reflexivity | vm_compute; reflexivity | vm_compute; reflexivity].
  - refine (proj2 (upstream_error_fixed_text _ (Example.start "") 150 500
                     (Ok (JObj [])) _) (JNum 1) (JNum 1) _);
      [lia | vm_compute; reflexivity].
Defined.


Section FirstResult.

Variable net : Network.

Lemma get_prop (r : JSValue) (key : jsstring) :
  nullish r = false -> get r key = Ok (prop r key).
Proof.
  intros H. unfold prop. destruct r; try discriminate; simpl;
    repeat case_match; reflexivity.
Qed.

(** A member that a record lacks reads as [undefined]. *)
Lemma prop_missing (fields : list (jsstring * JSValue)) (key : jsstring) :
  ownProperty fields key = None -> prop (JObj fields) key = JUndefined.
Proof. intros H. unfold prop, get. now rewrite H. Qed.

Lemma prop_present (fields : list (jsstring * JSValue)) (key : jsstring) v :
  ownProperty fields key = Some v -> prop (JObj fields) key = v.
Proof. intros H. unfold prop, get. now rewrite H. Qed.

End FirstResult.

(** With a successful response whose body is any JSON value but [null],
    the weather fetcher returns the [current_weather] member when it is
    truthy and [null] otherwise. *)
Lemma getWeatherData_any_body (net : Network) (lat lon : JSValue) (w : World)
    (elapsed st : Z) (body : JSValue) :
  net (sent w) (weatherRequest lat lon)
  = (elapsed, Resolved (mkResponse st (Ok body))) ->
  (200 <= st <= 299)%Z ->
  nullish body = false ->
  (getWeatherData net lat lon w).1
  = Ok (let v := prop body (js "current_weather") in
        if truthy v then v else JNull).
Proof.
  intros Hnet Hst Hbody. unfold getWeatherData. unfold bind at 1.
  fold (weatherRequest lat lon). rewrite (fetch_resolved net _ _ _ _ Hnet).
  assert (Hok : ok (mkResponse st (Ok body)) = true) by now apply ok_iff.
  rewrite Hok. cbn [negb json]. unfold bind at 1, lift at 1.
  unfold bind at 1, lift at 1. now rewrite (get_prop body _ Hbody).
Qed.

(** A body that is not a record has no [current_weather] member. *)
Lemma prop_not_record (body : JSValue) :
  (forall fields, body <> JObj fields) ->
  prop body (js "current_weather") = JUndefined.
Proof.
  assert (E : eqb (js "current_weather") (js "length") = false)
    by (vm_compute; reflexivity).
  intros H. destruct body; unfold prop, get; rewrite ?E; try reflexivity.
  now contradiction (H fields).
Qed.

(** C8, as amended.  A current-weather response with a 2xx status whose
    body is JSON other than [null]: when the body lacks [current_weather]
    (it is not a record, or it is a record without that member)
    [getWeatherData] returns [null] without throwing; when the member is
    there and is a record (or any truthy value), it is returned as it
    is. *)
Theorem getWeatherData_current_weather
    (net : Network) (lat lon : JSValue) (w : World) (elapsed st : Z)
    (body : JSValue) :
  net (sent w) (weatherRequest lat lon)
  = (elapsed, Resolved (mkResponse st (Ok body))) ->
  (200 <= st <= 299)%Z ->
  nullish body = false ->
  ((forall fields, body = JObj fields ->
                   ownProperty fields (js "current_weather") = None) ->
   (getWeatherData net lat lon w).1 = Ok JNull)
  /\ (forall fields record,
        body = JObj fields ->
        ownProperty fields (js "current_weather") = Some (JObj record) ->
        (getWeatherData net lat lon w).1 = Ok (JObj record))
  /\ (forall fields v,
        body = JObj fields ->
        ownProperty fields (js "current_weather") = Some v ->
        truthy v = true ->
        (getWeatherData net lat lon w).1 = Ok v).
Proof.
  intros Hnet Hst Hbody.
  rewrite (getWeatherData_any_body net _ _ _ _ _ _ Hnet Hst Hbody).
  split; [|split].
  - intros Hlacks.
    assert (Hu : prop body (js "current_weather") = JUndefined).
    { destruct body as [| | | | | |fields];
        try (apply prop_not_record; intros fields; discriminate).
      apply prop_missing. now apply Hlacks. }
    now rewrite Hu.
  - intros fields record -> H. now rewrite (prop_present _ _ _ H).
  - intros fields v -> H Hv. rewrite (prop_present _ _ _ H). cbv zeta.
    now rewrite Hv.
Qed.

(** The body [{"unexpected": true}] of the test suite gives [null], and so
    does a body that is an empty array; a body with the record gives the
    record. *)
Lemma getWeatherData_current_weather_witness :
  (getWeatherData
     (Example.scripted [Example.respond 200 (JObj [(js "unexpected", JBool true)])])
     (JNum (-10)) (JNum 10) (Example.start "")).1 = Ok JNull
  /\ (getWeatherData
        (Example.scripted [Example.respond 200 (JArr [])])
        (JNum (-10)) (JNum 10) (Example.start "")).1 = Ok JNull
  /\ (getWeatherData
        (Example.scripted
           [Example.respond 200 (Example.currentWeather (Example.num 254 10) 63
                                  "2025-11-10T15:00")])
        (JNum (-10)) (JNum 10) (Example.start "")).1
     = Ok (JObj [(js "temperature", Example.num 254 10);
                 (js "weathercode", JNum (inject_Z 63));
                 (js "time", JStr (js "2025-11-10T15:00"))]).
Proof.
  split; [|split].
  - refine (proj1 (getWeatherData_current_weather _ (JNum (-10)) (JNum 10)
                     (Example.start "") 150 200
                     (JObj [(js "unexpected", JBool true)]) _ _ _) _).
    + vm_compute. reflexivity.
    + lia.
    + reflexivity.
    + intros fields [= <-]. vm_compute. reflexivity.
  - refine (proj1 (getWeatherData_current_weather _ (JNum (-10)) (JNum 10)
                     (Example.start "") 150 200 (JArr []) _ _ _) _).
    + vm_compute. reflexivity.
    + lia.
    + reflexivity.
    + intros fields H. discriminate H.
  - refine (proj1 (proj2 (getWeatherData_current_weather _ (JNum (-10)) (JNum 10)
                     (Example.start "") 150 200
                     (Example.currentWeather (Example.num 254 10) 63
                                             "2025-11-10T15:00") _ _ _))
                  _ _ eq_refl _).
    + vm_compute. reflexivity.
    + lia.
    + reflexivity.
    + vm_compute. reflexivity.
Defined.

(** C8, as stated, fails: the weather service answers 200 with the body
    [null], which lacks [current_weather] like any other; reading the
    member throws a TypeError, and [getWeatherData] does not return
    [null]. *)
Lemma null_body_is_not_degraded :
  ok (mkResponse 200 (Ok JNull)) = true
  /\ (getWeatherData (Example.scripted [Example.respond 200 JNull])
                     (JNum (-10)) (JNum 10) (Example.start "")).1
     = Throw (mkExn TypeError
                (Some (js "Cannot read properties of null (reading 'current_weather')")))
  /\ (getWeatherData (Example.scripted [Example.respond 200 JNull])
                     (JNum (-10)) (JNum 10) (Example.start "")).1
     <> Ok JNull.
Proof.
  split; [reflexivity|]. split; [vm_compute; reflexivity|].
  vm_compute. discriminate.
Qed.

(** C10, as amended.  A geocoding response with a 2xx status and a
    non-empty [results] array whose first entry is not [null] makes
    [getCityCoordinates] return the members [latitude], [longitude], [name]
    and [country] of that first entry as [lat], [lon], [name] and
    [country], without looking at them: a member the entry lacks comes out
    as [undefined]. *)
Theorem getCityCoordinates_first_result
    (net : Network) (cityName encoded : jsstring) (w : World)
    (elapsed st : Z) (fields : list (jsstring * JSValue))
    (r : JSValue) (rest : list JSValue) :
  forallb isWhiteSpace cityName = false ->
  encodeURIComponent cityName = Ok encoded ->
  net (sent w) (geocodingRequest encoded)
  = (elapsed, Resolved (mkResponse st (Ok (JObj fields)))) ->
  (200 <= st <= 299)%Z ->
  ownProperty fields (js "results") = Some (JArr (r :: rest)) ->
  nullish r = false ->
  (getCityCoordinates net cityName w).1
  = Ok (mkLocation (prop r (js "latitude")) (prop r (js "longitude"))
                   (prop r (js "name")) (prop r (js "country")))
  /\ (forall entry key,
        r = JObj entry -> ownProperty entry key = None ->
        prop r key = JUndefined).
Proof.
  intros Hblank Henc Hnet Hst Hres Hr.
  split; [|intros entry key -> H; now apply prop_missing].
  rewrite (getCityCoordinates_request net _ _ _ Hblank Henc).
  unfold bind at 1. rewrite (fetch_resolved net _ _ _ _ Hnet).
  assert (Hok : ok (mkResponse st (Ok (JObj fields))) = true) by now apply ok_iff.
  rewrite Hok. cbn [negb json]. unfold bind at 1, lift at 1.
  unfold bind at 1, lift at 1, get at 1. rewrite Hres.
  change (default JUndefined (Some (JArr (r :: rest)))) with (JArr (r :: rest)).
  cbn [truthy]. unfold bind at 1, lift at 1.
  change (get (JArr (r :: rest)) (js "length"))
    with (Ok (JNum (inject_Z (Z.of_nat (S (length rest)))))).
  cbv beta iota. rewrite strictEqNum_integer.
  destruct (Z.eqb_spec (Z.of_nat (S (length rest))) 0) as [E|_]; [lia|].
  cbn [negb orb]. unfold bind at 1, lift at 1.
  change (getIndex (JArr (r :: rest)) 0) with (Ok r).
  cbv beta iota. unfold bind, lift, ret. rewrite !(get_prop r _ Hr). reflexivity.
Qed.

(** The first test of the suite, and an entry with nothing but a name. *)
Lemma getCityCoordinates_first_result_witness :
  (getCityCoordinates
     (Example.scripted
        [Example.respond 200
           (Example.geocoding (Example.num (-2355) 100) (Example.num (-4663) 100)
                              "São Paulo" "Brazil")])
     (js "São Paulo") (Example.start "")).1
  = Ok (mkLocation (Example.num (-2355) 100) (Example.num (-4663) 100)
                   (JStr (js "São Paulo")) (JStr (js "Brazil")))
  /\ (getCityCoordinates
        (Example.scripted
           [Example.respond 200
              (JObj [(js "results", JArr [JObj [(js "name", JStr (js "X"))]])])])
        (js "X") (Example.start "")).1
     = Ok (mkLocation JUndefined JUndefined (JStr (js "X")) JUndefined).
Proof.
  split.
  - refine (proj1 (getCityCoordinates_first_result _ (js "São Paulo")
                     (js "S%C3%A3o%20Paulo") (Example.start "") 150 200 _
                     (JObj [(js "latitude", Example.num (-2355) 100);
                            (js "longitude", Example.num (-4663) 100);
                            (js "name", JStr (js "São Paulo"));
                            (js "country", JStr (js "Brazil"))]) [] _ _ _ _ _ _));
      [vm_compute; reflexivity | vm_compute; reflexivity | vm_compute; reflexivity
      | lia | vm_compute; reflexivity | reflexivity].
  - refine (proj1 (getCityCoordinates_first_result _ (js "X") (js "X")
                     (Example.start "") 150 200 _
                     (JObj [(js "name", JStr (js "X"))]) [] _ _ _ _ _ _));
      [vm_compute; reflexivity | vm_compute; reflexivity | vm_compute; reflexivity
      | lia | vm_compute; reflexivity | reflexivity].
Defined.

(** C10, as stated, fails: with the body [{"results": [null]}] the array
    is not empty, and reading [latitude] of its first entry throws a
    TypeError. *)
Lemma null_first_result_throws :
  (getCityCoordinates
     (Example.scripted
        [Example.respond 200 (JObj [(js "results", JArr [JNull])])])
     (js "X") (Example.start "")).1
  = Throw (mkExn TypeError
             (Some (js "Cannot read properties of null (reading 'latitude')"))).
Proof. vm_compute. reflexivity. Qed.

(* ===================================================================== *)
(** ** The timestamp formatter *)
(* ===================================================================== *)

(** C3, as amended.  [formatDateTimeLocal] never throws on a string (or on
    an absent argument) and changes nothing.  An empty or absent input
    gives the current local date and time in the locale's format.  A
    non-empty input with at least one ['T'] is rebuilt from its first two
    parts, whatever follows a second ['T']: with the date part [Y-M-D] and
    the time part [H:MIN...] the result is [D/M/Y H:MIN], the minute being
    ["00"] when it is missing or empty, and the seconds dropped.  A
    non-empty input without ['T'] that the generic parse accepts gives the
    parsed date in the locale's format. *)
Theorem formatDateTimeLocal_cases (rt : Runtime) (s : jsstring) (w : World) :
  formatDateTimeLocal rt JUndefined w = (Ok (rt_toLocaleString rt (clock w)), w)
  /\ exists r,
      formatDateTimeLocal rt (JStr s) w = (Ok r, w)
      /\ (s = [] -> r = rt_toLocaleString rt (clock w))
      /\ (forall datePart timePart more y m d h mins,
            s <> [] ->
            split 0x54 s = datePart :: timePart :: more ->
            split 0x2D datePart = [y; m; d] ->
            split 0x3A timePart = h :: mins ->
            r = d ++ js "/" ++ m ++ js "/" ++ y ++ js " " ++ h ++ js ":"
                ++ match mins with
                   | minute :: _ => if isEmpty minute then js "00" else minute
                   | [] => js "00"
                   end)
      /\ (forall t,
            s <> [] -> ~ In 0x54%N s -> rt_Date_parse rt s = Some t ->
            r = rt_toLocaleString rt t).
Proof.
  split; [reflexivity|].
  unfold formatDateTimeLocal. cbn [truthy].
  destruct (isEmpty s) eqn:Eempty; cbn [negb].
  - apply isEmpty_true in Eempty. subst s.
    eexists. split; [reflexivity|]. repeat split; try congruence.
  - apply isEmpty_false in Eempty.
    unfold bind at 1, lift at 1. cbn [callSplit].
    destruct (split 0x54 s) as [|p0 [|p1 more]] eqn:Esplit.
    + exfalso. now apply (split_not_nil 0x54%N s).
    + cbn [length Nat.leb]. eexists. split; [reflexivity|].
      split; [congruence|]. split; [intros; discriminate|].
      intros t _ _ Hparse. cbn [toString]. now rewrite Hparse.
    + cbn [length Nat.leb]. eexists. split; [reflexivity|].
      split; [congruence|]. split.
      * intros datePart timePart more0 y m d h mins _ Hparts Hdate Htime.
        injection Hparts as <- <- <-.
        change (default [] ((p0 :: p1 :: more) !! 0%nat)) with p0.
        change (default [] ((p0 :: p1 :: more) !! 1%nat)) with p1.
        rewrite Hdate, Htime.
        destruct mins as [|minute mins']; reflexivity.
      * intros t _ HnoT _. exfalso.
        rewrite (split_without _ _ HnoT) in Esplit. discriminate.
Qed.

(** The examples of the specification, on a host in Sao Paulo at 22:00 on
    10 November 2025. *)
Lemma formatDateTimeLocal_cases_witness :
  (formatDateTimeLocal Example.saoPaulo (JStr (js "2025-11-10T14:30:45"))
                       (Example.start "")).1
  = Ok (js "10/11/2025 14:30")
  /\ (formatDateTimeLocal Example.saoPaulo (JStr (js "2025-11-10T14:30"))
                          (Example.start "")).1
     = Ok (js "10/11/2025 14:30")
  /\ (formatDateTimeLocal Example.saoPaulo (JStr (js "")) (Example.start "")).1
     = Ok (js "10/11/2025, 22:00:00")
  /\ (formatDateTimeLocal Example.saoPaulo (JStr (js "2025-11-10"))
                          (Example.start "")).1
     = Ok (js "09/11/2025, 21:00:00").
Proof.
  split; [|split; [|split]].
  - destruct (formatDateTimeLocal_cases Example.saoPaulo
                (js "2025-11-10T14:30:45") (Example.start ""))
      as (_ & r & -> & _ & H & _).
    rewrite (H (js "2025-11-10") (js "14:30:45") [] (js "2025") (js "11")
               (js "10") (js "14") [js "30"; js "45"]);
      [vm_compute; reflexivity | vm_compute; discriminate | vm_compute; reflexivity
      | vm_compute; reflexivity | vm_compute; reflexivity].
  - destruct (formatDateTimeLocal_cases Example.saoPaulo
                (js "2025-11-10T14:30") (Example.start ""))
      as (_ & r & -> & _ & H & _).
    rewrite (H (js "2025-11-10") (js "14:30") [] (js "2025") (js "11")
               (js "10") (js "14") [js "30"]);
      [vm_compute; reflexivity | vm_compute; discriminate | vm_compute; reflexivity
      | vm_compute; reflexivity | vm_compute; reflexivity].
  - destruct (formatDateTimeLocal_cases Example.saoPaulo (js "") (Example.start ""))
      as (_ & r & -> & H & _).
    rewrite H; [vm_compute; reflexivity | reflexivity].
  - destruct (formatDateTimeLocal_cases Example.saoPaulo (js "2025-11-10")
                                        (Example.start ""))
      as (_ & r & -> & _ & _ & H).
    rewrite (H 1762732800000%Z);
      [vm_compute; reflexivity | vm_compute; discriminate
      | vm_compute; intuition discriminate | vm_compute; reflexivity].
Defined.

(** C3, as stated, fails on two inputs.  With a second ['T'] the input
    does not split into exactly two parts, and the reference definition
    hands it to the generic parse, which rejects it and returns it
    unchanged; the program formats its first two parts.  An input that the
    generic parse rejects is returned unchanged by the reference
    definition, and comes out of the program as ["Invalid Date"]. *)
Lemma formatDateTimeLocal_differs_from_reference :
  ((formatDateTimeLocal Example.saoPaulo (JStr (js "2025-11-10T14:30T99"))
                        (Example.start "")).1
   = Ok (js "10/11/2025 14:30")
   /\ Reference.formatTimestamp Example.saoPaulo Example.evening
                                (js "2025-11-10T14:30T99")
      = js "2025-11-10T14:30T99")
  /\ ((formatDateTimeLocal Example.saoPaulo (JStr (js "not-a-date"))
                           (Example.start "")).1
      = Ok (js "Invalid Date")
      /\ Reference.formatTimestamp Example.saoPaulo Example.evening
                                   (js "not-a-date")
         = js "not-a-date").
Proof. vm_compute. repeat split. Qed.

(* ===================================================================== *)
(** ** The forecast fetcher *)
(* ===================================================================== *)

Section Forecast.

Variable rt : Runtime.
Variable net : Network.

(** The one request of [get5DayForecast]: its [start_date] is the first
    ten characters of [toISOString()] of the clock reading, that is the
    date in UTC; its [end_date] is the UTC date of the instant four local
    calendar days later. *)
Lemma get5DayForecast_request (lat lon : JSValue) (w : World) :
  sent (get5DayForecast rt net lat lon w).2
  = sent w
    ++ [forecastRequest lat lon
          (slice0 10 (toISOString (clock w)))
          (slice0 10 (toISOString
             (setDate (rt_LocalTZA rt) (clock w)
                      (getDate (rt_LocalTZA rt) (clock w) + 4)%Z)))].
Proof.
  unfold get5DayForecast, forecastRequest. unfold bind at 1, now at 1.
  match goal with
  | |- context [fetch net ?req] =>
      rewrite <- (fetch_sent net w req); unfold bind at 1;
      destruct (fetch net req w) as [[res|e] w']; [|reflexivity]
  end.
  cbn [snd]. unfold bind, lift, throw, ret.
  repeat match goal with
         | |- context [match ?x with _ => _ end] => destruct x
         end; reflexivity.
Qed.

End Forecast.

(** C4 on a host in Sao Paulo (UTC-3) at 22:00 local time on 10 November
    2025: the local date is 2025-11-10, and the window requested runs from
    2025-11-11 to 2025-11-15. *)
Theorem get5DayForecast_evening_window
    (net : Network) (lat lon : JSValue) :
  isoDate (localDate (rt_LocalTZA Example.saoPaulo) Example.evening)
  = js "2025-11-10"
  /\ sent (get5DayForecast Example.saoPaulo net lat lon (Example.start "")).2
     = [forecastRequest lat lon (js "2025-11-11") (js "2025-11-15")].
Proof.
  split; [vm_compute; reflexivity|].
  rewrite get5DayForecast_request. vm_compute. reflexivity.
Qed.

(** On a host in New York at 19:30 local time on 31 October 2025, two days
    before daylight time ends, the window requested runs from 2025-10-31 to
    2025-11-05: six days. *)
Lemma get5DayForecast_autumn_window (net : Network) (lat lon : JSValue) :
  isoDate (localDate (rt_LocalTZA Example.newYork) Example.halloween)
  = js "2025-10-31"
  /\ sent (get5DayForecast Example.newYork net lat lon
             (mkWorld [] Example.halloween (Example.freshPage []))).2
     = [forecastRequest lat lon (js "2025-10-31") (js "2025-11-05")].
Proof.
  split; [vm_compute; reflexivity|].
  rewrite get5DayForecast_request. vm_compute. reflexivity.
Qed.

(* ===================================================================== *)
(** ** Dates in a zone at a fixed offset *)
(* ===================================================================== *)

Section FixedOffset.

Local Open Scope Z_scope.

(** The calendar date of a day number determines the day number. *)
Lemma civil_roundtrip (n : Z) :
  1 <= (civil_from_days n).1.2 <= 12
  /\ days_from_civil (civil_from_days n).1.1 (civil_from_days n).1.2
                     (civil_from_days n).2 = n.
Proof.
  unfold civil_from_days, days_from_civil. cbn [fst snd]. cbv zeta.
  repeat match goal with
         | |- context [if ?b then _ else _] => destruct b eqn:?
         end.
  all: repeat match goal with
              | H : (_ <? _) = _ |- _ =>
                  first [apply Z.ltb_lt in H | apply Z.ltb_ge in H]
              | H : (_ <=? _) = _ |- _ =>
                  first [apply Z.leb_le in H | apply Z.leb_gt in H]
              end.
  all: Z.div_mod_to_equations; lia.
Qed.

Lemma days_from_civil_day (y m d k : Z) :
  days_from_civil y m (d + k) = days_from_civil y m d + k.
Proof. unfold days_from_civil. cbv zeta. lia. Qed.

(** Where the offset never changes, [d.setDate(d.getDate() + k)] moves the
    instant by [k] whole days. *)
Lemma setDate_fixed_offset (offset t k : Z) :
  setDate (fun _ _ => offset) t (getDate (fun _ _ => offset) t + k)
  = t + k * msPerDay.
Proof.
  unfold setDate, getDate, LocalTime, UTC, MakeDate, MakeDay.
  unfold YearFromTime, MonthFromTime, DateFromTime.
  cbv zeta.
  destruct (civil_roundtrip (Day (t + offset))) as [Hm Hrt].
  set (c := civil_from_days (Day (t + offset))) in *.
  replace ((c.1.2 - 1) / 12) with 0 by (Z.div_mod_to_equations; lia).
  replace ((c.1.2 - 1) mod 12 + 1) with c.1.2 by (Z.div_mod_to_equations; lia).
  rewrite Z.add_0_r.
  pose proof (days_from_civil_day c.1.1 c.1.2 c.2 (1 - c.2)) as H1.
  replace (c.2 + (1 - c.2)) with 1 in H1 by lia.
  replace (days_from_civil c.1.1 c.1.2 1 + (c.2 + k) - 1)
    with (Day (t + offset) + k) by lia.
  unfold Day, TimeWithinDay, msPerDay. Z.div_mod_to_equations. lia.
Qed.

(** So there the UTC day of the end of the window is four days after the
    UTC day of its start. *)
Lemma window_fixed_offset (offset t : Z) :
  Day (setDate (fun _ _ => offset) t (getDate (fun _ _ => offset) t + 4))
  = Day t + 4.
Proof.
  rewrite setDate_fixed_offset. unfold Day, msPerDay.
  Z.div_mod_to_equations. lia.
Qed.

End FixedOffset.

(* ===================================================================== *)
(** ** The submit handler: current weather and forecast *)
(* ===================================================================== *)

Section CurrentAndForecast.

Variable rt : Runtime.
Variable net : Network.
Variable renderDay : JSValue -> nat -> Result ForecastRow.

(** The fetchers leave the page alone. *)
Lemma getCityCoordinates_page (cityName : jsstring) (w : World) :
  page (getCityCoordinates net cityName w).2 = page w.
Proof.
  unfold getCityCoordinates, bind, lift, throw, ret, fetch.
  case_all; reflexivity.
Qed.

Lemma getWeatherData_page (lat lon : JSValue) (w : World) :
  page (getWeatherData net lat lon w).2 = page w.
Proof.
  unfold getWeatherData, bind, lift, throw, ret, fetch.
  case_all; reflexivity.
Qed.

Lemma get5DayForecast_page (lat lon : JSValue) (w : World) :
  page (get5DayForecast rt net lat lon w).2 = page w.
Proof.
  unfold get5DayForecast, bind, lift, throw, ret, fetch, now.
  case_all; reflexivity.
Qed.

(** The forecast block writes [#forecast5] and nothing else on the page. *)
Lemma showForecast_page (cityData : Location) (w : World) :
  exists panel,
    page (showForecast rt net renderDay cityData w).2
    = mkPage (display (page w)) (textContent (page w)) (className (page w))
             (cityInput_value (page w)) (searchBtn_disabled (page w))
             (container_noBg (page w)) panel.
Proof.
  unfold showForecast. unfold bind at 1.
  pose proof (get5DayForecast_page (lat cityData) (lon cityData) w) as Hp.
  destruct (get5DayForecast rt net (lat cityData) (lon cityData) w)
    as [[daily|e] w1]; cbn [snd] in *.
  - rewrite <- Hp.
    unfold bind, lift, ret, setForecast5, modifyPage.
    case_all; eexists; reflexivity.
  - rewrite Hp. exists (forecast5 (page w)). now destruct (page w).
Qed.

(** When the forecast request fails (a rejection or a status outside
    200-299), [#forecast5] is left as it was. *)
Lemma showForecast_throw (cityData : Location) (w w' : World) (e : Exn) :
  get5DayForecast rt net (lat cityData) (lon cityData) w = (Throw e, w') ->
  forecast5 (page (showForecast rt net renderDay cityData w).2)
  = forecast5 (page w).
Proof.
  intros H. unfold showForecast. unfold bind at 1. rewrite H. cbn [snd].
  pose proof (get5DayForecast_page (lat cityData) (lon cityData) w) as Hp.
  rewrite H in Hp. cbn [snd] in Hp. now rewrite Hp.
Qed.

(** When the daily data is absent, [#forecast5] is there and empty. *)
Lemma showForecast_absent (cityData : Location) (w w' : World) :
  get5DayForecast rt net (lat cityData) (lon cityData) w = (Ok JNull, w') ->
  forecast5 (page (showForecast rt net renderDay cityData w).2)
  = Some (mkPanel None None).
Proof.
  intros H. unfold showForecast. unfold bind at 1. rewrite H. reflexivity.
Qed.

(** The statements that end the [try] block show the panel of results
    and leave its contents alone. *)
Lemma tryBlock_tail (w : World) :
  let done := (setDisplay loadingEl display_none ;;
               setDisplay weatherInfoEl display_block ;;
               setDisplay pageTitleEl display_none ;;
               setNoBg true ;;
               hideSearchForm) w in
  done.1 = Ok tt
  /\ display (page done.2) weatherInfoEl = display_block
  /\ display (page done.2) errorEl = display (page w) errorEl
  /\ textContent (page done.2) = textContent (page w)
  /\ className (page done.2) = className (page w)
  /\ forecast5 (page done.2) = forecast5 (page w).
Proof.
  destruct w as [s c [d t cl v dis bg f]]. vm_compute. repeat split.
Qed.

(** Whatever happens in the forecast block, the handler goes on: the
    values of the current observation already on the page stay, the panel
    with them is shown and no error is. *)
Lemma forecast_failure_keeps_current
    (w w1 w2 w3 : World) (cityData : Location) (weather : JSValue) :
  trim (cityInput_value (page w)) <> [] ->
  getCityCoordinates net (trim (cityInput_value (page w))) (clearStates w).2
  = (Ok cityData, w1) ->
  getWeatherData net (lat cityData) (lon cityData) w1 = (Ok weather, w2) ->
  truthy weather = true ->
  showCurrent rt WithForecast cityData weather w2 = (Ok tt, w3) ->
  let final := onSubmit rt net renderDay WithForecast w in
  final.1 = Ok tt
  /\ display (page final.2) weatherInfoEl = display_block
  /\ display (page final.2) errorEl = display (page w3) errorEl
  /\ textContent (page final.2) = textContent (page w3)
  /\ className (page final.2) = className (page w3)
  /\ forecast5 (page final.2)
     = forecast5 (page (showForecast rt net renderDay cityData w3).2).
Proof.
  intros Hin Hcity Hweather Htruthy Hcurrent. cbv zeta.
  set (w4 := (showForecast rt net renderDay cityData w3).2).
  set (tail := (setDisplay loadingEl display_none ;;
                setDisplay weatherInfoEl display_block ;;
                setDisplay pageTitleEl display_none ;;
                setNoBg true ;;
                hideSearchForm)).
  assert (Hrun : onSubmit rt net renderDay WithForecast w
                 = (Ok tt, (setDisabled false (tail w4).2).2)).
  { rewrite (onSubmit_unfold rt net renderDay WithForecast w Hin).
    unfold finally, tryCatch at 1, tryBlock.
    unfold bind at 1. rewrite Hcity. unfold bind at 1. rewrite Hweather.
    rewrite Htruthy. cbn [negb]. unfold bind at 1. rewrite Hcurrent.
    unfold bind at 1, tryCatch at 1. fold tail.
    assert (Hgo : (let (r, w') := showForecast rt net renderDay cityData w3 in
                   match r with
                   | Ok a => (Ok a, w')
                   | Throw e => ret tt w'
                   end) = (Ok tt, w4)).
    { subst w4. destruct (showForecast rt net renderDay cityData w3) as [[[]|e] w'];
        reflexivity. }
    rewrite Hgo.
    destruct (tryBlock_tail w4) as (Hok & _). fold tail in Hok.
    destruct (tail w4) as [r5 w5]. cbn [fst] in Hok. subst r5. reflexivity. }
  rewrite Hrun.
  destruct (tryBlock_tail w4) as (_ & Hshow & Herr & Htext & Hclass & Hpanel).
  fold tail in Hshow, Herr, Htext, Hclass, Hpanel.
  destruct (showForecast_page cityData w3) as (panel & Hp). fold w4 in Hp.
  cbn [setDisabled modifyPage fst snd page display textContent className
       forecast5].
  rewrite Hshow, Herr, Htext, Hclass, Hpanel, Hp. repeat split.
Qed.

End CurrentAndForecast.

(** C9 on two queries in a row.  The first, for Lisboa, gets all three
    answers and fills [#forecast5].  The second, for São Paulo, gets the
    coordinates and the current weather, and its forecast request (the
    sixth request of the session) is rejected.  The rejection is swallowed
    and the current values of São Paulo are shown; but [#forecast5], which
    the handler empties only after the awaited request, still holds the
    rows of Lisboa. *)
Theorem stale_forecast_after_failed_fetch :
  (textContent (page Example.afterSaoPaulo) cityNameEl = js "São Paulo, Brazil"
   /\ textContent (page Example.afterSaoPaulo) temperatureEl = js "25°C"
   /\ textContent (page Example.afterSaoPaulo) descriptionEl = js "Chuva moderada"
   /\ textContent (page Example.afterSaoPaulo) datetimeEl = js "10/11/2025 15:00"
   /\ className (page Example.afterSaoPaulo) weatherIconEl
      = js "wi weather-icon wi-rain"
   /\ display (page Example.afterSaoPaulo) weatherInfoEl = display_block
   /\ display (page Example.afterSaoPaulo) errorEl = display_none)
  /\ (length (sent Example.afterSaoPaulo) = 6%nat
      /\ Example.twoQueries (take 5 (sent Example.afterSaoPaulo))
           (default (Get []) (sent Example.afterSaoPaulo !! 5%nat))
         = (150%Z, Rejected Example.failedToFetch))
  /\ forecast5 (page Example.afterSaoPaulo)
     = Some (mkPanel (Some (js "Próximos dias"))
               (Some [mkRow (js "Terça Feira") (js "11/11/2025")
                            (js "wi forecast-icon wi-rain") (js "Chuva leve")
                            (js "20°C") (js "12°C");
                      mkRow (js "Quarta Feira") (js "12/11/2025")
                            (js "wi forecast-icon wi-cloud") (js "Nublado")
                            (js "19°C") (js "12°C")]))
  /\ forecast5 (page Example.afterSaoPaulo) = forecast5 (page Example.afterLisboa).
Proof. vm_compute. repeat split. Qed.

(** The end-to-end scenario of the specification, on the script of
    [assets/js/scripts.js]: São Paulo, 25.4 degrees, code 63. *)
Lemma scenario_sao_paulo :
  let final :=
    (onSubmit Example.saoPaulo
       (Example.scripted
          [Example.respond 200 Example.saoPauloCity;
           Example.respond 200
             (Example.currentWeather (Example.num 254 10) 63 "2025-11-10T15:00")])
       (Example.renderDay Example.saoPaulo) CurrentOnly
       (Example.start "São Paulo")).2 in
  textContent (page final) cityNameEl = js "São Paulo, Brazil"
  /\ textContent (page final) temperatureEl = js "25°C"
  /\ textContent (page final) descriptionEl = js "Chuva moderada"
  /\ className (page final) weatherIconEl = js "wi weather-icon wi-rain"
  /\ textContent (page final) datetimeEl = js "Atualizado em: 10/11/2025 15:00"
  /\ display (page final) weatherInfoEl = display_block
  /\ length (sent final) = 2%nat.
Proof. vm_compute. repeat split. Qed.

(* ===================================================================== *)
(** ** Failures of the resolver, as the user sees them *)
(* ===================================================================== *)

Section ResolverFailures.

Variable rt : Runtime.
Variable net : Network.
Variable renderDay : JSValue -> nat -> Result ForecastRow.

(** What [trim] leaves, if anything, is not white space only. *)
Lemma trim_not_blank (s : jsstring) :
  trim s <> [] -> forallb isWhiteSpace (trim s) = false.
Proof.
  unfold trim, trimEnd. intros H. rewrite forallb_rev.
  destruct (trimStart_head (rev (trimStart s))) as [E|(c & r & E & Hc)].
  - rewrite E in H. now contradiction H.
  - rewrite E. simpl. now rewrite Hc.
Qed.

(** A failure of the resolver is the failure of the [try] block. *)
Lemma tryBlock_resolver_throw (rev : Revision) (cityName : jsstring)
    (w w' : World) (err : Exn) :
  getCityCoordinates net cityName w = (Throw err, w') ->
  tryBlock rt net renderDay rev cityName w = (Throw err, w').
Proof. intros H. unfold tryBlock. unfold bind at 1. now rewrite H. Qed.

(** Whatever status outside 200-299 the geocoding service answers, the
    user reads the not-found text. *)
Lemma geocoding_upstream_error_normalised (rev : Revision) (w : World)
    (encoded : jsstring) (elapsed st : Z) (body : Result JSValue) :
  trim (cityInput_value (page w)) <> [] ->
  encodeURIComponent (trim (cityInput_value (page w))) = Ok encoded ->
  net (sent w) (geocodingRequest encoded)
  = (elapsed, Resolved (mkResponse st body)) ->
  ~ (200 <= st <= 299)%Z ->
  textContent (page (onSubmit rt net renderDay rev w).2) errorEl
  = js "Cidade não encontrada. Tente novamente.".
Proof.
  intros Hin Henc Hnet Hst.
  assert (Hthrow : exists w',
            getCityCoordinates net (trim (cityInput_value (page w)))
                               (clearStates w).2
            = (Throw (newError (js "Erro ao buscar coordenadas da cidade")), w')).
  { rewrite (getCityCoordinates_request net _ _ _ (trim_not_blank _ Hin) Henc).
    unfold bind at 1.
    rewrite (fetch_resolved net (clearStates w).2 _ _ _ Hnet).
    rewrite (not_ok (mkResponse st body) Hst). eexists. reflexivity. }
  destruct Hthrow as [w' Hthrow].
  apply (tryBlock_resolver_throw rev) in Hthrow.
  destruct (onSubmit_throw rt net renderDay rev w w' _ Hin Hthrow)
    as (_ & Htext & _).
  rewrite Htext. vm_compute. reflexivity.
Qed.

End ResolverFailures.

(* ===================================================================== *)
(** ** Frames: what each part of the program leaves alone *)
(* ===================================================================== *)

Section Frames.

Context {X : Type} (view : World -> X).

Lemma keeps_ret {A : Type} (a : A) : keeps view (ret a).
Proof. intros w. reflexivity. Qed.

Lemma keeps_throw {A : Type} (e : Exn) : keeps view (@throw A e).
Proof. intros w. reflexivity. Qed.

Lemma keeps_lift {A : Type} (r : Result A) : keeps view (lift r).
Proof. intros w. reflexivity. Qed.

Lemma keeps_now : keeps view now.
Proof. intros w. reflexivity. Qed.

Lemma keeps_readPage {A : Type} (f : Page -> A) : keeps view (readPage f).
Proof. intros w. reflexivity. Qed.

Lemma keeps_bind {A B : Type} (m : IO A) (k : A -> IO B) :
  keeps view m -> (forall a, keeps view (k a)) -> keeps view (bind m k).
Proof.
  intros Hm Hk w. unfold bind. specialize (Hm w).
  destruct (m w) as [[a|e] w']; cbn [snd] in *; [|exact Hm].
  now rewrite Hk.
Qed.

Lemma keeps_tryCatch {A : Type} (body : IO A) (handler : Exn -> IO A) :
  keeps view body -> (forall e, keeps view (handler e)) ->
  keeps view (tryCatch body handler).
Proof.
  intros Hm Hk w. unfold tryCatch. specialize (Hm w).
  destruct (body w) as [[a|e] w']; cbn [snd] in *; [exact Hm|].
  now rewrite Hk.
Qed.

Lemma keeps_run {A : Type} (m : IO A) (w w' : World) (r : Result A) :
  keeps view m -> m w = (r, w') -> view w' = view w.
Proof. intros Hm Hrun. specialize (Hm w). now rewrite Hrun in Hm. Qed.

Lemma keeps_if {A : Type} (b : bool) (m1 m2 : IO A) :
  keeps view m1 -> keeps view m2 -> keeps view (if b then m1 else m2).
Proof. now destruct b. Qed.

End Frames.

Create HintDb keeps.

#[local] Hint Resolve keeps_ret keeps_throw keeps_lift keeps_now keeps_readPage
  keeps_if : keeps.

(** Goes through a computation statement by statement. *)
Ltac keeps_steps :=
  repeat first
    [ solve [auto with keeps]
    | apply keeps_tryCatch; [|intros ?]
    | apply keeps_bind; [|intros ?]
    | apply keeps_if ].

Section PageFrames.

Variable rt : Runtime.
Variable net : Network.
Variable renderDay : JSValue -> nat -> Result ForecastRow.

(** Writing the page sends nothing and takes no time. *)
Lemma modifyPage_sent (f : Page -> Page) : keeps sent (modifyPage f).
Proof. intros w. reflexivity. Qed.

(** Awaiting a request leaves the page as it is. *)
Lemma fetch_page (req : Request) : keeps page (fetch net req).
Proof.
  intros w. unfold fetch.
  destruct (net (sent w) req) as [elapsed [e|res]]; reflexivity.
Qed.

Lemma setTextContent_displays (e : Elem) (s : jsstring) :
  keeps displays (setTextContent e s).
Proof. intros w. reflexivity. Qed.

Lemma setClassName_displays (e : Elem) (s : jsstring) :
  keeps displays (setClassName e s).
Proof. intros w. reflexivity. Qed.

Lemma setForecast5_displays (f : option ForecastPanel) :
  keeps displays (setForecast5 f).
Proof. intros w. reflexivity. Qed.

Lemma setTextContent_panel (e : Elem) (s : jsstring) :
  keeps panelOf (setTextContent e s).
Proof. intros w. reflexivity. Qed.

Lemma setClassName_panel (e : Elem) (s : jsstring) :
  keeps panelOf (setClassName e s).
Proof. intros w. reflexivity. Qed.

Lemma setDisplay_panel (e : Elem) (d : Display) :
  keeps panelOf (setDisplay e d).
Proof. intros w. reflexivity. Qed.

(** [formatDateTimeLocal] reads the clock at most. *)
Lemma formatDateTimeLocal_world (isoString : JSValue) (w : World) :
  (formatDateTimeLocal rt isoString w).2 = w.
Proof.
  unfold formatDateTimeLocal, bind, tryCatch, lift, now, ret.
  case_all; reflexivity.
Qed.

Lemma formatDateTimeLocal_keeps {X : Type} (view : World -> X)
    (isoString : JSValue) :
  keeps view (formatDateTimeLocal rt isoString).
Proof. intros w. now rewrite formatDateTimeLocal_world. Qed.

(** The statements that show the current observation write texts and one
    class name: whatever those two writes leave alone, they leave alone. *)
Lemma showCurrent_keeps {X : Type} (view : World -> X)
    (rev : Revision) (cityData : Location) (weather : JSValue) :
  (forall e s, keeps view (setTextContent e s)) ->
  (forall e s, keeps view (setClassName e s)) ->
  keeps view (showCurrent rt rev cityData weather).
Proof.
  intros Htext Hclass. unfold showCurrent.
  pose proof (formatDateTimeLocal_keeps view) as Hfmt.
  keeps_steps.
Qed.

Lemma getCityCoordinates_displays (cityName : jsstring) :
  keeps displays (getCityCoordinates net cityName).
Proof. intros w. unfold displays. now rewrite getCityCoordinates_page. Qed.

Lemma getWeatherData_displays (lat lon : JSValue) :
  keeps displays (getWeatherData net lat lon).
Proof. intros w. unfold displays. now rewrite getWeatherData_page. Qed.

Lemma showForecast_displays (cityData : Location) :
  keeps displays (showForecast rt net renderDay cityData).
Proof.
  intros w. unfold displays.
  destruct (showForecast_page rt net renderDay cityData w) as [panel ->].
  reflexivity.
Qed.

End PageFrames.

(* ===================================================================== *)
(** ** The submit handler, stage by stage *)
(* ===================================================================== *)

Section Stages.

Variable rt : Runtime.
Variable net : Network.
Variable renderDay : JSValue -> nat -> Result ForecastRow.

Lemma forecastStep_ok (rev : Revision) (cityData : Location) (w : World) :
  (forecastStep rt net renderDay rev cityData w).1 = Ok tt.
Proof.
  unfold forecastStep, tryCatch, ret. destruct rev; [reflexivity|].
  destruct (showForecast rt net renderDay cityData w) as [[[]|e] w'];
    reflexivity.
Qed.

Lemma showPanel_ok (w : World) : (showPanel w).1 = Ok tt.
Proof. reflexivity. Qed.

(** Every run of the [try] block is one of the five. *)
Lemma tryBlock_run (rev : Revision) (cityName : jsstring) (w : World) :
  TryRun rt net renderDay rev cityName w
         (tryBlock rt net renderDay rev cityName w).
Proof.
  unfold tryBlock. unfold bind at 1.
  destruct (getCityCoordinates net cityName w) as [[cityData|e] w1] eqn:H1;
    [|now apply resolver_failed].
  unfold bind at 1.
  destruct (getWeatherData net (lat cityData) (lon cityData) w1)
    as [[weather|e] w2] eqn:H2; [|now apply (fetcher_failed _ _ _ _ _ _ cityData e w1)].
  destruct (truthy weather) eqn:H3; cbn [negb];
    [|now apply (weather_absent _ _ _ _ _ _ cityData weather w1)].
  unfold bind at 1.
  destruct (showCurrent rt rev cityData weather w2) as [[[]|e] w3] eqn:H4;
    [|now apply (display_failed _ _ _ _ _ _ cityData weather e w1 w2)].
  unfold bind at 1. fold (forecastStep rt net renderDay rev cityData).
  fold showPanel.
  pose proof (forecastStep_ok rev cityData w3) as Hok.
  pose proof (shown rt net renderDay rev cityName w cityData weather w1 w2 w3
                H1 H2 H3 H4) as Hrun.
  destruct (forecastStep rt net renderDay rev cityData w3) as [r4 w4].
  cbn [fst snd] in *. subst r4.
  pose proof (showPanel_ok w4) as Hok.
  destruct (showPanel w4) as [r5 w5]. cbn [fst snd] in *. now subst r5.
Qed.

(** What the handler does after the [try] block, by its outcome. *)
Lemma onSubmit_failed (rev : Revision) (w w' : World) (err : Exn) :
  trim (cityInput_value (page w)) <> [] ->
  tryBlock rt net renderDay rev (trim (cityInput_value (page w)))
           (clearStates w).2 = (Throw err, w') ->
  onSubmit rt net renderDay rev w
  = (Ok tt, (setDisabled false (catchBlock err w').2).2).
Proof.
  intros Hin Htry. rewrite (onSubmit_unfold rt net renderDay rev w Hin).
  unfold finally, tryCatch. rewrite Htry. reflexivity.
Qed.

Lemma onSubmit_done (rev : Revision) (w w' : World) :
  trim (cityInput_value (page w)) <> [] ->
  tryBlock rt net renderDay rev (trim (cityInput_value (page w)))
           (clearStates w).2 = (Ok tt, w') ->
  onSubmit rt net renderDay rev w = (Ok tt, (setDisabled false w').2).
Proof.
  intros Hin Htry. rewrite (onSubmit_unfold rt net renderDay rev w Hin).
  unfold finally, tryCatch. rewrite Htry. reflexivity.
Qed.

Lemma forecastStep_displays (rev : Revision) (cityData : Location) :
  keeps displays (forecastStep rt net renderDay rev cityData).
Proof.
  unfold forecastStep. destruct rev; [apply keeps_ret|].
  apply keeps_tryCatch; [apply showForecast_displays|intros; apply keeps_ret].
Qed.

Lemma showCurrent_displays (rev : Revision) (cityData : Location)
    (weather : JSValue) :
  keeps displays (showCurrent rt rev cityData weather).
Proof.
  apply showCurrent_keeps;
    [apply setTextContent_displays|apply setClassName_displays].
Qed.

(** The stages of a run, read as facts about the [display]s. *)
Ltac stage_displays :=
  repeat match goal with
         | H : getCityCoordinates _ _ _ = _ |- _ =>
             apply (keeps_run displays _ _ _ _
                      (getCityCoordinates_displays _ _)) in H
         | H : getWeatherData _ _ _ _ = _ |- _ =>
             apply (keeps_run displays _ _ _ _
                      (getWeatherData_displays _ _ _)) in H
         | H : showCurrent _ _ _ _ _ = _ |- _ =>
             apply (keeps_run displays _ _ _ _
                      (showCurrent_displays _ _ _)) in H
         end.

(** A run of the [try] block that throws has changed the [display] of
    nothing. *)
Lemma tryBlock_throw_displays (rev : Revision) (cityName : jsstring)
    (w w' : World) (err : Exn) :
  tryBlock rt net renderDay rev cityName w = (Throw err, w') ->
  displays w' = displays w.
Proof.
  intros Htry. pose proof (tryBlock_run rev cityName w) as Hrun.
  rewrite Htry in Hrun. inversion Hrun; subst; stage_displays; congruence.
Qed.

(** A run that returns has shown the panel of results and hidden the
    loading indicator, the title and the form, and nothing else. *)
Lemma tryBlock_ok_displays (rev : Revision) (cityName : jsstring)
    (w w' : World) (el : Elem) :
  tryBlock rt net renderDay rev cityName w = (Ok tt, w') ->
  displays w' el
  = match el with
    | weatherInfoEl => display_block
    | loadingEl | pageTitleEl | searchFormEl => display_none
    | _ => displays w el
    end.
Proof.
  intros Htry. pose proof (tryBlock_run rev cityName w) as Hrun.
  rewrite Htry in Hrun. inversion Hrun; subst. stage_displays.
  pose proof (forecastStep_displays rev cityData w3) as H4.
  assert (Hw : displays w = displays (forecastStep rt net renderDay rev cityData w3).2)
    by congruence.
  rewrite Hw.
  destruct (forecastStep rt net renderDay rev cityData w3) as [r4 w4].
  cbn [snd]. destruct w4 as [s c [d t cl v dis bg f]].
  destruct el; reflexivity.
Qed.

End Stages.

(* ===================================================================== *)
(** ** The submit handler: what every submission comes to *)
(* ===================================================================== *)

Section Submission.

Variable rt : Runtime.
Variable net : Network.
Variable renderDay : JSValue -> nat -> Result ForecastRow.

(** The message of the [catch] block is never empty. *)
Lemma catchMessage_nonempty (err : Exn) : catchMessage err <> [].
Proof.
  unfold catchMessage. destruct (exn_message err) as [m|]; [|discriminate].
  destruct (isEmpty m) eqn:E; cbn [negb andb]; [discriminate|].
  destruct (includes (toLowerCase m) (js "cidade")); cbn [negb];
    [discriminate|].
  unfold orElse. rewrite E. now apply isEmpty_false.
Qed.

Lemma clearStates_displays (w : World) (el : Elem) :
  displays (clearStates w).2 el
  = match el with
    | errorEl | weatherInfoEl => display_none
    | loadingEl => display_block
    | _ => displays w el
    end.
Proof. destruct w as [s c [d t cl v dis bg f]]. destruct el; reflexivity. Qed.

Lemma catchBlock_displays (err : Exn) (w : World) (el : Elem) :
  displays (setDisabled false (catchBlock err w).2).2 el
  = match el with
    | errorEl => display_block
    | loadingEl => display_none
    | _ => displays w el
    end.
Proof. destruct w as [s c [d t cl v dis bg f]]. destruct el; reflexivity. Qed.

End Submission.

(** X1.  A search box that is empty or holds white space only: the
    handler returns at once.  Nothing is sent and the page stays exactly
    as it was. *)
Theorem submit_blank_is_ignored
    (rt : Runtime) (net : Network)
    (renderDay : JSValue -> nat -> Result ForecastRow)
    (rev : Revision) (w : World) :
  forallb isWhiteSpace (cityInput_value (page w)) = true ->
  onSubmit rt net renderDay rev w = (Ok tt, w).
Proof.
  intros H. apply trim_nil in H. unfold onSubmit, bind, readPage.
  now rewrite H.
Qed.

(** A tab, a no-break space and a line feed in the search box. *)
Lemma submit_blank_is_ignored_witness :
  onSubmit Example.saoPaulo Example.geocodingDown
           (forecastItem Example.saoPaulo) WithForecast
           (mkWorld [] Example.evening (Example.freshPage [0x9; 0xA0; 0xA]%N))
  = (Ok tt, mkWorld [] Example.evening (Example.freshPage [0x9; 0xA0; 0xA]%N)).
Proof.
  apply (submit_blank_is_ignored Example.saoPaulo Example.geocodingDown
           (forecastItem Example.saoPaulo) WithForecast
           (mkWorld [] Example.evening (Example.freshPage [0x9; 0xA0; 0xA]%N))).
  vm_compute. reflexivity.
Defined.

(** X2.  With a name in the search box, whatever the network answers and
    whatever the page held, the handler ends normally with the button
    enabled again and the loading indicator hidden, and shows exactly one
    of the two: the panel of results, with the form hidden and no error;
    or the error, not empty, with the panel of results hidden and the
    form as it was. *)
Theorem submit_always_settles
    (rt : Runtime) (net : Network)
    (renderDay : JSValue -> nat -> Result ForecastRow)
    (rev : Revision) (w : World) :
  trim (cityInput_value (page w)) <> [] ->
  let final := onSubmit rt net renderDay rev w in
  final.1 = Ok tt
  /\ searchBtn_disabled (page final.2) = false
  /\ display (page final.2) loadingEl = display_none
  /\ ((display (page final.2) weatherInfoEl = display_block
       /\ display (page final.2) errorEl = display_none
       /\ display (page final.2) searchFormEl = display_none)
      \/ (display (page final.2) errorEl = display_block
          /\ textContent (page final.2) errorEl <> []
          /\ display (page final.2) weatherInfoEl = display_none
          /\ display (page final.2) searchFormEl
             = display (page w) searchFormEl)).
Proof.
  intros Hin. cbv zeta.
  destruct (tryBlock rt net renderDay rev (trim (cityInput_value (page w)))
                     (clearStates w).2) as [[[]|err] w'] eqn:Htry.
  - rewrite (onSubmit_done rt net renderDay rev w w' Hin Htry).
    pose proof (fun el => tryBlock_ok_displays rt net renderDay rev _ _ _ el Htry)
      as Hd.
    pose proof (Hd weatherInfoEl) as H1. pose proof (Hd errorEl) as H2.
    pose proof (Hd searchFormEl) as H3. pose proof (Hd loadingEl) as H4.
    rewrite clearStates_displays in H2. unfold displays in *.
    cbn [setDisabled modifyPage fst snd page display searchBtn_disabled].
    split; [reflexivity|]. split; [reflexivity|]. split; [exact H4|].
    left. repeat split; assumption.
  - rewrite (onSubmit_failed rt net renderDay rev w w' err Hin Htry).
    pose proof (catchBlock_displays err w') as Hd.
    rewrite (tryBlock_throw_displays rt net renderDay _ _ _ _ _ Htry) in Hd.
    pose proof (Hd weatherInfoEl) as H1. pose proof (Hd errorEl) as H2.
    pose proof (Hd searchFormEl) as H3. pose proof (Hd loadingEl) as H4.
    rewrite clearStates_displays in H1, H3. unfold displays in *.
    cbn [fst]. split; [reflexivity|]. split; [reflexivity|].
    split; [exact H4|]. right.
    split; [exact H2|]. split; [|split; assumption].
    cbn [setDisabled catchBlock setDisplay setTextContent bind modifyPage
         fst snd page textContent].
    rewrite decide_True by reflexivity. apply catchMessage_nonempty.
Qed.

(** The geocoding service answers 500: the query for Lisboa ends with
    the button enabled and the loading indicator hidden. *)
Lemma submit_always_settles_witness :
  searchBtn_disabled
    (page (onSubmit Example.saoPaulo Example.geocodingDown
                    (forecastItem Example.saoPaulo) WithForecast
                    (Example.start "Lisboa")).2) = false
  /\ display
       (page (onSubmit Example.saoPaulo Example.geocodingDown
                       (forecastItem Example.saoPaulo) WithForecast
                       (Example.start "Lisboa")).2) loadingEl = display_none.
Proof.
  assert (H : trim (cityInput_value (page (Example.start "Lisboa"))) <> [])
    by (vm_compute; discriminate).
  destruct (submit_always_settles Example.saoPaulo Example.geocodingDown
              (forecastItem Example.saoPaulo) WithForecast
              (Example.start "Lisboa") H) as (_ & H1 & H2 & _).
  split; [exact H1|exact H2].
Defined.

(* ===================================================================== *)
(** ** The requests of one submission *)
(* ===================================================================== *)

Section Requests.

Variable rt : Runtime.
Variable net : Network.
Variable renderDay : JSValue -> nat -> Result ForecastRow.

(** The weather fetcher sends its one request, whatever comes back. *)
Lemma getWeatherData_sent (lat lon : JSValue) (w : World) :
  sent (getWeatherData net lat lon w).2 = sent w ++ [weatherRequest lat lon].
Proof.
  unfold getWeatherData. fold (weatherRequest lat lon).
  rewrite <- (fetch_sent net w). unfold bind at 1.
  destruct (fetch net (weatherRequest lat lon) w) as [[res|e] w'];
    [|reflexivity].
  cbn [snd]. unfold bind, lift, throw, ret. case_all; reflexivity.
Qed.

(** The resolver sends one request, or none when it refuses the name. *)
Lemma getCityCoordinates_sent_cases (cityName : jsstring) (w : World) :
  (exists encoded,
     sent (getCityCoordinates net cityName w).2
     = sent w ++ [geocodingRequest encoded])
  \/ (sent (getCityCoordinates net cityName w).2 = sent w
      /\ exists e, (getCityCoordinates net cityName w).1 = Throw e).
Proof.
  destruct (forallb isWhiteSpace cityName) eqn:Hblank.
  - right. unfold getCityCoordinates. rewrite blank_name, Hblank.
    split; [reflexivity|eexists; reflexivity].
  - destruct (encodeURIComponent cityName) as [encoded|e] eqn:Henc.
    + left. exists encoded. now apply getCityCoordinates_sent.
    + right. unfold getCityCoordinates. rewrite blank_name, Hblank.
      unfold bind at 1, lift at 1. rewrite Henc.
      split; [reflexivity|eexists; reflexivity].
Qed.

Lemma showCurrent_sent (rev : Revision) (cityData : Location)
    (weather : JSValue) :
  keeps sent (showCurrent rt rev cityData weather).
Proof. apply showCurrent_keeps; intros; apply modifyPage_sent. Qed.

(** After its request the forecast block only writes the page. *)
Lemma showForecast_sent (cityData : Location) (w : World) :
  sent (showForecast rt net renderDay cityData w).2
  = sent (get5DayForecast rt net (lat cityData) (lon cityData) w).2.
Proof.
  unfold showForecast. unfold bind at 1.
  destruct (get5DayForecast rt net (lat cityData) (lon cityData) w)
    as [[daily|e] w1]; [|reflexivity].
  cbn [snd]. unfold bind, lift, ret, setForecast5, modifyPage.
  case_all; reflexivity.
Qed.

Lemma forecastStep_sent (rev : Revision) (cityData : Location) (w : World) :
  sent (forecastStep rt net renderDay rev cityData w).2
  = sent w
    ++ match rev with
       | WithForecast =>
         [forecastRequest (lat cityData) (lon cityData)
            (slice0 10 (toISOString (clock w)))
            (slice0 10 (toISOString
               (setDate (rt_LocalTZA rt) (clock w)
                        (getDate (rt_LocalTZA rt) (clock w) + 4)%Z)))]
       | CurrentOnly => []
       end.
Proof.
  destruct rev; [symmetry; apply app_nil_r|].
  rewrite <- (get5DayForecast_request rt net), <- showForecast_sent.
  unfold forecastStep, tryCatch, ret.
  destruct (showForecast rt net renderDay cityData w) as [[[]|e] w'];
    reflexivity.
Qed.

Lemma resolver_stage_sent (cityName : jsstring) (w w1 : World)
    (cityData : Location) :
  getCityCoordinates net cityName w = (Ok cityData, w1) ->
  exists encoded, sent w1 = sent w ++ [geocodingRequest encoded].
Proof.
  intros H. pose proof (getCityCoordinates_sent_cases cityName w) as Hs.
  rewrite H in Hs. cbn [fst snd] in Hs.
  destruct Hs as [Hs|[_ [e Hs]]]; [exact Hs|discriminate Hs].
Qed.

Lemma fetcher_stage_sent (lat lon : JSValue) (w1 w2 : World)
    (r : Result JSValue) :
  getWeatherData net lat lon w1 = (r, w2) ->
  sent w2 = sent w1 ++ [weatherRequest lat lon].
Proof.
  intros H. pose proof (getWeatherData_sent lat lon w1) as Hs.
  now rewrite H in Hs.
Qed.

End Requests.

(** X3.  One submission sends at most one request to each service, in
    this order: the geocoding request, the current-weather request, and
    in the later revision the forecast request, the last two for the same
    coordinates.  The requests sent are always a prefix of that list. *)
Theorem submit_requests_in_order
    (rt : Runtime) (net : Network)
    (renderDay : JSValue -> nat -> Result ForecastRow)
    (rev : Revision) (w : World) :
  trim (cityInput_value (page w)) <> [] ->
  exists (encoded start_date end_date : jsstring) (la lo : JSValue)
         (reqs : list Request),
    sent (onSubmit rt net renderDay rev w).2 = sent w ++ reqs
    /\ reqs `prefix_of`
         (geocodingRequest encoded :: weatherRequest la lo ::
          match rev with
          | WithForecast => [forecastRequest la lo start_date end_date]
          | CurrentOnly => []
          end).
Proof.
  intros Hin.
  set (cityName := trim (cityInput_value (page w))).
  set (w0 := (clearStates w).2).
  assert (H0 : sent w0 = sent w) by reflexivity.
  pose proof (tryBlock_run rt net renderDay rev cityName w0) as Hrun.
  destruct (tryBlock rt net renderDay rev cityName w0) as [r w'] eqn:Htry.
  assert (Hfinal : sent (onSubmit rt net renderDay rev w).2 = sent w').
  { destruct r as [[]|err].
    - now rewrite (onSubmit_done rt net renderDay rev w w' Hin Htry).
    - now rewrite (onSubmit_failed rt net renderDay rev w w' err Hin Htry). }
  rewrite Hfinal. clear Hfinal Htry.
  inversion Hrun as [e w1 H1
                    | cityData e w1 w2 H1 H2
                    | cityData weather w1 w2 H1 H2 H3
                    | cityData weather e w1 w2 w3 H1 H2 H3 H4
                    | cityData weather w1 w2 w3 H1 H2 H3 H4]; subst; clear Hrun.
  - pose proof (getCityCoordinates_sent_cases net cityName w0) as Hs.
    rewrite H1 in Hs. cbn [fst snd] in Hs.
    destruct Hs as [[encoded Hs]|[Hs _]].
    + exists encoded, [], [], JNull, JNull, [geocodingRequest encoded].
      split; [congruence|]. eexists; reflexivity.
    + exists [], [], [], JNull, JNull, []. rewrite app_nil_r.
      split; [congruence|]. eexists; reflexivity.
  - apply resolver_stage_sent in H1 as [encoded H1].
    apply fetcher_stage_sent in H2.
    exists encoded, [], [], (lat cityData), (lon cityData),
      [geocodingRequest encoded; weatherRequest (lat cityData) (lon cityData)].
    split; [rewrite H2, H1, H0; now rewrite <- app_assoc|].
    eexists; reflexivity.
  - apply resolver_stage_sent in H1 as [encoded H1].
    apply fetcher_stage_sent in H2.
    exists encoded, [], [], (lat cityData), (lon cityData),
      [geocodingRequest encoded; weatherRequest (lat cityData) (lon cityData)].
    split; [rewrite H2, H1, H0; now rewrite <- app_assoc|].
    eexists; reflexivity.
  - apply resolver_stage_sent in H1 as [encoded H1].
    apply fetcher_stage_sent in H2.
    apply (keeps_run sent _ _ _ _ (showCurrent_sent rt rev cityData weather))
      in H4.
    exists encoded, [], [], (lat cityData), (lon cityData),
      [geocodingRequest encoded; weatherRequest (lat cityData) (lon cityData)].
    split; [rewrite H4, H2, H1, H0; now rewrite <- app_assoc|].
    eexists; reflexivity.
  - apply resolver_stage_sent in H1 as [encoded H1].
    apply fetcher_stage_sent in H2.
    apply (keeps_run sent _ _ _ _ (showCurrent_sent rt rev cityData weather))
      in H4.
    cbn [sent]. rewrite forecastStep_sent, H4, H2, H1, H0.
    eexists encoded, _, _, (lat cityData), (lon cityData), _.
    split; [rewrite <- !app_assoc; reflexivity|].
    destruct rev; exists []; reflexivity.
Qed.

(** The geocoding service answers 500 to the query for Lisboa: one
    request is sent, the first of the list. *)
Lemma submit_requests_in_order_witness :
  exists (encoded start_date end_date : jsstring) (la lo : JSValue)
         (reqs : list Request),
    sent (onSubmit Example.saoPaulo Example.geocodingDown
                   (forecastItem Example.saoPaulo) WithForecast
                   (Example.start "Lisboa")).2
    = sent (Example.start "Lisboa") ++ reqs
    /\ reqs `prefix_of`
         [geocodingRequest encoded; weatherRequest la lo;
          forecastRequest la lo start_date end_date].
Proof.
  apply (submit_requests_in_order Example.saoPaulo Example.geocodingDown
           (forecastItem Example.saoPaulo) WithForecast
           (Example.start "Lisboa")).
  vm_compute. discriminate.
Defined.

(** X4.  When the weather fetcher returns [null] (or anything falsy), the
    handler reports ["Dados de clima indisponíveis"] as it is, with the
    panel of results hidden; the forecast is not requested. *)
Theorem absent_weather_is_reported
    (rt : Runtime) (net : Network)
    (renderDay : JSValue -> nat -> Result ForecastRow)
    (rev : Revision) (w w1 w2 : World) (cityData : Location)
    (weather : JSValue) :
  trim (cityInput_value (page w)) <> [] ->
  getCityCoordinates net (trim (cityInput_value (page w))) (clearStates w).2
  = (Ok cityData, w1) ->
  getWeatherData net (lat cityData) (lon cityData) w1 = (Ok weather, w2) ->
  truthy weather = false ->
  let final := onSubmit rt net renderDay rev w in
  textContent (page final.2) errorEl = js "Dados de clima indisponíveis"
  /\ display (page final.2) errorEl = display_block
  /\ display (page final.2) weatherInfoEl = display_none
  /\ sent final.2 = sent w2.
Proof.
  intros Hin Hcity Hweather Hfalsy. cbv zeta.
  assert (Htry : tryBlock rt net renderDay rev
                   (trim (cityInput_value (page w))) (clearStates w).2
                 = (Throw (newError (js "Dados de clima indisponíveis")), w2)).
  { unfold tryBlock. unfold bind at 1. rewrite Hcity. unfold bind at 1.
    rewrite Hweather, Hfalsy. reflexivity. }
  rewrite (onSubmit_failed rt net renderDay rev w w2 _ Hin Htry).
  pose proof (catchBlock_displays
                (newError (js "Dados de clima indisponíveis")) w2) as Hd.
  rewrite (tryBlock_throw_displays rt net renderDay _ _ _ _ _ Htry) in Hd.
  pose proof (Hd weatherInfoEl) as H1. pose proof (Hd errorEl) as H2.
  rewrite clearStates_displays in H1. unfold displays in *.
  split; [|split; [exact H2|split; [exact H1|reflexivity]]].
  cbn [setDisabled catchBlock setDisplay setTextContent bind modifyPage
       fst snd page textContent].
  rewrite decide_True by reflexivity. vm_compute. reflexivity.
Qed.

(** The weather service answers 200 with an empty record. *)
Lemma absent_weather_is_reported_witness :
  textContent
    (page (onSubmit Example.saoPaulo
             (Example.scripted [Example.respond 200 Example.lisboa;
                                Example.respond 200 (JObj [])])
             (forecastItem Example.saoPaulo) WithForecast
             (Example.start "Lisboa")).2) errorEl
  = js "Dados de clima indisponíveis".
Proof.
  assert (H1 : trim (cityInput_value (page (Example.start "Lisboa"))) <> [])
    by (vm_compute; discriminate).
  refine (proj1 (absent_weather_is_reported Example.saoPaulo
            (Example.scripted [Example.respond 200 Example.lisboa;
                               Example.respond 200 (JObj [])])
            (forecastItem Example.saoPaulo) WithForecast
            (Example.start "Lisboa") _ _ _ JNull H1 _ _ _)).
  - vm_compute. reflexivity.
  - vm_compute. reflexivity.
  - reflexivity.
Defined.

(** X5.  After [showSearchForm] (the "Voltar" button) the form is shown,
    the results and the error are hidden, the title is back and the
    search box is empty; the texts, the icon and [#forecast5] stay as they
    were, and nothing is sent.  Submitting the form as it stands then does
    nothing at all. *)
Theorem back_then_submit_is_idle
    (rt : Runtime) (net : Network)
    (renderDay : JSValue -> nat -> Result ForecastRow)
    (rev : Revision) (w : World) :
  let back := (showSearchForm w).2 in
  (showSearchForm ;; onSubmit rt net renderDay rev) w = (Ok tt, back)
  /\ display (page back) searchFormEl = display_flex
  /\ display (page back) weatherInfoEl = display_none
  /\ display (page back) errorEl = display_none
  /\ display (page back) pageTitleEl = display_block
  /\ cityInput_value (page back) = []
  /\ container_noBg (page back) = false
  /\ textContent (page back) = textContent (page w)
  /\ className (page back) = className (page w)
  /\ forecast5 (page back) = forecast5 (page w)
  /\ sent back = sent w.
Proof.
  destruct w as [s c [d t cl v dis bg f]]. cbv zeta.
  split; [reflexivity|repeat split].
Qed.

(* ===================================================================== *)
(** ** The three fetchers and the transport *)
(* ===================================================================== *)

Section Transport.

Variable rt : Runtime.
Variable net : Network.

(** The request of [get5DayForecast] at a clock reading. *)
Lemma get5DayForecast_fetch (lat lon : JSValue) (w : World) :
  get5DayForecast rt net lat lon w
  = (res <- fetch net
              (forecastRequest lat lon
                 (slice0 10 (toISOString (clock w)))
                 (slice0 10 (toISOString
                    (setDate (rt_LocalTZA rt) (clock w)
                             (getDate (rt_LocalTZA rt) (clock w) + 4)%Z)))) ;;
     if negb (ok res) then
       throw (newError (js "Erro ao buscar previsão de 5 dias"))
     else
       data <- lift (json res) ;;
       daily <- lift (get data (js "daily")) ;;
       ret (if truthy daily then daily else JNull)) w.
Proof. reflexivity. Qed.

End Transport.

(** X6.  When the request is rejected (no network, a timeout), each of
    the three fetchers rejects with that very error: it is not wrapped or
    reworded.  The request counts as sent. *)
Theorem transport_rejection_propagates
    (rt : Runtime) (net : Network) (w : World) (elapsed : Z) (e : Exn)
    (cityName encoded : jsstring) (lat lon : JSValue) :
  (forallb isWhiteSpace cityName = false ->
   encodeURIComponent cityName = Ok encoded ->
   net (sent w) (geocodingRequest encoded) = (elapsed, Rejected e) ->
   getCityCoordinates net cityName w
   = (Throw e, mkWorld (sent w ++ [geocodingRequest encoded])
                       (clock w + elapsed)%Z (page w)))
  /\ (net (sent w) (weatherRequest lat lon) = (elapsed, Rejected e) ->
      getWeatherData net lat lon w
      = (Throw e, mkWorld (sent w ++ [weatherRequest lat lon])
                          (clock w + elapsed)%Z (page w)))
  /\ (forall req,
      req = forecastRequest lat lon
              (slice0 10 (toISOString (clock w)))
              (slice0 10 (toISOString
                 (setDate (rt_LocalTZA rt) (clock w)
                          (getDate (rt_LocalTZA rt) (clock w) + 4)%Z))) ->
      net (sent w) req = (elapsed, Rejected e) ->
      get5DayForecast rt net lat lon w
      = (Throw e, mkWorld (sent w ++ [req]) (clock w + elapsed)%Z (page w))).
Proof.
  split; [|split].
  - intros Hblank Henc Hnet.
    rewrite (getCityCoordinates_request net _ _ _ Hblank Henc).
    unfold bind at 1. now rewrite (fetch_rejected net _ _ _ _ Hnet).
  - intros Hnet. unfold getWeatherData. fold (weatherRequest lat lon).
    unfold bind at 1. now rewrite (fetch_rejected net _ _ _ _ Hnet).
  - intros req -> Hnet. rewrite get5DayForecast_fetch.
    unfold bind at 1. now rewrite (fetch_rejected net _ _ _ _ Hnet).
Qed.

(** With no answer scripted every request is rejected with
    ["Failed to fetch"], and that is what the resolver and the weather
    fetcher reject with. *)
Lemma transport_rejection_propagates_witness :
  (getCityCoordinates (Example.scripted []) (js "Lisboa") (Example.start "")).1
  = Throw Example.failedToFetch
  /\ (getWeatherData (Example.scripted []) (Example.num 3872 100)
                     (Example.num (-914) 100) (Example.start "")).1
     = Throw Example.failedToFetch.
Proof.
  pose proof (transport_rejection_propagates Example.saoPaulo
                (Example.scripted []) (Example.start "") 150
                Example.failedToFetch (js "Lisboa") (js "Lisboa")
                (Example.num 3872 100) (Example.num (-914) 100))
    as (H1 & H2 & _).
  split.
  - rewrite H1; [reflexivity|vm_compute; reflexivity..].
  - rewrite H2; [reflexivity|vm_compute; reflexivity].
Defined.

(** X7.  The forecast fetcher on an answer: a status outside 200-299
    makes it fail with ["Erro ao buscar previsão de 5 dias"]; a 2xx answer
    whose record has a truthy [daily] member gives that member, and
    without one gives [null].  Either way the page is not touched and the
    one request is logged. *)
Theorem get5DayForecast_answers
    (rt : Runtime) (net : Network) (lat lon : JSValue) (w : World)
    (elapsed st : Z) (body : Result JSValue) (req : Request) :
  req = forecastRequest lat lon
          (slice0 10 (toISOString (clock w)))
          (slice0 10 (toISOString
             (setDate (rt_LocalTZA rt) (clock w)
                      (getDate (rt_LocalTZA rt) (clock w) + 4)%Z))) ->
  net (sent w) req = (elapsed, Resolved (mkResponse st body)) ->
  let after := mkWorld (sent w ++ [req]) (clock w + elapsed)%Z (page w) in
  (~ (200 <= st <= 299)%Z ->
   get5DayForecast rt net lat lon w
   = (Throw (newError (js "Erro ao buscar previsão de 5 dias")), after))
  /\ (forall fields,
      (200 <= st <= 299)%Z -> body = Ok (JObj fields) ->
      get5DayForecast rt net lat lon w
      = (Ok (let daily := default JUndefined (ownProperty fields (js "daily")) in
             if truthy daily then daily else JNull), after)).
Proof.
  intros -> Hnet. cbv zeta. split.
  - intros Hst. rewrite get5DayForecast_fetch. unfold bind at 1.
    rewrite (fetch_resolved net _ _ _ _ Hnet).
    now rewrite (not_ok (mkResponse st body) Hst).
  - intros fields Hst ->. rewrite get5DayForecast_fetch. unfold bind at 1.
    rewrite (fetch_resolved net _ _ _ _ Hnet).
    assert (Hok : ok (mkResponse st (Ok (JObj fields))) = true)
      by now apply ok_iff.
    rewrite Hok. reflexivity.
Qed.

(** A 503, and a 200 whose record has no [daily] member. *)
Lemma get5DayForecast_answers_witness :
  (get5DayForecast Example.saoPaulo
     (Example.scripted [Example.respond 503 (JObj [])])
     (Example.num 3872 100) (Example.num (-914) 100) (Example.start "")).1
  = Throw (newError (js "Erro ao buscar previsão de 5 dias"))
  /\ (get5DayForecast Example.saoPaulo
        (Example.scripted [Example.respond 200 (JObj [])])
        (Example.num 3872 100) (Example.num (-914) 100) (Example.start "")).1
     = Ok JNull.
Proof.
  split.
  - rewrite (proj1 (get5DayForecast_answers Example.saoPaulo
               (Example.scripted [Example.respond 503 (JObj [])])
               (Example.num 3872 100) (Example.num (-914) 100)
               (Example.start "") 150 503 (Ok (JObj [])) _
               eq_refl eq_refl)); [reflexivity|lia].
  - rewrite (proj2 (get5DayForecast_answers Example.saoPaulo
               (Example.scripted [Example.respond 200 (JObj [])])
               (Example.num 3872 100) (Example.num (-914) 100)
               (Example.start "") 150 200 (Ok (JObj [])) _
               eq_refl eq_refl) [] ltac:(lia) eq_refl).
    reflexivity.
Defined.

(** X8.  On a host whose offset from UTC never changes, the window the
    forecast fetcher asks for starts at the UTC date of the clock reading
    and ends at the UTC date of the instant exactly four days (96 hours)
    later: five UTC dates in a row, whatever the offset. *)
Theorem forecast_window_at_fixed_offset
    (rt : Runtime) (net : Network) (lat lon : JSValue) (w : World)
    (offset : Z) :
  (forall t isUTC, rt_LocalTZA rt t isUTC = offset) ->
  sent (get5DayForecast rt net lat lon w).2
  = sent w
    ++ [forecastRequest lat lon
          (slice0 10 (toISOString (clock w)))
          (slice0 10 (toISOString (clock w + 4 * msPerDay)%Z))]
  /\ Day (clock w + 4 * msPerDay)%Z = (Day (clock w) + 4)%Z.
Proof.
  intros Hfix. split.
  - rewrite get5DayForecast_request.
    assert (Hset : setDate (rt_LocalTZA rt) (clock w)
                           (getDate (rt_LocalTZA rt) (clock w) + 4)%Z
                   = setDate (fun _ _ => offset) (clock w)
                             (getDate (fun _ _ => offset) (clock w) + 4)%Z).
    { unfold setDate, getDate, LocalTime, UTC. now rewrite !Hfix. }
    now rewrite Hset, setDate_fixed_offset.
  - unfold Day, msPerDay. apply Z.div_add. lia.
Qed.

(** São Paulo at 22:00 on 10 November 2025: 11 to 15 November. *)
Lemma forecast_window_at_fixed_offset_witness :
  sent (get5DayForecast Example.saoPaulo Example.geocodingDown JNull JNull
          (Example.start "")).2
  = [forecastRequest JNull JNull (js "2025-11-11") (js "2025-11-15")].
Proof.
  rewrite (proj1 (forecast_window_at_fixed_offset Example.saoPaulo
             Example.geocodingDown JNull JNull (Example.start "")
             Example.saoPauloOffset (fun _ _ => eq_refl))).
  vm_compute. reflexivity.
Defined.

(* ===================================================================== *)
(** ** The forecast list *)
(* ===================================================================== *)

Section Loop.

Context {A B : Type} (f : A -> Result B).

(** A loop that ends has run its body on every element, in order. *)
Lemma mapResult_Ok (l : list A) (bs : list B) :
  mapResult f l = Ok bs ->
  length bs = length l
  /\ forall i b, bs !! i = Some b -> exists a, l !! i = Some a /\ f a = Ok b.
Proof.
  revert bs. induction l as [|a l IH]; intros bs H; simpl in H.
  - injection H as <-. split; [reflexivity|]. intros i b Hb.
    now rewrite lookup_nil in Hb.
  - destruct (f a) as [b0|e] eqn:Ha; [|discriminate].
    destruct (mapResult f l) as [bs0|e]; [|discriminate].
    injection H as <-. destruct (IH bs0 eq_refl) as [Hlen Hrows].
    split; [simpl; now rewrite Hlen|].
    intros [|i] b Hb; simpl in *.
    + injection Hb as <-. now exists a.
    + now apply Hrows.
Qed.

(** It ends when the body returns on every element. *)
Lemma mapResult_returns (l : list A) :
  (forall a, In a l -> exists b, f a = Ok b) ->
  exists bs, mapResult f l = Ok bs.
Proof.
  induction l as [|a l IH]; intros H; simpl; [eauto|].
  destruct (H a (or_introl eq_refl)) as [b ->].
  destruct IH as [bs ->]; [intros; apply H; now right|]. eauto.
Qed.

(** It throws as soon as the body throws on one element. *)
Lemma mapResult_throws (l : list A) (a : A) (e : Exn) :
  In a l -> f a = Throw e -> exists e', mapResult f l = Throw e'.
Proof.
  induction l as [|a0 l IH]; intros Hin Ha; [contradiction|]. simpl.
  destruct (f a0) as [b0|e0] eqn:H0; [|eauto].
  destruct Hin as [->|Hin]; [congruence|].
  destruct (IH Hin Ha) as [e' ->]. eauto.
Qed.

End Loop.

Section ForecastList.

Variable rt : Runtime.
Variable net : Network.
Variable renderDay : JSValue -> nat -> Result ForecastRow.

Lemma truthy_not_nullish (v : JSValue) : truthy v = true -> nullish v = false.
Proof. now destruct v. Qed.

(** The forecast block once the daily data is there, with days in it. *)
Lemma showForecast_days (cityData : Location) (w w1 : World)
    (daily : JSValue) (days : list JSValue) :
  get5DayForecast rt net (lat cityData) (lon cityData) w = (Ok daily, w1) ->
  truthy daily = true ->
  get daily (js "time") = Ok (JArr days) ->
  days <> [] ->
  showForecast rt net renderDay cityData w
  = match mapResult (renderDay daily) (seq 0 (length days)) with
    | Ok rows =>
      (Ok tt,
       (setForecast5 (Some (mkPanel (Some (js "Próximos dias")) (Some rows)))
                     w1).2)
    | Throw e =>
      (Throw e,
       (setForecast5 (Some (mkPanel (Some (js "Próximos dias")) None)) w1).2)
    end.
Proof.
  intros Hget Htruthy Htime Hdays. unfold showForecast. unfold bind at 1.
  rewrite Hget. unfold bind at 1. cbn [setForecast5 modifyPage].
  rewrite Htruthy. cbn [negb]. unfold bind at 1, lift at 1. rewrite Htime.
  destruct days as [|d0 days]; [contradiction|].
  cbn [length Nat.ltb Nat.leb]. unfold bind at 1. cbn [setForecast5 modifyPage].
  unfold bind at 1, lift at 1.
  destruct (mapResult (renderDay daily) (seq 0 (S (length days))));
    destruct w1 as [s c [d t cl v dis bg f]]; reflexivity.
Qed.

End ForecastList.

(** X9.  When the daily data has days and the loop body returns for each
    of them, [#forecast5] ends up with the title ["Próximos dias"] and a
    list with exactly one row per entry of [daily.time], in the same
    order, each the row of its index. *)
Theorem forecast_list_follows_days
    (rt : Runtime) (net : Network)
    (renderDay : JSValue -> nat -> Result ForecastRow)
    (cityData : Location) (w w1 : World) (daily : JSValue)
    (days : list JSValue) :
  get5DayForecast rt net (lat cityData) (lon cityData) w = (Ok daily, w1) ->
  truthy daily = true ->
  get daily (js "time") = Ok (JArr days) ->
  days <> [] ->
  (forall i, (i < length days)%nat -> exists row, renderDay daily i = Ok row) ->
  exists rows,
    forecast5 (page (showForecast rt net renderDay cityData w).2)
    = Some (mkPanel (Some (js "Próximos dias")) (Some rows))
    /\ length rows = length days
    /\ forall i row, rows !! i = Some row -> renderDay daily i = Ok row.
Proof.
  intros Hget Htruthy Htime Hdays Hrows.
  rewrite (showForecast_days rt net renderDay _ _ _ _ _ Hget Htruthy Htime Hdays).
  destruct (mapResult_returns (renderDay daily) (seq 0 (length days)))
    as [rows Hmap].
  { intros i Hi. apply in_seq in Hi. apply Hrows. lia. }
  rewrite Hmap. exists rows. split; [reflexivity|].
  destruct (mapResult_Ok _ _ _ Hmap) as [Hlen Hrow].
  split; [now rewrite Hlen, length_seq|].
  intros i row Hi. destruct (Hrow i row Hi) as (a & Ha & Hf).
  apply lookup_seq in Ha as [-> _]. exact Hf.
Qed.

(* ===================================================================== *)
(** ** One row of the forecast list *)
(* ===================================================================== *)

Section Weekday.

Local Open Scope Z_scope.

Lemma ToIntegerOrInfinity_whole (q : Q) :
  Qden q = 1%positive -> ToIntegerOrInfinity q = Qnum q.
Proof.
  destruct q as [n d]. cbn [Qden Qnum]. intros ->.
  unfold ToIntegerOrInfinity, Qfloor, Qopp. cbn [Qnum Qden].
  rewrite !Z.div_1_r. destruct (n <? 0); lia.
Qed.

(** Day numbers of the years the forecast can be about are far inside
    the range of time values. *)
Lemma days_from_civil_bound (y m d : Z) :
  100 <= y <= 9999 -> 1 <= m <= 12 -> 1 <= d <= 31 ->
  -700000 <= days_from_civil y m d <= 3000000.
Proof.
  intros Hy Hm Hd. unfold days_from_civil.
  destruct (Z.leb_spec m 2), (Z.ltb_spec 2 m); try lia;
    cbv zeta; Z.div_mod_to_equations; lia.
Qed.

Lemma MakeDay_month (y m d : Z) :
  1 <= m <= 12 -> MakeDay y (m - 1) d = days_from_civil y m d.
Proof.
  intros Hm. unfold MakeDay.
  rewrite (Z.div_small (m - 1) 12), (Z.mod_small (m - 1) 12) by lia.
  replace (y + 0) with y by lia. replace (m - 1 + 1) with m by lia.
  pose proof (days_from_civil_day y m 1 (d - 1)) as H.
  replace (1 + (d - 1)) with d in H by lia. lia.
Qed.

(** The seven labels after the change of case. *)
Lemma weekday_labels :
  List.map (fun s => joinWith (js " ")
                       (List.map capitalize (splitNonWord false s)))
           weekdays
  = Example.weekdayLabels.
Proof. vm_compute. reflexivity. Qed.

Variable rt : Runtime.
Variable offset : Z.
Hypothesis fixed : forall t isUTC, rt_LocalTZA rt t isUTC = offset.
Hypothesis small : - msPerDay <= offset <= msPerDay.

(** At a fixed offset the weekday read back from local midnight is the
    weekday of the calendar date. *)
Lemma weekdayOf_fixed_offset (yy mm dd : jsstring) (y m d : Z) :
  rt_stringToNumber rt yy = Some (inject_Z y) ->
  rt_stringToNumber rt mm = Some (inject_Z m) ->
  rt_stringToNumber rt dd = Some (inject_Z d) ->
  100 <= y <= 9999 -> 1 <= m <= 12 -> 1 <= d <= 31 ->
  weekdayOf rt (Some yy) (Some mm) (Some dd)
  = weekdays !! Z.to_nat ((days_from_civil y m d + 4) mod 7).
Proof using fixed small.
  intros Hyy Hmm Hdd Hy Hm Hd. unfold weekdayOf, Number.
  cbn [mbind option_bind]. rewrite Hyy, Hmm, Hdd.
  cbn [fmap option_fmap option_map newDate].
  assert (Hyear : MakeFullYear (inject_Z y) = y).
  { unfold MakeFullYear. rewrite ToIntegerOrInfinity_whole by reflexivity.
    cbn [Qnum inject_Z].
    destruct (Z.leb_spec 0 y), (Z.leb_spec y 99); cbn [andb]; lia. }
  assert (Hmonth : ToIntegerOrInfinity (inject_Z m - 1)%Q = m - 1).
  { rewrite ToIntegerOrInfinity_whole by reflexivity.
    cbn [Qnum inject_Z Qminus Qplus Qopp Qden]. lia. }
  assert (Hdate : ToIntegerOrInfinity (inject_Z d) = d).
  { now rewrite ToIntegerOrInfinity_whole by reflexivity. }
  rewrite Hyear, Hmonth, Hdate, (MakeDay_month y m d Hm).
  pose proof (days_from_civil_bound y m d Hy Hm Hd) as Hb.
  set (n := days_from_civil y m d) in *.
  unfold UTC, MakeDate, TimeClip. rewrite fixed.
  assert (Hclip : (Z.abs (n * msPerDay + 0 - offset) <=? 8640000000000000) = true).
  { apply Z.leb_le. unfold msPerDay in *. lia. }
  rewrite Hclip. cbn [getDay fmap option_fmap option_map mbind option_bind].
  unfold WeekDay, LocalTime, Day. rewrite fixed.
  replace (n * msPerDay + 0 - offset + offset) with (n * msPerDay) by lia.
  rewrite Z.div_mul by (unfold msPerDay; lia). reflexivity.
Qed.

End Weekday.

Section SafeNumbers.

Local Open Scope Z_scope.

(** A Number below 2^53 rounds to an integer that is printed digit by
    digit. *)
Lemma Math_round_safe (q : Q) :
  isSafeNumber q = true -> Z.abs (Qfloor (q + (1 # 2))) <= 2 ^ 53.
Proof.
  unfold isSafeNumber. cbv zeta. rewrite !andb_true_iff, Z.ltb_lt.
  intros [[Hnum _] _].
  rewrite <- (Qfloor_comp _ _ (Qplus_comp _ _ (Qred_correct q) _ _ (Qeq_refl _))).
  destruct (Qred q) as [n d]. cbn [Qnum Qden] in Hnum.
  assert (Hlo : (inject_Z (- 2 ^ 53) <= (n # d) + (1 # 2))%Q).
  { unfold Qle, Qplus, inject_Z. cbn [Qnum Qden]. nia. }
  assert (Hhi : ((n # d) + (1 # 2) <= inject_Z (2 ^ 53))%Q).
  { unfold Qle, Qplus, inject_Z. cbn [Qnum Qden]. nia. }
  apply Qfloor_resp_le in Hlo, Hhi. rewrite Qfloor_Z in Hlo, Hhi. lia.
Qed.

Lemma roundedToString_safe (frac : Q -> jsstring) (q : Q) :
  isSafeNumber q = true ->
  roundedToString frac (Math_round (Some q)) = ofZ (Qfloor (q + (1 # 2))).
Proof.
  intros H. apply Math_round_safe in H.
  cbn [Math_round fmap option_fmap option_map roundedToString].
  now rewrite (proj2 (Z.leb_le _ _) H).
Qed.

End SafeNumbers.

(** X10.  A well-formed day, on a host at a fixed offset from UTC, with
    temperatures that are Numbers below 2^53 in magnitude: the row shows
    the date as [DD/MM/YYYY], the weekday of that calendar date (whatever
    the offset) with each word capitalised and a space for the hyphen, the
    icon and the description of the day's code, and both temperatures
    rounded to the nearest integer, a half going up. *)
Theorem forecast_row_of_a_day
    (rt : Runtime) (offset : Z) (daily : JSValue) (i : nat)
    (days mins maxs codes : list JSValue) (isoDate yy mm dd : jsstring)
    (y m d code : Z) (tmin tmax : Q) :
  (forall t isUTC, rt_LocalTZA rt t isUTC = offset) ->
  (- msPerDay <= offset <= msPerDay)%Z ->
  get daily (js "time") = Ok (JArr days) ->
  days !! i = Some (JStr isoDate) ->
  split 0x2D isoDate = [yy; mm; dd] ->
  rt_stringToNumber rt yy = Some (inject_Z y) ->
  rt_stringToNumber rt mm = Some (inject_Z m) ->
  rt_stringToNumber rt dd = Some (inject_Z d) ->
  (100 <= y <= 9999)%Z -> (1 <= m <= 12)%Z -> (1 <= d <= 31)%Z ->
  get daily (js "temperature_2m_min") = Ok (JArr mins) ->
  mins !! i = Some (JNum tmin) ->
  isSafeNumber tmin = true ->
  get daily (js "temperature_2m_max") = Ok (JArr maxs) ->
  maxs !! i = Some (JNum tmax) ->
  isSafeNumber tmax = true ->
  get daily (js "weathercode") = Ok (JArr codes) ->
  codes !! i = Some (JNum (inject_Z code)) ->
  forecastItem rt daily i
  = Ok (mkRow (default [] (Example.weekdayLabels
                             !! Z.to_nat ((days_from_civil y m d + 4) mod 7)))
              (dd ++ js "/" ++ mm ++ js "/" ++ yy)
              (js "wi forecast-icon " ++ Reference.wmoIcon code)
              (Reference.wmoDescription code)
              (ofZ (Qfloor (tmax + (1 # 2))) ++ js "°C")
              (ofZ (Qfloor (tmin + (1 # 2))) ++ js "°C")).
Proof.
  intros Hfix Hsmall Htime Hday Hsplit Hyy Hmm Hdd Hy Hm Hd
         Hmins Hmin Hsafemin Hmaxs Hmax Hsafemax Hcodes Hcode.
  unfold forecastItem. rewrite Htime. cbn [mbind Result_bind getIndex].
  rewrite Hday. cbn [default from_option id isoDateSplit]. rewrite Hsplit.
  cbn [mbind Result_bind].
  cbn [lookup list_lookup interpolate default from_option id].
  rewrite (weekdayOf_fixed_offset rt offset Hfix Hsmall yy mm dd y m d)
    by assumption.
  assert (Hlt : (Z.to_nat ((days_from_civil y m d + 4) mod 7) < 7)%nat).
  { pose proof (Z.mod_pos_bound (days_from_civil y m d + 4) 7). lia. }
  set (k := Z.to_nat ((days_from_civil y m d + 4) mod 7)) in *.
  rewrite <- weekday_labels, list_lookup_fmap.
  destruct (weekdays !! k) as [weekday|] eqn:Hk;
    [|apply lookup_ge_None in Hk; cbn [length weekdays] in Hk; lia].
  cbn [fmap option_fmap option_map default from_option id mbind Result_bind].
  rewrite Hmins, Hmaxs. unfold roundAt. cbn [mbind Result_bind getIndex].
  rewrite Hmin, Hmax. cbn [default toNumber from_option id mbind Result_bind].
  rewrite Hcodes. cbn [mbind Result_bind getIndex]. rewrite Hcode.
  cbn [default from_option id mbind Result_bind].
  rewrite getWeatherIcon_integer, getWeatherDescription_integer.
  now rewrite (roundedToString_safe _ tmin Hsafemin),
              (roundedToString_safe _ tmax Hsafemax).
Qed.

Section RowFailures.

Variable rt : Runtime.

Lemma get_throws_TypeError (v : JSValue) (key : jsstring) (e : Exn) :
  get v key = Throw e -> exn_name e = TypeError.
Proof.
  destruct v; simpl; try discriminate; try (now intros [= <-]);
    case_match; discriminate.
Qed.

Lemma getIndex_throws_TypeError (v : JSValue) (i : nat) (e : Exn) :
  getIndex v i = Throw e -> exn_name e = TypeError.
Proof. destruct v; simpl; try discriminate; now intros [= <-]. Qed.

Lemma isoDateSplit_throws_TypeError (v : JSValue) (e : Exn) :
  isoDateSplit v = Throw e -> exn_name e = TypeError.
Proof. destruct v; simpl; try discriminate; now intros [= <-]. Qed.

Lemma getIndex_nullish (v : JSValue) (i : nat) :
  nullish v = true -> exists e, getIndex v i = Throw e.
Proof. destruct v; try discriminate; intros _; eexists; reflexivity. Qed.

Lemma get_returns_not_nullish (v x : JSValue) (key : jsstring) :
  get v key = Ok x -> nullish v = false.
Proof. now destruct v. Qed.

(** Whatever the loop body throws is a TypeError. *)
Lemma forecastItem_throws_TypeError (daily : JSValue) (i : nat) (e : Exn) :
  forecastItem rt daily i = Throw e -> exn_name e = TypeError.
Proof.
  unfold forecastItem, roundAt.
  repeat match goal with
         | |- context [@mbind Result _ _ _ _ ?r] =>
             lazymatch r with
             | context [@mbind Result _ _ _ _ _] => fail
             | _ =>
               let H := fresh "H" in
               destruct r eqn:H; cbn [mbind Result_bind];
               [|intros [= <-];
                 first [ now apply get_throws_TypeError in H
                       | now apply getIndex_throws_TypeError in H
                       | now apply isoDateSplit_throws_TypeError in H
                       | repeat case_match; try discriminate;
                         first [ now apply getIndex_throws_TypeError in H
                               | now injection H as <- ] ]]
             end
         end.
  discriminate.
Qed.

(** Neither [null] nor [undefined] is the name of a code. *)
Lemma getWeatherDescription_nullish (code : JSValue) :
  nullish code = true ->
  getWeatherDescription rt code = js "Condição desconhecida".
Proof. destruct code; try discriminate; intros _; vm_compute; reflexivity. Qed.

Lemma getWeatherIcon_nullish (code : JSValue) :
  nullish code = true ->
  match code with JNull => js "wi-na" | _ => getWeatherIcon code end
  = js "wi-na".
Proof. destruct code; try discriminate; intros _; reflexivity. Qed.

End RowFailures.

(** X11.  A day is never shown without both temperatures: when [daily]
    has no [temperature_2m_min] or no [temperature_2m_max] member (or the
    member is [null]), the loop body throws a TypeError for every index
    and builds no row. *)
Theorem forecast_row_needs_temperatures
    (rt : Runtime) (daily : JSValue) (i : nat) :
  nullish (prop daily (js "temperature_2m_min")) = true
  \/ nullish (prop daily (js "temperature_2m_max")) = true ->
  exists e, forecastItem rt daily i = Throw e /\ exn_name e = TypeError.
Proof.
  intros Hmissing.
  destruct (forecastItem rt daily i) as [row|e] eqn:Hrow;
    [|exists e; split; [reflexivity|
                        now apply (forecastItem_throws_TypeError rt daily i)]].
  exfalso. revert Hrow. unfold forecastItem, roundAt.
  destruct (get daily (js "time")) as [time|] eqn:Htime;
    cbn [mbind Result_bind]; [|discriminate].
  apply get_returns_not_nullish in Htime.
  rewrite !(get_prop daily _ Htime).
  destruct (getIndex time i) as [isoDate|]; cbn [mbind Result_bind];
    [|discriminate].
  destruct (isoDateSplit isoDate) as [parts|]; cbn [mbind Result_bind];
    [|discriminate].
  destruct (weekdayOf rt (parts !! 0%nat) (parts !! 1%nat) (parts !! 2%nat));
    cbn [mbind Result_bind]; [|discriminate].
  destruct Hmissing as [H|H].
  - destruct (getIndex_nullish _ i H) as [e ->]. discriminate.
  - destruct (getIndex (prop daily (js "temperature_2m_min")) i);
      cbn [mbind Result_bind]; [|discriminate].
    destruct (getIndex_nullish _ i H) as [e ->]. discriminate.
Qed.

(** X12.  A day without a code still gets its row.  When the date of
    the day is valid and both temperatures are numbers, and
    [daily.weathercode] is not an array, or has nothing (or [null]) at
    the day's index, the loop body returns, and the row it builds carries
    the icon [wi-na] and the text ["Condição desconhecida"]. *)
Theorem forecast_row_without_code
    (rt : Runtime) (daily : JSValue) (i : nat) (days mins maxs : list JSValue)
    (isoDate weekday : jsstring) (tmin tmax : Q) :
  get daily (js "time") = Ok (JArr days) ->
  days !! i = Some (JStr isoDate) ->
  weekdayOf rt (split 0x2D isoDate !! 0%nat) (split 0x2D isoDate !! 1%nat)
            (split 0x2D isoDate !! 2%nat) = Some weekday ->
  prop daily (js "temperature_2m_min") = JArr mins ->
  mins !! i = Some (JNum tmin) ->
  prop daily (js "temperature_2m_max") = JArr maxs ->
  maxs !! i = Some (JNum tmax) ->
  (forall codes, prop daily (js "weathercode") = JArr codes ->
                 nullish (default JUndefined (codes !! i)) = true) ->
  exists row,
    forecastItem rt daily i = Ok row
    /\ row_icon row = js "wi forecast-icon wi-na"
    /\ row_desc row = js "Condição desconhecida".
Proof.
  intros Htime Hday Hweek Hmins Hmin Hmaxs Hmax Hcode.
  pose proof (get_returns_not_nullish _ _ _ Htime) as Hnn.
  unfold forecastItem, roundAt. rewrite Htime.
  cbn [mbind Result_bind getIndex]. rewrite Hday.
  cbn [default from_option id isoDateSplit mbind Result_bind].
  rewrite Hweek. cbn [mbind Result_bind].
  rewrite !(get_prop daily _ Hnn), Hmins, Hmaxs.
  cbn [mbind Result_bind getIndex]. rewrite Hmin, Hmax.
  cbn [default from_option id mbind Result_bind].
  assert (Hnull : exists code,
            nullish code = true
            /\ match prop daily (js "weathercode") with
               | JArr _ => getIndex (prop daily (js "weathercode")) i
               | _ => Ok JNull
               end = Ok code).
  { destruct (prop daily (js "weathercode")) as [| | | | |codes|] eqn:Hc;
      try (exists JNull; split; reflexivity).
    exists (default JUndefined (codes !! i)). split; [now apply Hcode|reflexivity]. }
  destruct Hnull as (code & Hnull & ->). cbn [mbind Result_bind].
  eexists. split; [reflexivity|]. cbn [row_icon row_desc].
  now rewrite (getWeatherDescription_nullish rt code Hnull),
              (getWeatherIcon_nullish code Hnull).
Qed.

(** Tuesday 11 November 2025, seen from São Paulo: 20.5 degrees round to
    21 and 12.25 to 12. *)
Lemma forecast_row_of_a_day_witness :
  forecastItem Example.saoPaulo Sample.dailyExact 0
  = Ok (mkRow (js "Terça Feira") (js "11/11/2025")
              (js "wi forecast-icon wi-rain") (js "Chuva leve")
              (js "21°C") (js "12°C")).
Proof.
  rewrite (forecast_row_of_a_day Example.saoPaulo Example.saoPauloOffset
             Sample.dailyExact 0
             [JStr (js "2025-11-11"); JStr (js "2025-11-12")]
             [JNum (49 # 4); JNum 12]
             [JNum (41 # 2); JNum (75 # 4)]
             [JNum (inject_Z 61); JNum (inject_Z 3)]
             (js "2025-11-11") (js "2025") (js "11") (js "11")
             2025 11 11 61 (49 # 4) (41 # 2)).
  - vm_compute. reflexivity.
  - intros t isUTC. reflexivity.
  - unfold msPerDay, Example.saoPauloOffset. lia.
  - vm_compute. reflexivity.
  - reflexivity.
  - vm_compute. reflexivity.
  - vm_compute. reflexivity.
  - vm_compute. reflexivity.
  - vm_compute. reflexivity.
  - lia.
  - lia.
  - lia.
  - vm_compute. reflexivity.
  - reflexivity.
  - vm_compute. reflexivity.
  - vm_compute. reflexivity.
  - reflexivity.
  - vm_compute. reflexivity.
  - vm_compute. reflexivity.
  - reflexivity.
Defined.

(** The two days of the forecast for Lisboa make two rows. *)
Lemma forecast_list_follows_days_witness :
  exists rows,
    forecast5 (page (showForecast Example.saoPaulo Sample.forecastOnly
                       (forecastItem Example.saoPaulo) Sample.lisboaCity
                       (Example.start "")).2)
    = Some (mkPanel (Some (js "Próximos dias")) (Some rows))
    /\ length rows = 2%nat
    /\ forall i row, rows !! i = Some row ->
                     forecastItem Example.saoPaulo Sample.daily i = Ok row.
Proof.
  refine (forecast_list_follows_days Example.saoPaulo Sample.forecastOnly
            (forecastItem Example.saoPaulo) Sample.lisboaCity
            (Example.start "") _ Sample.daily
            [JStr (js "2025-11-11"); JStr (js "2025-11-12")] _ _ _ _ _).
  - vm_compute. reflexivity.
  - reflexivity.
  - vm_compute. reflexivity.
  - discriminate.
  - intros [|[|i]] Hi; [eexists; vm_compute; reflexivity..|simpl in Hi; lia].
Defined.

(** Without the minima no row is built. *)
Lemma forecast_row_needs_temperatures_witness :
  exists e, forecastItem Example.saoPaulo Sample.dailyWithoutMin 0 = Throw e
            /\ exn_name e = TypeError.
Proof.
  apply (forecast_row_needs_temperatures Example.saoPaulo
           Sample.dailyWithoutMin 0).
  left. vm_compute. reflexivity.
Defined.

(** Without the codes the row of 11 November is built, with the
    fallback icon and text. *)
Lemma forecast_row_without_code_witness :
  exists row,
    forecastItem Example.saoPaulo Sample.dailyWithoutCodes 0 = Ok row
    /\ row_icon row = js "wi forecast-icon wi-na"
    /\ row_desc row = js "Condição desconhecida".
Proof.
  apply (forecast_row_without_code Example.saoPaulo Sample.dailyWithoutCodes 0
           [JStr (js "2025-11-11"); JStr (js "2025-11-12")]
           [JNum (123 # 10); JNum (118 # 10)]
           [JNum (201 # 10); JNum (187 # 10)]
           (js "2025-11-11") (js "terça-feira") (123 # 10) (201 # 10)).
  - vm_compute. reflexivity.
  - reflexivity.
  - vm_compute. reflexivity.
  - vm_compute. reflexivity.
  - reflexivity.
  - vm_compute. reflexivity.
  - reflexivity.
  - intros codes H. vm_compute in H. discriminate H.
Defined.

Section TitleOnly.

Variable rt : Runtime.
Variable net : Network.
Variable renderDay : JSValue -> nat -> Result ForecastRow.

(** The [display]s after the current observation is on the page are
    those the handler set before the [try] block. *)
Lemma stages_displays (w w1 w2 w3 : World) (cityName : jsstring)
    (rev : Revision) (cityData : Location) (weather : JSValue)
    (r : Result unit) :
  getCityCoordinates net cityName (clearStates w).2 = (Ok cityData, w1) ->
  getWeatherData net (lat cityData) (lon cityData) w1 = (Ok weather, w2) ->
  showCurrent rt rev cityData weather w2 = (r, w3) ->
  displays w3 = displays (clearStates w).2.
Proof.
  intros H1 H2 H3.
  apply (keeps_run displays _ _ _ _ (getCityCoordinates_displays _ _)) in H1.
  apply (keeps_run displays _ _ _ _ (getWeatherData_displays _ _ _)) in H2.
  apply (keeps_run displays _ _ _ _ (showCurrent_displays rt _ _ _)) in H3.
  congruence.
Qed.

End TitleOnly.

(** X13.  When the loop body throws on one of the days, the handler
    swallows it: the query ends normally with the current weather shown
    and no error, and [#forecast5] holds the title ["Próximos dias"] with
    no list under it, not even the rows built before the failure. *)
Theorem failed_row_leaves_title_only
    (rt : Runtime) (net : Network)
    (renderDay : JSValue -> nat -> Result ForecastRow)
    (w w1 w2 w3 w4 : World) (cityData : Location) (weather daily : JSValue)
    (days : list JSValue) (i : nat) (e : Exn) :
  trim (cityInput_value (page w)) <> [] ->
  getCityCoordinates net (trim (cityInput_value (page w))) (clearStates w).2
  = (Ok cityData, w1) ->
  getWeatherData net (lat cityData) (lon cityData) w1 = (Ok weather, w2) ->
  truthy weather = true ->
  showCurrent rt WithForecast cityData weather w2 = (Ok tt, w3) ->
  get5DayForecast rt net (lat cityData) (lon cityData) w3 = (Ok daily, w4) ->
  truthy daily = true ->
  get daily (js "time") = Ok (JArr days) ->
  (i < length days)%nat ->
  renderDay daily i = Throw e ->
  let final := onSubmit rt net renderDay WithForecast w in
  final.1 = Ok tt
  /\ display (page final.2) weatherInfoEl = display_block
  /\ display (page final.2) errorEl = display_none
  /\ textContent (page final.2) = textContent (page w3)
  /\ forecast5 (page final.2)
     = Some (mkPanel (Some (js "Próximos dias")) None).
Proof.
  intros Hin Hcity Hweather Htruthy Hcurrent Hget Hdaily Htime Hi Hrow.
  destruct (forecast_failure_keeps_current rt net renderDay w w1 w2 w3
              cityData weather Hin Hcity Hweather Htruthy Hcurrent)
    as (Hok & Hshow & Herr & Htext & _ & Hpanel).
  cbv zeta. split; [exact Hok|]. split; [exact Hshow|].
  split; [|split; [exact Htext|]].
  - rewrite Herr.
    pose proof (stages_displays rt net w w1 w2 w3 _ _ _ _ _
                  Hcity Hweather Hcurrent) as Hd.
    apply (f_equal (fun d => d errorEl)) in Hd.
    rewrite clearStates_displays in Hd. exact Hd.
  - rewrite Hpanel.
    assert (Hdays : days <> []) by (destruct days; [simpl in Hi; lia|discriminate]).
    rewrite (showForecast_days rt net renderDay _ _ _ _ _
               Hget Hdaily Htime Hdays).
    destruct (mapResult_throws (renderDay daily) (seq 0 (length days)) i e)
      as [e' ->]; [apply in_seq; lia|exact Hrow|].
    reflexivity.
Qed.

(** The forecast for Lisboa comes without the minima: the current
    weather is shown, and of the forecast only the title. *)
Lemma failed_row_leaves_title_only_witness :
  forecast5
    (page (onSubmit Example.saoPaulo Sample.forecastWithoutMin
                    (forecastItem Example.saoPaulo) WithForecast
                    (Example.start "Lisboa")).2)
  = Some (mkPanel (Some (js "Próximos dias")) None).
Proof.
  assert (Hin : trim (cityInput_value (page (Example.start "Lisboa"))) <> [])
    by (vm_compute; discriminate).
  refine (proj2 (proj2 (proj2 (proj2
            (failed_row_leaves_title_only Example.saoPaulo
               Sample.forecastWithoutMin (forecastItem Example.saoPaulo)
               (Example.start "Lisboa") _ _ _ _ _ _ Sample.dailyWithoutMin
               [JStr (js "2025-11-11"); JStr (js "2025-11-12")] 0%nat _
               Hin _ _ _ _ _ _ _ _ _))))).
  - vm_compute. reflexivity.
  - vm_compute. reflexivity.
  - reflexivity.
  - vm_compute. reflexivity.
  - vm_compute. reflexivity.
  - reflexivity.
  - vm_compute. reflexivity.
  - simpl. lia.
  - vm_compute. reflexivity.
Defined.

(** X14.  Daily data that is absent, or has no [time] array with at
    least one day in it, empties [#forecast5]: whatever an earlier query
    had put there is removed, and neither title nor list is added. *)
Theorem forecast_without_days_is_emptied
    (rt : Runtime) (net : Network)
    (renderDay : JSValue -> nat -> Result ForecastRow)
    (cityData : Location) (w w1 : World) (daily : JSValue) :
  get5DayForecast rt net (lat cityData) (lon cityData) w = (Ok daily, w1) ->
  truthy daily = false
  \/ (forall day days, prop daily (js "time") <> JArr (day :: days)) ->
  showForecast rt net renderDay cityData w
  = (Ok tt, (setForecast5 (Some (mkPanel None None)) w1).2).
Proof.
  intros Hget Hnone. unfold showForecast. unfold bind at 1. rewrite Hget.
  unfold bind at 1. cbn [setForecast5 modifyPage].
  destruct (truthy daily) eqn:Htruthy; cbn [negb]; [|reflexivity].
  destruct Hnone as [Hnone|Hnone]; [discriminate|].
  rewrite (get_prop daily _ (truthy_not_nullish _ Htruthy)).
  unfold bind at 1, lift at 1.
  destruct (prop daily (js "time")) as [| | | | |days|] eqn:Htime;
    try reflexivity.
  destruct days as [|day days]; [reflexivity|].
  now contradiction (Hnone day days).
Qed.

(** The forecast service answers with no days. *)
Lemma forecast_without_days_is_emptied_witness :
  forecast5
    (page (showForecast Example.saoPaulo
             (Example.scripted
                [Example.respond 200
                   (JObj [(js "daily", JObj [(js "time", JArr [])])])])
             (forecastItem Example.saoPaulo) Sample.lisboaCity
             (Example.start "")).2)
  = Some (mkPanel None None).
Proof.
  erewrite (forecast_without_days_is_emptied Example.saoPaulo
              (Example.scripted
                 [Example.respond 200
                    (JObj [(js "daily", JObj [(js "time", JArr [])])])])
              (forecastItem Example.saoPaulo) Sample.lisboaCity
              (Example.start "") _ (JObj [(js "time", JArr [])])).
  - reflexivity.
  - vm_compute. reflexivity.
  - right. intros day days H. vm_compute in H. discriminate H.
Defined.

(* ===================================================================== *)
(** ** The current observation on the page *)
(* ===================================================================== *)

Section Current.

Variable rt : Runtime.

(** The formatter looks at the clock and at nothing else of the world. *)
Lemma formatDateTimeLocal_clock (isoString : JSValue) (w w' : World) :
  clock w' = clock w ->
  (formatDateTimeLocal rt isoString w').1
  = (formatDateTimeLocal rt isoString w).1.
Proof.
  intros H. unfold formatDateTimeLocal, bind, tryCatch, lift, now, ret.
  case_all; cbn [fst]; rewrite ?H; reflexivity.
Qed.

Lemma formatDateTimeLocal_run (isoString : JSValue) (w w' : World)
    (formatted : jsstring) :
  (formatDateTimeLocal rt isoString w).1 = Ok formatted ->
  clock w' = clock w ->
  formatDateTimeLocal rt isoString w' = (Ok formatted, w').
Proof.
  intros Hf Hc. rewrite <- (formatDateTimeLocal_clock isoString w w' Hc) in Hf.
  pose proof (formatDateTimeLocal_world rt isoString w') as Hw.
  destruct (formatDateTimeLocal rt isoString w') as [r w'']. cbn in *.
  congruence.
Qed.

End Current.

(** X15.  What the handler writes for the current observation, given a
    place with a name and a country and a weather record with a
    temperature that is a Number below 2^53 in magnitude, an integer code
    and a time the formatter accepts: the city as ["name, country"], the
    temperature rounded to the nearest integer (a half going up) followed
    by ["°C"], the description and the icon of the same code, and the
    formatted time (after ["Atualizado em: "] in the first revision).  The
    error text is left as it was. *)
Theorem current_observation_on_page
    (rt : Runtime) (rev : Revision) (cityData : Location)
    (weather time : JSValue) (w : World) (n c formatted : jsstring)
    (q : Q) (code : Z) :
  name cityData = JStr n ->
  country cityData = JStr c ->
  get weather (js "temperature") = Ok (JNum q) ->
  isSafeNumber q = true ->
  get weather (js "weathercode") = Ok (JNum (inject_Z code)) ->
  get weather (js "time") = Ok time ->
  (formatDateTimeLocal rt time w).1 = Ok formatted ->
  let out := showCurrent rt rev cityData weather w in
  out.1 = Ok tt
  /\ textContent (page out.2) cityNameEl = n ++ js ", " ++ c
  /\ textContent (page out.2) temperatureEl
     = ofZ (Qfloor (q + (1 # 2))) ++ js "°C"
  /\ textContent (page out.2) descriptionEl = Reference.wmoDescription code
  /\ textContent (page out.2) datetimeEl
     = match rev with
       | CurrentOnly => js "Atualizado em: " ++ formatted
       | WithForecast => formatted
       end
  /\ className (page out.2) weatherIconEl
     = js "wi weather-icon " ++ Reference.wmoIcon code
  /\ textContent (page out.2) errorEl = textContent (page w) errorEl.
Proof.
  intros Hname Hcountry Htemp Hsafe Hcode Htime Hfmt. cbv zeta.
  assert (Hrun : exists out,
            showCurrent rt rev cityData weather w = (Ok tt, out)
            /\ textContent (page out) cityNameEl = n ++ js ", " ++ c
            /\ textContent (page out) temperatureEl
               = ofZ (Qfloor (q + (1 # 2))) ++ js "°C"
            /\ textContent (page out) descriptionEl
               = Reference.wmoDescription code
            /\ textContent (page out) datetimeEl
               = match rev with
                 | CurrentOnly => js "Atualizado em: " ++ formatted
                 | WithForecast => formatted
                 end
            /\ className (page out) weatherIconEl
               = js "wi weather-icon " ++ Reference.wmoIcon code
            /\ textContent (page out) errorEl = textContent (page w) errorEl).
  { unfold showCurrent. rewrite Hname, Hcountry, Htemp, Hcode, Htime.
    destruct w as [s k [d t cl v dis bg f]].
    unfold bind at 1, lift at 1. cbv beta iota zeta.
    rewrite getWeatherDescription_integer, getWeatherIcon_integer.
    cbn [toString]. unfold bind at 1. cbn [setTextContent modifyPage sent clock page].
    unfold bind at 1, lift at 1. cbv beta iota.
    cbn [toNumber]. rewrite (roundedToString_safe _ q Hsafe).
    unfold bind at 1. cbn [setTextContent modifyPage sent clock page].
    unfold bind at 1. cbn [setTextContent modifyPage sent clock page].
    unfold bind at 1, lift at 1. cbv beta iota. unfold bind at 1.
    erewrite (formatDateTimeLocal_run rt time _ _ formatted Hfmt)
      by reflexivity.
    unfold bind at 1. cbn [setTextContent modifyPage sent clock page].
    cbn [setClassName modifyPage sent clock page].
    eexists. split; [reflexivity|].
    cbn [page textContent className]. repeat split. }
  destruct Hrun as (out & -> & Hrest). cbn [fst snd].
  split; [reflexivity|exact Hrest].
Qed.

(** Lisboa at 18.5 degrees, partly cloudy. *)
Lemma current_observation_on_page_witness :
  textContent
    (page (showCurrent Example.saoPaulo CurrentOnly Sample.lisboaCity
             Sample.lisboaWeather (Example.start "Lisboa")).2) temperatureEl
  = js "19°C".
Proof.
  destruct (current_observation_on_page Example.saoPaulo CurrentOnly
              Sample.lisboaCity Sample.lisboaWeather
              (JStr (js "2025-11-10T14:30")) (Example.start "Lisboa")
              (js "Lisboa") (js "Portugal") (js "10/11/2025 14:30")
              (185 # 10) 2)
    as (_ & _ & H & _).
  - reflexivity.
  - reflexivity.
  - vm_compute. reflexivity.
  - vm_compute. reflexivity.
  - vm_compute. reflexivity.
  - vm_compute. reflexivity.
  - vm_compute. reflexivity.
  - rewrite H. vm_compute. reflexivity.
Defined.

(* ===================================================================== *)
(** ** The two code tables side by side *)
(* ===================================================================== *)

Section TablesAgree.

Import Reference.



End TablesAgree.



(* ===================================================================== *)
(** ** The address of the geocoding request *)
(* ===================================================================== *)

Section Encoding.

Local Open Scope N_scope.

Lemma hexDigit_unreserved (n : N) : n < 16 -> uriUnreserved (hexDigit n) = true.
Proof.
  intros Hn. unfold hexDigit, uriUnreserved.
  destruct (N.ltb_spec n 10) as [H|H].
  - assert (H1 : (0x30 <=? 0x30 + n) && (0x30 + n <=? 0x39) = true)
      by (apply andb_true_iff; split; apply N.leb_le; lia).
    rewrite H1. now rewrite !orb_true_r.
  - assert (H1 : (0x41 <=? 0x41 + (n - 10)) && (0x41 + (n - 10) <=? 0x5A) = true)
      by (apply andb_true_iff; split; apply N.leb_le; lia).
    now rewrite H1.
Qed.

Lemma percent_safe (b : N) : b < 256 -> Forall uriSafe (percent b).
Proof.
  intros Hb. unfold percent.
  apply Forall_cons; split; [now right|].
  apply Forall_cons; split.
  - left. apply hexDigit_unreserved.
    apply N.Div0.div_lt_upper_bound. lia.
  - apply Forall_cons; split; [|constructor].
    left. apply hexDigit_unreserved. apply N.mod_upper_bound. lia.
Qed.

Lemma utf8_of_codepoint_bytes (cp : N) :
  cp < 0x110000 -> Forall (fun b => b < 256) (utf8_of_codepoint cp).
Proof.
  intros Hcp. unfold utf8_of_codepoint.
  assert (Hmod : forall x, 0x80 + x mod 64 < 256).
  { intros x. pose proof (N.mod_upper_bound x 64). lia. }
  assert (Hdiv : forall x k m, x < k * m -> x / k < m).
  { intros x k m H. now apply N.Div0.div_lt_upper_bound. }
  destruct (N.ltb_spec cp 0x80); [repeat constructor; lia|].
  destruct (N.ltb_spec cp 0x800).
  { repeat constructor; [|apply Hmod].
    assert (cp / 64 < 32) by (apply Hdiv; lia). lia. }
  destruct (N.ltb_spec cp 0x10000).
  { repeat constructor; [|apply Hmod..].
    assert (cp / 4096 < 16) by (apply Hdiv; lia). lia. }
  repeat constructor; [|apply Hmod..].
  assert (cp / 262144 < 5) by (apply Hdiv; lia). lia.
Qed.

Lemma percentEncode_safe (cp : N) : cp < 0x110000 -> Forall uriSafe (percentEncode cp).
Proof.
  intros Hcp. unfold percentEncode.
  pose proof (utf8_of_codepoint_bytes cp Hcp) as Hb.
  induction Hb as [|b bs Hlt _ IH]; [constructor|].
  cbn [List.map concat]. apply Forall_app. split; [now apply percent_safe|exact IH].
Qed.

Lemma prepend_safe (p : jsstring) (r : Result jsstring) (enc : jsstring) :
  Forall uriSafe p ->
  (forall enc', r = Ok enc' -> Forall uriSafe enc') ->
  prepend p r = Ok enc -> Forall uriSafe enc.
Proof.
  intros Hp Hr. destruct r as [s|e]; simpl; [|discriminate].
  intros [= <-]. apply Forall_app. split; [exact Hp|now apply Hr].
Qed.

(** The encoded form of a string of 16-bit units has nothing else. *)
Lemma encodeURIComponent_safe (s enc : jsstring) :
  Forall (fun c => c < 0x10000) s ->
  encodeURIComponent s = Ok enc -> Forall uriSafe enc.
Proof.
  remember (length s) as n eqn:Hn. revert s enc Hn.
  induction n as [n IH] using lt_wf_ind. intros s enc Hn Hunits.
  destruct s as [|c r]; [simpl; intros [= <-]; constructor|].
  apply Forall_cons in Hunits as [Hc Hr].
  cbn [encodeURIComponent].
  destruct (uriUnreserved c) eqn:Hu.
  { apply prepend_safe; [apply Forall_cons; split; [now left|constructor]|].
    intros enc'. apply (IH (length r)); simpl in *; [lia|reflexivity|exact Hr]. }
  cbv beta in Hc.
  destruct (isLeadSurrogate c) eqn:Hlead.
  - destruct r as [|d r']; [discriminate|].
    apply Forall_cons in Hr as [Hd Hr'].
    destruct (isTrailSurrogate d) eqn:Htrail; [|discriminate].
    apply prepend_safe.
    + apply percentEncode_safe.
      unfold isLeadSurrogate in Hlead. unfold isTrailSurrogate in Htrail.
      apply andb_true_iff in Hlead as [_ Hlead%N.leb_le].
      apply andb_true_iff in Htrail as [_ Htrail%N.leb_le]. lia.
    + intros enc'. apply (IH (length r')); simpl in *; [lia|reflexivity|exact Hr'].
  - destruct (isTrailSurrogate c); [discriminate|].
    apply prepend_safe.
    + apply percentEncode_safe. lia.
    + intros enc'. apply (IH (length r)); simpl in *; [lia|reflexivity|exact Hr].
Qed.

End Encoding.

(** X17.  The city name cannot add to or cut short the query of the
    geocoding request: in the address sent, the encoded name is made of
    letters, digits, [- _ . ! ~ * ' ( )] and percent escapes only, so none
    of [& = # ? / +] or a space occurs in it, whatever was typed. *)
Theorem city_name_cannot_inject_parameters
    (net : Network) (cityName encoded : jsstring) (w : World) :
  Forall (fun c => (c < 0x10000)%N) cityName ->
  forallb isWhiteSpace cityName = false ->
  encodeURIComponent cityName = Ok encoded ->
  sent (getCityCoordinates net cityName w).2
  = sent w ++ [Get (API_BASE_URL ++ js "?name=" ++ encoded
                    ++ js "&count=1&language=pt&format=json")]
  /\ Forall uriSafe encoded
  /\ forall c, In c (js "&=#?/+ ") -> ~ In c encoded.
Proof.
  intros Hunits Hblank Henc.
  pose proof (encodeURIComponent_safe cityName encoded Hunits Henc) as Hsafe.
  split; [now apply getCityCoordinates_sent|]. split; [exact Hsafe|].
  intros c Hc Hin. rewrite Forall_forall in Hsafe.
  destruct (Hsafe c (proj2 (list_elem_of_In _ _) Hin)) as [H|H];
    simpl in Hc; repeat (destruct Hc as [<-|Hc]; [discriminate|]);
    contradiction.
Qed.

(** A name that tries to ask for five results. *)
Lemma city_name_cannot_inject_parameters_witness :
  Forall uriSafe (js "Rio%26count%3D5").
Proof.
  assert (H1 : Forall (fun c => (c < 0x10000)%N) (js "Rio&count=5")).
  { apply Forall_forall. intros c Hc. apply list_elem_of_In in Hc.
    vm_compute in Hc. repeat (destruct Hc as [<-|Hc]; [reflexivity|]).
    contradiction. }
  assert (H2 : forallb isWhiteSpace (js "Rio&count=5") = false)
    by (vm_compute; reflexivity).
  assert (H3 : encodeURIComponent (js "Rio&count=5") = Ok (js "Rio%26count%3D5"))
    by (vm_compute; reflexivity).
  exact (proj1 (proj2 (city_name_cannot_inject_parameters
                         Example.geocodingDown (js "Rio&count=5")
                         (js "Rio%26count%3D5") (Example.start "")
                         H1 H2 H3))).
Defined.

(** X18.  A day whose date does not give three numbers (a part is
    missing, or the host reads one of them as NaN) has no weekday: the
    date built from them is invalid, the label looked up is [undefined],
    and the loop body throws a TypeError before it builds anything. *)
Theorem forecast_row_needs_a_full_date
    (rt : Runtime) (daily : JSValue) (i : nat) (days : list JSValue)
    (isoDate : jsstring) :
  get daily (js "time") = Ok (JArr days) ->
  days !! i = Some (JStr isoDate) ->
  Number rt (split 0x2D isoDate !! 0%nat) = None
  \/ Number rt (split 0x2D isoDate !! 1%nat) = None
  \/ Number rt (split 0x2D isoDate !! 2%nat) = None ->
  forecastItem rt daily i
  = Throw (mkExn TypeError
             (Some (js "Cannot read properties of undefined (reading 'split')"))).
Proof.
  intros Htime Hday Hnan. unfold forecastItem. rewrite Htime.
  cbn [mbind Result_bind getIndex]. rewrite Hday.
  cbn [default from_option id isoDateSplit mbind Result_bind].
  assert (Hweek : weekdayOf rt (split 0x2D isoDate !! 0%nat)
                            (split 0x2D isoDate !! 1%nat)
                            (split 0x2D isoDate !! 2%nat) = None).
  { unfold weekdayOf.
    destruct Hnan as [H|[H|H]]; rewrite H;
      repeat match goal with
             | |- context [Number rt ?x] => destruct (Number rt x)
             end; reflexivity. }
  rewrite Hweek. vm_compute. reflexivity.
Qed.

(** A date without its day. *)
Lemma forecast_row_needs_a_full_date_witness :
  forecastItem Example.saoPaulo
    (JObj [(js "time", JArr [JStr (js "2025-11")])]) 0
  = Throw (mkExn TypeError
             (Some (js "Cannot read properties of undefined (reading 'split')"))).
Proof.
  apply (forecast_row_needs_a_full_date Example.saoPaulo
           (JObj [(js "time", JArr [JStr (js "2025-11")])]) 0
           [JStr (js "2025-11")] (js "2025-11")).
  - vm_compute. reflexivity.
  - reflexivity.
  - right. right. vm_compute. reflexivity.
Defined.

(* ===================================================================== *)
(** ** What a submission never touches *)
(* ===================================================================== *)

Section Untouched.

Variable rt : Runtime.
Variable net : Network.
Variable renderDay : JSValue -> nat -> Result ForecastRow.

Lemma modifyPage_typed (f : Page -> Page) :
  (forall p, cityInput_value (f p) = cityInput_value p) ->
  keeps typed (modifyPage f).
Proof. intros H w. unfold typed. cbn. apply H. Qed.

Lemma setDisplay_typed (e : Elem) (d : Display) : keeps typed (setDisplay e d).
Proof. now apply modifyPage_typed. Qed.

Lemma setTextContent_typed (e : Elem) (s : jsstring) :
  keeps typed (setTextContent e s).
Proof. now apply modifyPage_typed. Qed.

Lemma setClassName_typed (e : Elem) (s : jsstring) :
  keeps typed (setClassName e s).
Proof. now apply modifyPage_typed. Qed.

Lemma setDisabled_typed (b : bool) : keeps typed (setDisabled b).
Proof. now apply modifyPage_typed. Qed.

Lemma setNoBg_typed (b : bool) : keeps typed (setNoBg b).
Proof. now apply modifyPage_typed. Qed.

Lemma getCityCoordinates_typed (cityName : jsstring) :
  keeps typed (getCityCoordinates net cityName).
Proof. intros w. unfold typed. now rewrite getCityCoordinates_page. Qed.

Lemma getWeatherData_typed (lat lon : JSValue) :
  keeps typed (getWeatherData net lat lon).
Proof. intros w. unfold typed. now rewrite getWeatherData_page. Qed.

Lemma showCurrent_typed (rev : Revision) (cityData : Location)
    (weather : JSValue) :
  keeps typed (showCurrent rt rev cityData weather).
Proof.
  apply showCurrent_keeps;
    [apply setTextContent_typed|apply setClassName_typed].
Qed.

Lemma showForecast_typed (cityData : Location) :
  keeps typed (showForecast rt net renderDay cityData).
Proof.
  intros w. unfold typed.
  destruct (showForecast_page rt net renderDay cityData w) as [panel ->].
  reflexivity.
Qed.

Lemma keeps_finally {A X : Type} (view : World -> X) (body : IO A)
    (fin : IO unit) :
  keeps view body -> keeps view fin -> keeps view (finally body fin).
Proof.
  intros Hb Hf w. unfold finally. specialize (Hb w).
  destruct (body w) as [r w']. specialize (Hf w').
  destruct (fin w') as [[[]|e] w'']; cbn [snd] in *; congruence.
Qed.

#[local] Hint Resolve setDisplay_typed setTextContent_typed setClassName_typed
  setDisabled_typed setNoBg_typed getCityCoordinates_typed getWeatherData_typed
  showCurrent_typed showForecast_typed : keeps.

Lemma tryBlock_typed (rev : Revision) (cityName : jsstring) :
  keeps typed (tryBlock rt net renderDay rev cityName).
Proof.
  unfold tryBlock, hideSearchForm. destruct rev; keeps_steps.
Qed.

Lemma catchBlock_typed (err : Exn) : keeps typed (catchBlock err).
Proof. unfold catchBlock. keeps_steps. Qed.

Lemma clearStates_typed : keeps typed clearStates.
Proof. unfold clearStates. keeps_steps. Qed.

End Untouched.

(** X19.  A submission never changes what is typed in the search box:
    after the query, shown or failed, the name is still there.  (Only the
    "Voltar" button empties the box.) *)
Theorem submit_leaves_the_typed_name
    (rt : Runtime) (net : Network)
    (renderDay : JSValue -> nat -> Result ForecastRow)
    (rev : Revision) (w : World) :
  cityInput_value (page (onSubmit rt net renderDay rev w).2)
  = cityInput_value (page w).
Proof.
  revert w. change (keeps typed (onSubmit rt net renderDay rev)).
  unfold onSubmit. apply keeps_bind; [apply keeps_readPage|].
  intros input. apply keeps_if; [apply keeps_ret|].
  apply keeps_bind; [apply clearStates_typed|]. intros _.
  apply keeps_finally; [|apply setDisabled_typed].
  apply keeps_tryCatch; [apply tryBlock_typed|apply catchBlock_typed].
Qed.

(* ===================================================================== *)
(** ** The original revision against the later ones *)
(* ===================================================================== *)

Section Revisions.

Variable rt : Runtime.
Variable net : Network.

(** A [catch] that throws what it caught changes nothing. *)
Lemma tryCatch_rethrow {A : Type} (m : IO A) (w : World) :
  tryCatch m (fun e => throw e) w = m w.
Proof. unfold tryCatch, throw. now destruct (m w) as [[a|e] w']. Qed.

Lemma bind_ext {A B : Type} (m : IO A) (k1 k2 : A -> IO B) (w : World) :
  (forall a w', k1 a w' = k2 a w') -> bind m k1 w = bind m k2 w.
Proof. intros H. unfold bind. now destruct (m w) as [[a|e] w']. Qed.

Lemma original_getCityCoordinates_page (cityName : jsstring) :
  keeps page (Original.getCityCoordinates net cityName).
Proof.
  pose proof (fetch_page net) as Hfetch.
  unfold Original.getCityCoordinates. cbv zeta. keeps_steps.
Qed.

Lemma original_getWeatherData_page (lat lon : JSValue) :
  keeps page (Original.getWeatherData net lat lon).
Proof.
  pose proof (fetch_page net) as Hfetch.
  unfold Original.getWeatherData. cbv zeta. keeps_steps.
Qed.

End Revisions.

(** X20.  The resolver of the original revision and the later one do the
    same on every name that is not blank: the guard is the only change
    (reading [data.results[0]] once instead of four times makes no
    difference).  On a blank name the original sends the request all the
    same, where the later one refuses without sending. *)
Theorem guard_is_the_only_change_to_the_resolver
    (net : Network) (cityName : jsstring) (w : World) :
  (forallb isWhiteSpace cityName = false ->
   Original.getCityCoordinates net cityName w
   = getCityCoordinates net cityName w)
  /\ (forall encoded,
      encodeURIComponent cityName = Ok encoded ->
      sent (Original.getCityCoordinates net cityName w).2
      = sent w ++ [geocodingRequest encoded]).
Proof.
  assert (Hsame : forall encoded,
            encodeURIComponent cityName = Ok encoded ->
            Original.getCityCoordinates net cityName w
            = (res <- fetch net (geocodingRequest encoded) ;;
               if negb (ok res) then
                 throw (newError (js "Erro ao buscar coordenadas da cidade"))
               else
                 data <- lift (json res) ;;
                 results <- lift (get data (js "results")) ;;
                 len <- lift (if truthy results then get results (js "length")
                              else Ok JUndefined) ;;
                 if negb (truthy results) || strictEqNum len 0 then
                   throw (newError (js "Cidade não encontrada"))
                 else
                   r <- lift (getIndex results 0) ;;
                   latitude <- lift (get r (js "latitude")) ;;
                   longitude <- lift (get r (js "longitude")) ;;
                   rname <- lift (get r (js "name")) ;;
                   rcountry <- lift (get r (js "country")) ;;
                   ret (mkLocation latitude longitude rname rcountry)) w).
  { intros encoded Henc. unfold Original.getCityCoordinates.
    rewrite tryCatch_rethrow. unfold bind at 1, lift at 1. rewrite Henc.
    unfold geocodingRequest. apply bind_ext. intros res w'.
    destruct (negb (ok res)); [reflexivity|].
    unfold bind, lift, throw, ret. cbv zeta.
    destruct (json res) as [data|e]; [|reflexivity].
    destruct (get data (js "results")) as [results|e]; [|reflexivity].
    destruct (if truthy results then get results (js "length") else Ok JUndefined)
      as [len|e]; [|reflexivity].
    destruct (negb (truthy results) || strictEqNum len 0); [reflexivity|].
    destruct (getIndex results 0) as [r|e]; [|reflexivity].
    destruct (get r (js "latitude")) as [latitude|e]; [|reflexivity].
    destruct (get r (js "longitude")) as [longitude|e]; [|reflexivity].
    destruct (get r (js "name")) as [rname|e]; [|reflexivity].
    destruct (get r (js "country")) as [rcountry|e]; reflexivity. }
  split.
  - intros Hblank.
    destruct (encodeURIComponent cityName) as [encoded|e] eqn:Henc.
    + rewrite (Hsame encoded eq_refl).
      now rewrite (getCityCoordinates_request net _ _ _ Hblank Henc).
    + unfold Original.getCityCoordinates, getCityCoordinates.
      rewrite tryCatch_rethrow, blank_name, Hblank.
      unfold bind at 1, lift at 1. unfold bind at 1, lift at 1.
      now rewrite Henc.
  - intros encoded Henc. rewrite (Hsame encoded Henc).
    rewrite <- (fetch_sent net w). unfold bind at 1.
    destruct (fetch net (geocodingRequest encoded) w) as [[res|e] w'];
      [|reflexivity].
    cbn [snd]. unfold bind, lift, throw, ret. case_all; reflexivity.
Qed.

(** Lisboa is resolved alike by both; the empty name is sent by the
    original. *)
Lemma guard_is_the_only_change_to_the_resolver_witness :
  Original.getCityCoordinates Example.geocodingDown (js "Lisboa")
                              (Example.start "")
  = getCityCoordinates Example.geocodingDown (js "Lisboa") (Example.start "")
  /\ sent (Original.getCityCoordinates Example.geocodingDown []
             (Example.start "")).2
     = sent (Example.start "") ++ [geocodingRequest []].
Proof.
  split.
  - apply (proj1 (guard_is_the_only_change_to_the_resolver
                    Example.geocodingDown (js "Lisboa") (Example.start ""))).
    vm_compute. reflexivity.
  - apply (proj2 (guard_is_the_only_change_to_the_resolver
                    Example.geocodingDown [] (Example.start "")) []).
    reflexivity.
Defined.

(** X21.  In the original revision an answer without the [current]
    record is not caught before it is used: the handler has already
    written the city when reading [temperature_2m] throws, and what the
    user reads in [#error] is the engine's TypeError message (the later
    revisions show ["Dados de clima indisponíveis"] instead).  The panel
    of results stays hidden. *)
Theorem original_handler_reads_missing_record
    (rt : Runtime) (net : Network) (w w1 w2 : World) (cityData : Location)
    (weatherData : JSValue) :
  trim (cityInput_value (page w)) <> [] ->
  Original.getCityCoordinates net (trim (cityInput_value (page w)))
                              (clearStates w).2 = (Ok cityData, w1) ->
  Original.getWeatherData net (lat cityData) (lon cityData) w1
  = (Ok weatherData, w2) ->
  nullish weatherData = true ->
  let final := Original.onSubmit rt net w in
  final.1 = Ok tt
  /\ display (page final.2) errorEl = display_block
  /\ display (page final.2) weatherInfoEl = display_none
  /\ textContent (page final.2) errorEl
     = js "Cannot read properties of " ++ toString (rt_fracToString rt) weatherData
       ++ js " (reading 'temperature_2m')"
  /\ textContent (page final.2) cityNameEl
     = toString (rt_fracToString rt) (name cityData) ++ js ", "
       ++ toString (rt_fracToString rt) (country cityData).
Proof.
  intros Hin Hcity Hweather Hnull. cbv zeta.
  pose proof (original_getCityCoordinates_page net
                (trim (cityInput_value (page w))) (clearStates w).2) as Hp1.
  pose proof (original_getWeatherData_page net (lat cityData) (lon cityData) w1)
    as Hp2.
  rewrite Hcity in Hp1. rewrite Hweather in Hp2. cbn [snd] in Hp1, Hp2.
  set (city := toString (rt_fracToString rt) (name cityData) ++ js ", "
               ++ toString (rt_fracToString rt) (country cityData)).
  set (err := nullishRead (toString (rt_fracToString rt) weatherData)
                          (js "temperature_2m")).
  assert (Hget : get weatherData (js "temperature_2m") = Throw err)
    by (destruct weatherData; try discriminate; reflexivity).
  assert (Hrun : Original.onSubmit rt net w
                 = (Ok tt, (setDisabled false
                              (catchBlock err (setTextContent cityNameEl city w2).2).2).2)).
  { apply isEmpty_false in Hin.
    unfold Original.onSubmit, bind at 1, readPage. cbn [page]. rewrite Hin.
    unfold bind at 1.
    assert (Hclear : clearStates w = (Ok tt, (clearStates w).2)) by reflexivity.
    rewrite Hclear. unfold finally, tryCatch, Original.tryBlock.
    unfold bind at 1. rewrite Hcity. unfold bind at 1. rewrite Hweather.
    fold city. unfold bind at 1.
    assert (Hset : setTextContent cityNameEl city w2
                   = (Ok tt, (setTextContent cityNameEl city w2).2))
      by reflexivity.
    rewrite Hset. unfold bind at 1, lift at 1. rewrite Hget. reflexivity. }
  rewrite Hrun. cbn [fst snd].
  pose proof (catchBlock_displays err (setTextContent cityNameEl city w2).2)
    as Hd.
  pose proof (Hd errorEl) as Herr. pose proof (Hd weatherInfoEl) as Hinfo.
  unfold displays in Herr, Hinfo.
  split; [reflexivity|]. split; [exact Herr|]. split.
  { rewrite Hinfo. cbn [setTextContent modifyPage snd page display].
    rewrite Hp2, Hp1.
    pose proof (clearStates_displays w weatherInfoEl) as Hc. exact Hc. }
  cbn [setDisabled catchBlock setDisplay setTextContent bind modifyPage
       fst snd page textContent].
  rewrite !decide_True by reflexivity. rewrite decide_False by discriminate.
  rewrite decide_True by reflexivity. split; [|reflexivity].
  subst err. destruct weatherData; try discriminate; vm_compute; reflexivity.
Qed.

(** The weather service answers 200 with an empty record. *)
Lemma original_handler_reads_missing_record_witness :
  textContent
    (page (Original.onSubmit Example.saoPaulo
             (Example.scripted [Example.respond 200 Example.lisboa;
                                Example.respond 200 (JObj [])])
             (Example.start "Lisboa")).2) errorEl
  = js "Cannot read properties of undefined (reading 'temperature_2m')".
Proof.
  assert (H1 : trim (cityInput_value (page (Example.start "Lisboa"))) <> [])
    by (vm_compute; discriminate).
  destruct (original_handler_reads_missing_record Example.saoPaulo
              (Example.scripted [Example.respond 200 Example.lisboa;
                                 Example.respond 200 (JObj [])])
              (Example.start "Lisboa")
              (Original.getCityCoordinates
                 (Example.scripted [Example.respond 200 Example.lisboa;
                                    Example.respond 200 (JObj [])])
                 (js "Lisboa") (clearStates (Example.start "Lisboa")).2).2
              (Original.getWeatherData
                 (Example.scripted [Example.respond 200 Example.lisboa;
                                    Example.respond 200 (JObj [])])
                 (Example.num 3872 100) (Example.num (-914) 100)
                 (Original.getCityCoordinates
                    (Example.scripted [Example.respond 200 Example.lisboa;
                                       Example.respond 200 (JObj [])])
                    (js "Lisboa") (clearStates (Example.start "Lisboa")).2).2).2
              Sample.lisboaCity JUndefined H1)
    as (_ & _ & _ & H & _).
  - vm_compute. reflexivity.
  - vm_compute. reflexivity.
  - reflexivity.
  - rewrite H. vm_compute. reflexivity.
Defined.
